(** * Conplicity: orchestration of backup workers

    A shallow embedding of the three sources of the repository:
    the command [main] (volume discovery and the per-volume worker),
    the package [volume] (the Duplicity operations and the status parser)
    and the package [engines] (the Restic engine and its worker launcher).

    Go values are embedded as they are in the program: strings are byte
    strings, [int] values are [Z], a nil-able [error] is [option error],
    a nil-able pointer is an [option], a Go map is a [gmap].  Calls that
    leave the process (the container runtime, the operating system) are
    answered by an explicit environment and recorded in the world. *)

From Stdlib Require Import ZArith Lia String Ascii List DecimalString.
From stdpp Require Import base option list strings gmap.

Local Open Scope string_scope.
Local Open Scope list_scope.

(** ** Strings and formatting *)

(** The double quote character, as a one-byte string. *)
Definition dquote : string := String "034"%char EmptyString.

(** [strconv.Itoa], and the rendering of an integer under the verb [%v]. *)
Definition Itoa (z : Z) : string := NilZero.string_of_int (Z.to_int z).

(** [fmt.Sprintf] for the one verb the sources use, [%v], applied to
    arguments already rendered as text (a string renders as itself, an
    integer through [Itoa], an error through its message). *)
Fixpoint Sprintf (format : string) (args : list string) : string :=
  match format with
  | EmptyString => EmptyString
  | String c rest =>
      match c, rest with
      | "%"%char, String "v"%char rest' =>
          match args with
          | a :: args' => a ++ Sprintf rest' args'
          | [] => "%!v(MISSING)" ++ Sprintf rest' []
          end
      | _, _ => String c (Sprintf rest args)
      end
  end.

(** [strings.HasPrefix s p]. *)
Fixpoint HasPrefix (s p : string) : bool :=
  match p, s with
  | EmptyString, _ => true
  | String _ _, EmptyString => false
  | String b p', String a s' => if Ascii.eqb a b then HasPrefix s' p' else false
  end.

(** [strings.Contains s substr]. *)
Fixpoint Contains (s substr : string) : bool :=
  HasPrefix s substr ||
  match s with
  | EmptyString => false
  | String _ s' => Contains s' substr
  end.

(** Reversal of a byte string. *)
Fixpoint revString (acc s : string) : string :=
  match s with
  | EmptyString => acc
  | String c s' => revString (String c acc) s'
  end.

Definition byte (c : ascii) : N := N_of_ascii c.

Definition inRange (lo hi : N) (c : ascii) : bool :=
  ((lo <=? byte c) && (byte c <=? hi))%N.

(** ** UTF-8 *)

Module utf8.

(** The entry of the table [first] for a leading byte at or above
    [RuneSelf]: the size of the sequence and the range accepted for its
    second byte; [None] for a byte that starts no sequence. *)
Definition first (c : ascii) : option (nat * N * N) :=
  let b := byte c in
  if (b <? 194)%N then None
  else if (b <=? 223)%N then Some (2%nat, 128%N, 191%N)
  else if (b =? 224)%N then Some (3%nat, 160%N, 191%N)
  else if (b <=? 236)%N then Some (3%nat, 128%N, 191%N)
  else if (b =? 237)%N then Some (3%nat, 128%N, 159%N)
  else if (b <=? 239)%N then Some (3%nat, 128%N, 191%N)
  else if (b =? 240)%N then Some (4%nat, 144%N, 191%N)
  else if (b <=? 243)%N then Some (4%nat, 128%N, 191%N)
  else if (b =? 244)%N then Some (4%nat, 128%N, 143%N)
  else None.

(** Number of bytes the rune at the head of [s] occupies; an invalid or
    truncated sequence is one rune of width one. *)
Definition runeSize (s : string) : nat :=
  match s with
  | EmptyString => 0
  | String c rest =>
      if (byte c <? 128)%N then 1
      else match first c with
           | None => 1
           | Some (size, lo, hi) =>
               if (String.length rest <? size - 1)%nat then 1
               else match rest with
                    | String c1 rest1 =>
                        if negb (inRange lo hi c1) then 1
                        else if (size =? 2)%nat then 2
                        else match rest1 with
                             | String c2 rest2 =>
                                 if negb (inRange 128 191 c2) then 1
                                 else if (size =? 3)%nat then 3
                                 else match rest2 with
                                      | String c3 _ =>
                                          if negb (inRange 128 191 c3) then 1 else 4
                                      | EmptyString => 1
                                      end
                             | EmptyString => 1
                             end
                    | EmptyString => 1
                    end
           end
  end.

(** The loop of [RuneCountInString]: [skip] bytes of the current rune
    are still to be passed over. *)
Fixpoint countFrom (skip : nat) (s : string) : nat :=
  match s with
  | EmptyString => 0
  | String _ rest =>
      match skip with
      | S k => countFrom k rest
      | O => S (countFrom (runeSize s - 1) rest)
      end
  end.

Definition RuneCountInString (s : string) : Z := Z.of_nat (countFrom 0 s).

End utf8.

(** ** [strings.TrimSpace] *)

(** Width in bytes of the white-space rune at the head of [s]
    ([unicode.IsSpace]), 0 when [s] does not start with one. *)
Definition spaceWidth (s : string) : nat :=
  match s with
  | EmptyString => 0
  | String c rest =>
      let b := byte c in
      if ((9 <=? b) && (b <=? 13) || (b =? 32))%N then 1
      else match rest with
           | EmptyString => 0
           | String c1 rest1 =>
               let b1 := byte c1 in
               if ((b =? 194) && ((b1 =? 133) || (b1 =? 160)))%N then 2
               else match rest1 with
                    | EmptyString => 0
                    | String c2 _ =>
                        let b2 := byte c2 in
                        if ((b =? 225) && (b1 =? 154) && (b2 =? 128)
                            || (b =? 226) && (b1 =? 128)
                               && ((128 <=? b2) && (b2 <=? 138)
                                   || (b2 =? 168) || (b2 =? 169) || (b2 =? 175))
                            || (b =? 226) && (b1 =? 129) && (b2 =? 159)
                            || (b =? 227) && (b1 =? 128) && (b2 =? 128))%N
                        then 3 else 0
                    end
           end
  end.

(** The same on a reversed string: width of the white-space rune whose
    encoding ends the original string. *)
Definition spaceWidthRev (r : string) : nat :=
  match r with
  | EmptyString => 0
  | String c2 rest =>
      if ((9 <=? byte c2) && (byte c2 <=? 13) || (byte c2 =? 32))%N then 1
      else match rest with
           | EmptyString => 0
           | String c1 rest1 =>
               match spaceWidth (String c1 (String c2 EmptyString)) with
               | 2%nat => 2
               | _ => match rest1 with
                      | EmptyString => 0
                      | String c0 _ =>
                          match spaceWidth (String c0 (String c1 (String c2 EmptyString))) with
                          | 3%nat => 3
                          | _ => 0
                          end
                      end
               end
           end
  end.

Fixpoint trimWith (width : string -> nat) (skip : nat) (s : string) : string :=
  match s with
  | EmptyString => EmptyString
  | String _ rest =>
      match skip with
      | S k => trimWith width k rest
      | O => match width s with
             | O => s
             | S w => trimWith width w rest
             end
      end
  end.

Definition TrimSpace (s : string) : string :=
  let left := trimWith spaceWidth 0 s in
  revString EmptyString (trimWith spaceWidthRev 0 (revString EmptyString left)).

(** ** Errors *)

(** A Go error value, carried by its message ([errors.New]). *)
Inductive error : Type := New (msg : string).

Definition Error (e : error) : string := let 'New m := e in m.

(** [fmt.Errorf]. *)
Definition Errorf (format : string) (args : list string) : error :=
  New (Sprintf format args).

(** ** Types of the container-runtime clients *)

Module docker.

(** [docker.Volume]: a volume as the runtime reports it. *)
Record Volume := {
  Name : string;
  Driver : string;
  Mountpoint : string;
  Labels : gmap string string
}.

(** [docker.Config] / [container.Config]: what a worker runs. *)
Record Config := {
  Cmd : list string;
  Env : list string;
  Image : string;
  OpenStdin : bool;
  StdinOnce : bool;
  AttachStdin : bool;
  AttachStdout : bool;
  AttachStderr : bool;
  Tty : bool
}.

Record HostConfig := { Binds : list string }.

Record CreateContainerOptions := { Config_ : Config }.

(** [docker.Container] / the body answered by [ContainerCreate]. *)
Record Container := { ID : string }.

Record RemoveContainerOptions := { ID_ : string; Force : bool }.

(** [types.ContainerJSON], reduced to the state the launcher reads. *)
Record ContainerJSON := { Status : string; ExitCode : Z }.

Record ContainerLogsOptions := {
  ShowStdout : bool;
  ShowStderr : bool;
  Details : bool;
  Follow : bool
}.

End docker.

(** The struct [environment] of the command, filled by [env.Parse]. *)
Module settings.

Record environment := {
Image : string;
DuplicityTargetURL : string;
AWSAccessKeyID : string;
AWSSecretAccessKey : string;
SwiftUsername : string;
SwiftPassword : string;
SwiftAuthURL : string;
SwiftTenantName : string;
SwiftRegionName : string;
FullIfOlderThan : string
}.

End settings.
Export settings.

(** ** The process and its surroundings *)

(** Every call that leaves the program.  The first group is made by the
    command, the second by package [volume], the third by the Restic
    engine. *)
Inductive Call : Type :=
| OsHostname
| EnvParse
| NewClient (endpoint : string)
| ListVolumes
| InspectVolume (name : string)
| InspectImage (name : string)
| PullImage (repository : string)
| CreateContainer (opts : docker.CreateContainerOptions)
| RemoveContainer (opts : docker.RemoveContainerOptions)
| DockerptyStart (container : option docker.Container) (hostConfig : docker.HostConfig)
| LaunchDuplicity (cmd binds : list string)
| UtilPullImage (image : string)
| ContainerCreate (config : docker.Config) (hostConfig : docker.HostConfig)
| ContainerStart (id : string)
| ContainerInspect (id : string)
| ContainerLogs (id : string) (opts : docker.ContainerLogsOptions)
| ReadAll (id : string)
| BodyClose (id : string)
| UtilRemoveContainer (id : string)
| IsCheckScheduled (volume : string)
| Chtimes (path : string)
| UrlParse (rawurl : string)
| MetricUpdateEvent (metric kind volume value : string).

(** What each call gives back to the program, in the order of the Go
    results. *)
Definition result (c : Call) : Type :=
  match c with
  | OsHostname => string * option error
  | EnvParse => environment
  | NewClient _ => option error
  | ListVolumes => list docker.Volume * option error
  | InspectVolume _ => option docker.Volume * option error
  | InspectImage _ => option error
  | PullImage _ => option error
  | CreateContainer _ => option docker.Container * option error
  | RemoveContainer _ => option error
  | DockerptyStart _ _ => option error
  | LaunchDuplicity _ _ => docker.ContainerJSON * string * option error
  | UtilPullImage _ => option error
  | ContainerCreate _ _ => docker.Container * option error
  | ContainerStart _ => option error
  | ContainerInspect _ => docker.ContainerJSON * option error
  | ContainerLogs _ _ => option error
  | ReadAll _ => string * option error
  | BodyClose _ => option error
  | UtilRemoveContainer _ => option error
  | IsCheckScheduled _ => bool * option error
  | Chtimes _ => option error
  | UrlParse _ => string * option error
  | MetricUpdateEvent _ _ _ _ => option error
  end.

(** A call either comes back with its results or panics. *)
Inductive answer (A : Type) : Type :=
| Ans (a : A)
| Panic (v : string).
Arguments Ans {A} a.
Arguments Panic {A} v.

(** The surroundings answer a call knowing the calls made before it. *)
Definition Outside : Type := forall (history : list Call) (c : Call), answer (result c).

Inductive Level : Type := DebugLevel | InfoLevel | WarnLevel | ErrorLevel.

(** A line handed to the logger: level, format and rendered arguments. *)
Record LogEntry := { level : Level; format : string; args : list string }.

Record World := {
  outside : Outside;
  calls : list Call;
  logs : list LogEntry
}.

(** How a function of the program ends. *)
Inductive outcome (A : Type) : Type :=
| Returned (a : A)
| Exited (code : Z)
| Panicked (v : string)
| OutOfFuel.
Arguments Returned {A} a.
Arguments Exited {A} code.
Arguments Panicked {A} v.
Arguments OutOfFuel {A}.

Definition M (A : Type) : Type := World -> outcome A * World.

Definition ret {A} (a : A) : M A := fun w => (Returned a, w).

Definition bind {A B} (m : M A) (k : A -> M B) : M B :=
  fun w =>
    match m w with
    | (Returned a, w') => k a w'
    | (Exited code, w') => (Exited code, w')
    | (Panicked v, w') => (Panicked v, w')
    | (OutOfFuel, w') => (OutOfFuel, w')
    end.

Notation "'let*' p := m 'in' k" := (bind m (fun x => match x with p => k end))
  (at level 10, p pattern, m at level 100, k at level 200, only parsing).
Notation "m ;;; k" := (bind m (fun _ => k))
  (at level 100, right associativity, only parsing).

(** [os.Exit]: the process ends at once; deferred calls do not run. *)
Definition osExit {A} (code : Z) : M A := fun w => (Exited code, w).

Definition panic {A} (v : string) : M A := fun w => (Panicked v, w).

Definition outOfFuel {A} : M A := fun w => (OutOfFuel, w).

(** The world once the call [c] is on record. *)
Definition record (c : Call) (w : World) : World :=
  {| outside := outside w; calls := calls w ++ [c]; logs := logs w |}.

(** The world once the line [e] is in the log. *)
Definition logged (e : LogEntry) (w : World) : World :=
  {| outside := outside w; calls := calls w; logs := logs w ++ [e] |}.

(** A call to the outside: recorded, then answered. *)
Definition call (c : Call) : M (result c) :=
  fun w =>
    match outside w (calls w) c with
    | Ans a => (Returned a, record c w)
    | Panic v => (Panicked v, record c w)
    end.

Definition logf (l : Level) (fmt : string) (a : list string) : M unit :=
  fun w => (Returned tt, logged {| level := l; format := fmt; args := a |} w).

(** [defer d] in front of [body]: [d] runs when [body] returns and when it
    panics, not when the process exits; a panic of [d] replaces the
    outcome of [body]. *)
Definition defer {A} (d : M unit) (body : M A) : M A :=
  fun w =>
    match body w with
    | (Returned a, w') =>
        match d w' with
        | (Returned _, w'') => (Returned a, w'')
        | (Exited code, w'') => (Exited code, w'')
        | (Panicked v, w'') => (Panicked v, w'')
        | (OutOfFuel, w'') => (OutOfFuel, w'')
        end
    | (Panicked v, w') =>
        match d w' with
        | (Returned _, w'') => (Panicked v, w'')
        | (Exited code, w'') => (Exited code, w'')
        | (Panicked v', w'') => (Panicked v', w'')
        | (OutOfFuel, w'') => (OutOfFuel, w'')
        end
    | (Exited code, w') => (Exited code, w')
    | (OutOfFuel, w') => (OutOfFuel, w')
    end.

(** The message of a nil-pointer dereference. *)
Definition nilDereference : string :=
  "runtime error: invalid memory address or nil pointer dereference".

(** ** The command: discovery loop and per-volume worker *)

Module Main.
Import docker.

Definition labelPrefix : string := "io.conplicity".

(** The struct [conplicity]; its embedded client is the outside of the
    world, its embedded [environment] is [env]. *)
Record conplicity := {
  env : environment;
  Hostname : string
}.

Definition checkErr (err : option error) (msg : string) (exit : Z) : M unit :=
  match err with
  | Some e =>
      logf ErrorLevel msg [Error e] ;;;
      if (exit =? -1)%Z then ret tt else osExit exit
  | None => ret tt
  end.

Definition getEnv : M environment := call EnvParse.

Definition getVolumeLabel (vol : Volume) (key : string) : string :=
  default EmptyString (Labels vol !! (labelPrefix +:+ key)).

Definition pullImage (c : conplicity) : M (option error) :=
  let* err := call (InspectImage (settings.Image (env c))) in
  match err with
  | Some _ =>
      logf InfoLevel "Pulling image %v" [settings.Image (env c)] ;;;
      call (PullImage (settings.Image (env c)))
  | None => ret None
  end.

(** The options handed to [CreateContainer] for a volume and a resolved
    threshold. *)
Definition createOptions (c : conplicity) (vol : Volume) (fullIfOlderThan : string)
  : CreateContainerOptions :=
  {| Config_ := {|
       Cmd := [ "--full-if-older-than"; fullIfOlderThan;
                "--s3-use-new-style";
                "--no-encryption";
                "--allow-source-mismatch";
                "/var/backups";
                DuplicityTargetURL (env c) +:+ "/" +:+ Hostname c +:+ "/" +:+ Name vol ];
       Env := [ "AWS_ACCESS_KEY_ID=" +:+ AWSAccessKeyID (env c);
                "AWS_SECRET_ACCESS_KEY=" +:+ AWSSecretAccessKey (env c);
                "SWIFT_USERNAME=" +:+ SwiftUsername (env c);
                "SWIFT_PASSWORD=" +:+ SwiftPassword (env c);
                "SWIFT_AUTHURL=" +:+ SwiftAuthURL (env c);
                "SWIFT_TENANTNAME=" +:+ SwiftTenantName (env c);
                "SWIFT_REGIONNAME=" +:+ SwiftRegionName (env c);
                "SWIFT_AUTHVERSION=2" ];
       docker.Image := settings.Image (env c);
       OpenStdin := true;
       StdinOnce := true;
       AttachStdin := true;
       AttachStdout := true;
       AttachStderr := true;
       Tty := true |} |}.

(** The deferred closure of [backupVolume]: forced removal of the
    container just created. *)
Definition removeCreated (container : option Container) : M unit :=
  match container with
  | None => panic nilDereference
  | Some ct =>
      let* _ := call (RemoveContainer {| ID_ := ID ct; Force := true |}) in
      ret tt
  end.

Definition backupVolume (c : conplicity) (vol : option Volume) : M (option error) :=
  match vol with
  | None => panic nilDereference
  | Some vol =>
      if (utf8.RuneCountInString (Name vol) =? 64)%Z then
        logf InfoLevel ("Ignoring unnamed volume " +:+ Name vol) [] ;;;
        ret None
      else if String.eqb (getVolumeLabel vol ".ignore") "true" then
        logf InfoLevel ("Ignoring blacklisted volume " +:+ Name vol) [] ;;;
        ret None
      else
        logf InfoLevel ("ID: " +:+ Name vol) [] ;;;
        logf InfoLevel ("Driver: " +:+ Driver vol) [] ;;;
        logf InfoLevel ("Mountpoint: " +:+ Mountpoint vol) [] ;;;
        logf InfoLevel "Creating duplicity container..." [] ;;;
        let fullIfOlderThan := getVolumeLabel vol ".full_if_older_than" in
        let fullIfOlderThan :=
          if String.eqb fullIfOlderThan EmptyString
          then FullIfOlderThan (env c) else fullIfOlderThan in
        let* (container, err) := call (CreateContainer (createOptions c vol fullIfOlderThan)) in
        checkErr err ("Failed to create container for volume " +:+ Name vol +:+ ": %v") 1 ;;;
        defer (removeCreated container)
          (let binds := [ Mountpoint vol +:+ ":/var/backups:ro" ] in
           let* err := call (DockerptyStart container {| Binds := binds |}) in
           checkErr err ("Failed to start container for volume " +:+ Name vol +:+ ": %v") (-1) ;;;
           ret err)
  end.

(** The [range] loop of [main]; [err] is the variable of that name, which
    the loop reads before it assigns it. *)
Fixpoint forVols (c : conplicity) (vols : list Volume) (err : option error)
  : M (option error) :=
  match vols with
  | [] => ret err
  | vol :: rest =>
      let* (voll, _) := call (InspectVolume (Name vol)) in
      checkErr err ("Failed to inspect volume " +:+ Name vol +:+ ": %v") (-1) ;;;
      let* err := backupVolume c voll in
      checkErr err ("Failed to process volume " +:+ Name vol +:+ ": %v") (-1) ;;;
      forVols c rest err
  end.

Definition main : M unit :=
  logf InfoLevel "Starting backup..." [] ;;;
  let* e := getEnv in
  let* (hostname, err) := call OsHostname in
  checkErr err "Failed to get hostname: %v" 1 ;;;
  let endpoint := "unix:///var/run/docker.sock" in
  let* err := call (NewClient endpoint) in
  checkErr err "Failed to create Docker client: %v" 1 ;;;
  let c := {| env := e; Hostname := hostname |} in
  let* (vols, err) := call ListVolumes in
  checkErr err "Failed to list Docker volumes: %v" 1 ;;;
  let* err := pullImage c in
  checkErr err "Failed to pull image: %v" 1 ;;;
  let* _ := forVols c vols err in
  logf InfoLevel "End backup..." [].

End Main.

(** ** Package [time], as far as the status parser uses it *)

Module time.

(** A [Time]: seconds elapsed since January 1, year 1, 00:00:00 UTC.
    The zero value [Time{}] is that instant. *)
Record Time := { sec : Z }.

Definition zero : Time := {| sec := 0 |}.

Definition unixToInternal : Z := 62135596800.

(** [t.Unix()]. *)
Definition Unix (t : Time) : Z := (sec t - unixToInternal)%Z.

(** The parser of time stamps belongs to the Go library; the development
    is stated for any function from a layout and a text to a [Time] or an
    error. *)
Class Parser := { parse : string -> string -> error + Time }.

(** [time.Parse]: next to an error, the [Time] given back is [Time{}]. *)
Definition Parse `{Parser} (layout value : string) : Time * option error :=
  match parse layout value with
  | inr t => (t, None)
  | inl e => (zero, Some e)
  end.

(** *** An instance for the layout [Mon Jan 2 15:04:05 2006] *)

Definition lower (c : ascii) : ascii :=
  if inRange 65 90 c then ascii_of_N (byte c + 32) else c.

Fixpoint lowerString (s : string) : string :=
  match s with
  | EmptyString => EmptyString
  | String c s' => String (lower c) (lowerString s')
  end.

(** Position (from 1) of the three-letter name at the head of [value] in
    [tab], without regard to case, and the rest of [value]. *)
Fixpoint lookup (tab : list string) (value : string) (i : Z) : option (Z * string) :=
  match tab with
  | [] => None
  | name :: tab' =>
      if HasPrefix (lowerString (substring 0 3 value)) (lowerString name)
      then Some (i, substring 3 (String.length value - 3) value)
      else lookup tab' value (i + 1)%Z
  end.

Definition shortDayNames : list string :=
  ["Sun"; "Mon"; "Tue"; "Wed"; "Thu"; "Fri"; "Sat"].

Definition shortMonthNames : list string :=
  ["Jan"; "Feb"; "Mar"; "Apr"; "May"; "Jun"; "Jul"; "Aug"; "Sep"; "Oct"; "Nov"; "Dec"].

Definition isDigit (c : ascii) : bool := inRange 48 57 c.

Definition digit (c : ascii) : Z := (Z.of_N (byte c) - 48)%Z.

(** [getnum]: one or two digits, exactly two when [fixed]. *)
Definition getnum (value : string) (fixed : bool) : option (Z * string) :=
  match value with
  | String a rest =>
      if isDigit a then
        match rest with
        | String b rest' =>
            if isDigit b then Some ((digit a * 10 + digit b)%Z, rest')
            else if fixed then None else Some (digit a, rest)
        | EmptyString => if fixed then None else Some (digit a, rest)
        end
      else None
  | EmptyString => None
  end.

Fixpoint cutspace (s : string) : string :=
  match s with
  | String " "%char s' => cutspace s'
  | _ => s
  end.

(** [skip] for a layout piece made of one space. *)
Definition skipSpace (value : string) : option string :=
  match value with
  | String c _ => if Ascii.eqb c " "%char then Some (cutspace value) else None
  | EmptyString => Some EmptyString
  end.

(** [skip] for a layout piece made of one colon. *)
Definition skipColon (value : string) : option string :=
  match value with
  | String ":"%char rest => Some rest
  | _ => None
  end.

Fixpoint dropDigits (s : string) : string :=
  match s with
  | String c s' => if isDigit c then dropDigits s' else s
  | EmptyString => s
  end.

(** A fractional second after the seconds field is read and dropped. *)
Definition skipFraction (value : string) : string :=
  match value with
  | String c (String d rest) =>
      if (Ascii.eqb c "."%char || Ascii.eqb c ","%char) && isDigit d
      then dropDigits rest else value
  | _ => value
  end.

Definition longYear (value : string) : option (Z * string) :=
  match value with
  | String a (String b (String c (String d rest))) =>
      if isDigit a && isDigit b && isDigit c && isDigit d
      then Some ((digit a * 1000 + digit b * 100 + digit c * 10 + digit d)%Z, rest)
      else None
  | _ => None
  end.

Definition isLeap (year : Z) : bool :=
  ((year mod 4 =? 0) && (negb (year mod 100 =? 0) || (year mod 400 =? 0)))%Z.

Definition daysBefore (month : Z) : Z :=
  nth (Z.to_nat (month - 1)) [0; 31; 59; 90; 120; 151; 181; 212; 243; 273; 304; 334]%Z 0%Z.

Definition daysIn (month year : Z) : Z :=
  if ((month =? 2) && isLeap year)%Z then 29%Z
  else (daysBefore (month + 1) - daysBefore month
        + (if (month =? 12)%Z then 365 else 0))%Z.

(** [time.Date] in UTC. *)
Definition Date (year month day hour min s : Z) : Time :=
  let y := (year - 1)%Z in
  let days := (365 * y + y / 4 - y / 100 + y / 400 + daysBefore month
               + (if isLeap year && (2 <? month)%Z then 1 else 0) + (day - 1))%Z in
  {| sec := (days * 86400 + hour * 3600 + min * 60 + s)%Z |}.

(** The struct [ParseError]: the error of a failed [Parse]. *)
Record ParseError := {
  Layout : string;
  Value : string;
  LayoutElem : string;
  ValueElem : string;
  Message : string
}.

Definition newParseError (layout value layoutElem valueElem message : string) : ParseError :=
  {| Layout := layout; Value := value; LayoutElem := layoutElem; ValueElem := valueElem;
     Message := message |}.

Definition lowerhex (n : N) : ascii :=
  nth (N.to_nat n) (list_ascii_of_string "0123456789abcdef") "0"%char.

(** [quote] of the library (as of Go 1.20): the text between double
    quotes; a double quote and a backslash get a backslash in front, a byte
    below 32 or above 127 is written [\x] and two hexadecimal digits. *)
Fixpoint quoteBytes (s : string) : string :=
  match s with
  | EmptyString => EmptyString
  | String c s' =>
      (if (byte c <? 32)%N || (128 <=? byte c)%N then
         String "092"%char (String "x"%char
           (String (lowerhex (byte c / 16)) (String (lowerhex (byte c mod 16)) EmptyString)))
       else if Ascii.eqb c "034"%char || Ascii.eqb c "092"%char then
         String "092"%char (String c EmptyString)
       else String c EmptyString)
      +:+ quoteBytes s'
  end.

Definition quote (s : string) : string := dquote +:+ quoteBytes s +:+ dquote.

(** The method [Error] of a [ParseError]. *)
Definition ParseError_Error (e : ParseError) : string :=
  if String.eqb (Message e) EmptyString then
    "parsing time " +:+ quote (Value e) +:+ " as " +:+ quote (Layout e)
    +:+ ": cannot parse " +:+ quote (ValueElem e) +:+ " as " +:+ quote (LayoutElem e)
  else "parsing time " +:+ quote (Value e) +:+ Message e.

#[global] Instance ParseError_bind : MBind (sum ParseError) :=
  fun A B k x => match x with inl e => inl e | inr a => k a end.

(** A piece of the layout that the value does not follow: [errBad]
    becomes the [ParseError] that names the piece and what was left of the
    value. *)
Definition orBad {A : Type} (o : option A) (e : ParseError) : ParseError + A :=
  match o with
  | Some a => inr a
  | None => inl e
  end.

(** A test of the loop that ends it with an error when it fails. *)
Definition require (ok : bool) (e : ParseError) : ParseError + unit :=
  if ok then inr tt else inl e.

(** The loop of [parse] for the pieces of the layout
    [Mon Jan 2 15:04:05 2006], one after the other; then the day is
    checked against the month and the year; the time is in UTC. *)
Definition parseStamp (alayout avalue : string) : ParseError + Time :=
  let bad := newParseError alayout avalue in
  let value := avalue in
  '(_, value) ← orBad (lookup shortDayNames value 0) (bad "Mon" value EmptyString);
  value ← orBad (skipSpace value) (bad " " value EmptyString);
  '(month, value) ← orBad (lookup shortMonthNames value 1) (bad "Jan" value EmptyString);
  value ← orBad (skipSpace value) (bad " " value EmptyString);
  '(day, value) ← orBad (getnum value false) (bad "2" value EmptyString);
  value ← orBad (skipSpace value) (bad " " value EmptyString);
  '(hour, value) ← orBad (getnum value false) (bad "15" value EmptyString);
  _ ← require (hour <? 24)%Z (bad "15" value ": hour out of range");
  value ← orBad (skipColon value) (bad ":" value EmptyString);
  '(min, value) ← orBad (getnum value true) (bad "04" value EmptyString);
  _ ← require (min <? 60)%Z (bad "04" value ": minute out of range");
  value ← orBad (skipColon value) (bad ":" value EmptyString);
  '(s, value) ← orBad (getnum value true) (bad "05" value EmptyString);
  _ ← require (s <? 60)%Z (bad "05" value ": second out of range");
  let value := skipFraction value in
  value ← orBad (skipSpace value) (bad " " value EmptyString);
  '(year, value) ← orBad (longYear value) (bad "2006" value EmptyString);
  _ ← require (String.eqb value EmptyString)
        (bad EmptyString value (": extra text: " +:+ quote value));
  _ ← require ((1 <=? day)%Z && (day <=? daysIn month year)%Z)
        (bad EmptyString value ": day out of range");
  inr (Date year month day hour min s).

(** A parser for that one layout, the only one the sources use; it is
    not defined for another layout and refuses it. *)
Definition parseLayout (layout value : string) : error + Time :=
  if String.eqb layout "Mon Jan 2 15:04:05 2006" then
    match parseStamp layout value with
    | inr t => inr t
    | inl e => inl (New (ParseError_Error e))
    end
  else inl (New "parsing time: layout not covered").

Definition layoutParser : Parser := {| parse := parseLayout |}.

End time.

(** ** Package [util] *)

Module util.

(** [util.CheckErr] has the signature and the call sites of the command's
    [checkErr]; its body is taken to be that function's. *)
Definition CheckErr (err : option error) (msg : string) (exit : Z) : M unit :=
  match err with
  | Some e =>
      logf ErrorLevel msg [Error e] ;;;
      if (exit =? -1)%Z then ret tt else osExit exit
  | None => ret tt
  end.

(** Modelled from the spec: [util.Retry] is not among the sources; only
    its calls [util.Retry(3, ...)] are.  The operation is invoked; a
    success ends the loop with no error; a failure is followed by another
    invocation as long as fewer than [maxAttempts] were made; when the
    last allowed invocation fails, its error is returned.

    [retryLoop left operation] runs the loop with [left] invocations
    allowed after the next one, and gives next to the error the number of
    invocations it made. *)
Fixpoint retryLoop (left : nat) (operation : M (option error)) : M (option error * nat) :=
  let* err := operation in
  match err with
  | None => ret (None, 1%nat)
  | Some e =>
      match left with
      | O => ret (Some e, 1%nat)
      | S left' =>
          let* (err', n) := retryLoop left' operation in
          ret (err', S n)
      end
  end.

(** Modelled from the spec: [util.Retry] with the number of invocations
    it made next to the error it returns. *)
Definition RetryCount (maxAttempts : Z) (operation : M (option error))
  : M (option error * nat) :=
  retryLoop (Z.to_nat (maxAttempts - 1)) operation.

(** Modelled from the spec: [util.Retry(maxAttempts, operation)]. *)
Definition Retry (maxAttempts : Z) (operation : M (option error)) : M (option error) :=
  let* (err, _) := RetryCount maxAttempts operation in
  ret err.

End util.

(** ** Package [volume]: the Duplicity operations *)

Module volume.

(** The struct [Volume]; its [Client] is the outside of the world. *)
Record Volume := {
  Name : string;
  Target : string;
  BackupDir : string;
  Mount : string;
  FullIfOlderThan : string;
  RemoveOlderThan : string
}.

Definition cacheMount : string := "duplicity_cache:/root/.cache/duplicity".
Definition timeFormat : string := "Mon Jan 2 15:04:05 2006".

(** A compiled pattern of the one shape the package compiles: a literal
    text followed by the group [(.+)]. *)
Record Regexp := { literal : string }.

(** [Last full backup date: (.+)] *)
Definition fullBackupRx : Regexp := {| literal := "Last full backup date: " |}.

(** [Chain end time: (.+)] *)
Definition chainEndTimeRx : Regexp := {| literal := "Chain end time: " |}.

Definition newline : ascii := "010"%char.

(** What [s] is after the prefix [p], when it starts with [p]. *)
Fixpoint afterPrefix (s p : string) : option string :=
  match p, s with
  | EmptyString, _ => Some s
  | String _ _, EmptyString => None
  | String b p', String a s' => if Ascii.eqb a b then afterPrefix s' p' else None
  end.

(** The longest run matched by [.+] or [.*] at the head of [s]: the dot
    takes every byte but the line feed. *)
Fixpoint dots (s : string) : string :=
  match s with
  | EmptyString => EmptyString
  | String c s' => if Ascii.eqb c newline then EmptyString else String c (dots s')
  end.

(** The match of the pattern that starts at the head of [s], if any:
    the whole match and the group. *)
Definition matchHere (rx : Regexp) (s : string) : option (list string) :=
  match afterPrefix s (literal rx) with
  | Some rest =>
      match dots rest with
      | EmptyString => None
      | group => Some [literal rx +:+ group; group]
      end
  | None => None
  end.

(** [rx.FindStringSubmatch(s)]: the leftmost match, nil when there is
    none. *)
Fixpoint FindStringSubmatch (rx : Regexp) (s : string) : list string :=
  match matchHere rx s with
  | Some m => m
  | None =>
      match s with
      | EmptyString => []
      | String _ s' => FindStringSubmatch rx s'
      end
  end.

(** The format of a metric line, [conplicity{volume="%v",what="<what>"} %v]. *)
Definition metricFormat (what : string) : string :=
  "conplicity{volume=" +:+ dquote +:+ "%v" +:+ dquote +:+ ",what=" +:+ dquote
  +:+ what +:+ dquote +:+ "} %v".

(** The command line and the binds of [Backup]. *)
Definition backupCall (v : Volume) : Call :=
  LaunchDuplicity
    [ "--full-if-older-than"; FullIfOlderThan v;
      "--s3-use-new-style";
      "--ssh-options"; "-oStrictHostKeyChecking=no";
      "--no-encryption";
      "--allow-source-mismatch";
      "--name"; Name v;
      BackupDir v;
      Target v ]
    [ Mount v; cacheMount ].

Definition Backup (v : Volume) : M (list string * option error) :=
  let* (state, _, err) := call (backupCall v) in
  util.CheckErr err "Failed to launch Duplicity: %v" 1 ;;;
  let metric := Sprintf (metricFormat "backupExitCode")
                        [Name v; Itoa (docker.ExitCode state)] in
  ret ([metric], err).

(** The command line and the binds of [RemoveOld]. *)
Definition removeOldCall (v : Volume) : Call :=
  LaunchDuplicity
    [ "remove-older-than"; RemoveOlderThan v;
      "--s3-use-new-style";
      "--ssh-options"; "-oStrictHostKeyChecking=no";
      "--no-encryption";
      "--force";
      "--name"; Name v;
      Target v ]
    [ cacheMount ].

Definition RemoveOld (v : Volume) : M (list string * option error) :=
  let* (_, _, err) := call (removeOldCall v) in
  util.CheckErr err "Failed to launch Duplicity: %v" 1 ;;;
  ret ([], err).

(** The command line and the binds of [Cleanup]. *)
Definition cleanupCall (v : Volume) : Call :=
  LaunchDuplicity
    [ "cleanup";
      "--s3-use-new-style";
      "--ssh-options"; "-oStrictHostKeyChecking=no";
      "--no-encryption";
      "--force";
      "--extra-clean";
      "--name"; Name v;
      Target v ]
    [ cacheMount ].

Definition Cleanup (v : Volume) : M (list string * option error) :=
  let* (_, _, err) := call (cleanupCall v) in
  util.CheckErr err "Failed to launch Duplicity: %v" 1 ;;;
  ret ([], err).

(** The command line and the binds of [Verify]. *)
Definition verifyCall (v : Volume) : Call :=
  LaunchDuplicity
    [ "verify";
      "--s3-use-new-style";
      "--ssh-options"; "-oStrictHostKeyChecking=no";
      "--no-encryption";
      "--allow-source-mismatch";
      "--name"; Name v;
      Target v;
      BackupDir v ]
    [ Mount v; cacheMount ].

Definition Verify (v : Volume) : M (list string * option error) :=
  let* (state, _, err) := call (verifyCall v) in
  util.CheckErr err "Failed to launch Duplicity: %v" 1 ;;;
  let metric := Sprintf (metricFormat "verifyExitCode")
                        [Name v; Itoa (docker.ExitCode state)] in
  ret ([metric], err).

(** The command line and the binds of [Status]. *)
Definition statusCall (v : Volume) : Call :=
  LaunchDuplicity
    [ "collection-status";
      "--s3-use-new-style";
      "--ssh-options"; "-oStrictHostKeyChecking=no";
      "--no-encryption";
      "--name"; Name v;
      Target v ]
    [ Mount v; cacheMount ].

Definition Status `{time.Parser} (v : Volume) : M (list string * option error) :=
  let* (_, stdout, err) := call (statusCall v) in
  util.CheckErr err "Failed to launch Duplicity: %v" 1 ;;;
  let fullBackup := FindStringSubmatch fullBackupRx stdout in
  if (0 <? length fullBackup)%nat then
    let '(fullBackupDate, err) :=
      time.Parse timeFormat (TrimSpace (nth 1 fullBackup EmptyString)) in
    util.CheckErr err "Failed to parse full backup date: %v" (-1) ;;;
    let chainEndTime := FindStringSubmatch chainEndTimeRx stdout in
    if (0 <? length chainEndTime)%nat then
      let '(chainEndTimeDate, err) :=
        time.Parse timeFormat (TrimSpace (nth 1 chainEndTime EmptyString)) in
      util.CheckErr err "Failed to parse chain end time date: %v" (-1) ;;;
      let lastBackupMetric :=
        Sprintf (metricFormat "lastBackup") [Name v; Itoa (time.Unix chainEndTimeDate)] in
      let lastFullBackupMetric :=
        Sprintf (metricFormat "lastFullBackup") [Name v; Itoa (time.Unix fullBackupDate)] in
      ret ([lastBackupMetric; lastFullBackupMetric], err)
    else
      let errMsg :=
        Sprintf "Failed to parse Duplicity output for chain end time of %v" [Name v] in
      ret ([], Some (New errMsg))
  else
    let errMsg :=
      Sprintf "Failed to parse Duplicity output for last full backup date of %v" [Name v] in
    ret ([], Some (New errMsg)).

End volume.

(** ** Package [engines]: the Restic engine *)

Module engines.

(** The configuration the engine reads through its handler. *)
Record Config := {
  ResticImage : string;
  ResticPassword : string;
  AWSAccessKeyID : string;
  AWSSecretAccessKey : string;
  SwiftUsername : string;
  SwiftPassword : string;
  SwiftAuthURL : string;
  SwiftTenantName : string;
  SwiftRegionName : string
}.

(** The fields of [volume.Volume] the engine reads and writes. *)
Record Volume := {
  Name : string;
  Mountpoint : string;
  TargetURL : string;
  Target : string;
  BackupDir : string;
  Mount : string
}.

(** The struct [ResticEngine]: [Handler] gives the configuration (its
    client is the outside of the world), [Volume] the volume at hand. *)
Record ResticEngine := {
  Handler : Config;
  Volume_ : Volume
}.

Definition GetName (r : ResticEngine) : string := "Restic".

Definition Join (elems : list string) (sep : string) : string := String.concat sep elems.

(** The [for !exited] loop of [launchRestic]: the error of a failed
    inspection, or the exit code once the status reads [exited]. *)
Fixpoint waitExited (fuel : nat) (id : string) : M (error + Z) :=
  match fuel with
  | O => outOfFuel
  | S fuel' =>
      let* (cont, err) := call (ContainerInspect id) in
      match err with
      | Some e => ret (inl (Errorf "failed to inspect container: %v" [Error e]))
      | None =>
          if String.eqb (docker.Status cont) "exited"
          then ret (inr (docker.ExitCode cont))
          else waitExited fuel' id
      end
  end.

Definition logsOptions : docker.ContainerLogsOptions :=
  {| docker.ShowStdout := true; docker.ShowStderr := true;
     docker.Details := true; docker.Follow := true |}.

(** The end of [launchRestic], under the deferred [body.Close()]: the
    logs are read to their end. *)
Definition readLogs (id : string) (state : Z) : M (Z * string * option error) :=
  let* (content, err) := call (ReadAll id) in
  match err with
  | Some e =>
      ret (state, EmptyString,
           Some (Errorf "failed to read logs from response: %v" [Error e]))
  | None =>
      let stdout := content in
      logf DebugLevel stdout [] ;;;
      ret (state, stdout, None)
  end.

(** The part of [launchRestic] that runs under the deferred removal of
    the worker [id]: start, wait, fetch the logs. *)
Definition runWorker (fuel : nat) (cmd : list string) (id : string)
  : M (Z * string * option error) :=
  logf DebugLevel "Launching 'restic %v'..." [Join cmd " "] ;;;
  let* err := call (ContainerStart id) in
  match err with
  | Some e =>
      ret (0%Z, EmptyString, Some (Errorf "failed to start container: %v" [Error e]))
  | None =>
      let* exited := waitExited fuel id in
      match exited with
      | inl e => ret (0%Z, EmptyString, Some e)
      | inr state =>
          let* err := call (ContainerLogs id logsOptions) in
          match err with
          | Some e =>
              ret (state, EmptyString,
                   Some (Errorf "failed to retrieve logs: %v" [Error e]))
          | None =>
              defer (let* _ := call (BodyClose id) in ret tt) (readLogs id state)
          end
      end
  end.

(** The environment handed to the worker. *)
Definition workerEnv (r : ResticEngine) : list string :=
  [ "AWS_ACCESS_KEY_ID=" +:+ AWSAccessKeyID (Handler r);
    "AWS_SECRET_ACCESS_KEY=" +:+ AWSSecretAccessKey (Handler r);
    "OS_USERNAME=" +:+ SwiftUsername (Handler r);
    "OS_PASSWORD=" +:+ SwiftPassword (Handler r);
    "OS_AUTH_URL=" +:+ SwiftAuthURL (Handler r);
    "OS_TENANT_NAME=" +:+ SwiftTenantName (Handler r);
    "OS_REGION_NAME=" +:+ SwiftRegionName (Handler r);
    "RESTIC_PASSWORD=" +:+ ResticPassword (Handler r) ].

(** The call that creates the worker. *)
Definition createCall (r : ResticEngine) (cmd binds : list string) : Call :=
  ContainerCreate
    {| docker.Cmd := cmd;
       docker.Env := workerEnv r;
       docker.Image := ResticImage (Handler r);
       docker.OpenStdin := true;
       docker.StdinOnce := true;
       docker.AttachStdin := true;
       docker.AttachStdout := true;
       docker.AttachStderr := true;
       docker.Tty := true |}
    {| docker.Binds := binds |}.

(** [launchRestic] starts a restic container with the given command and
    binds. *)
Definition launchRestic (fuel : nat) (r : ResticEngine) (cmd binds : list string)
  : M (Z * string * option error) :=
  let* err := call (UtilPullImage (ResticImage (Handler r))) in
  match err with
  | Some e => ret (0%Z, EmptyString, Some (Errorf "failed to pull image: %v" [Error e]))
  | None =>
      let env := workerEnv r in
      logf DebugLevel "Creating container"
        [ ResticImage (Handler r); Join cmd " "; Join env ", "; Join binds ", " ] ;;;
      let* (container, err) := call (createCall r cmd binds) in
      match err with
      | Some e =>
          ret (0%Z, EmptyString, Some (Errorf "failed to create container: %v" [Error e]))
      | None =>
          defer (let* _ := call (UtilRemoveContainer (docker.ID container)) in ret tt)
            (runWorker fuel cmd (docker.ID container))
      end
  end.

(** [init] initializes a secure bucket. *)
Definition init (fuel : nat) (r : ResticEngine) : M (option error) :=
  let v := Volume_ r in
  let* (state, stdout, err) := launchRestic fuel r ["-r"; Target v; "init"] [Mount v] in
  if Contains stdout "already initialized" then ret None
  else
    match err with
    | Some e =>
        ret (Some (Errorf "failed to launch Restic to initialize the repository: %v"
                          [Error e]))
    | None =>
        if negb (state =? 0)%Z then
          ret (Some (Errorf "Restic existed with state %v while initializing repository"
                            [Itoa state]))
        else ret None
    end.

(** [resticBackup] performs the backup of a volume with Restic. *)
Definition resticBackup (fuel : nat) (r : ResticEngine) : M (option error) :=
  let v := Volume_ r in
  let* (state, _, err) :=
    launchRestic fuel r ["-r"; Target v; "backup"; BackupDir v] [Mount v] in
  let err :=
    match err with
    | Some e => Some (Errorf "failed to launch Restic to backup the volume: %v" [Error e])
    | None => None
    end in
  let err :=
    if negb (state =? 0)%Z
    then Some (Errorf "Restic exited with state %v while backuping the volume" [Itoa state])
    else err in
  ret err.

(** [verify] checks that the backup is usable. *)
Definition verify (fuel : nat) (r : ResticEngine) : M (option error) :=
  let v := Volume_ r in
  let* (state, _, err) := launchRestic fuel r ["-r"; Target v; "check"] [Mount v] in
  match err with
  | Some e =>
      ret (Some (Errorf "failed to launch Restic to check the backup: %v" [Error e]))
  | None =>
      (if (state =? 0)%Z
       then let* _ := call (Chtimes (Mountpoint v +:+ "/.conplicity_last_check")) in ret tt
       else ret tt) ;;;
      call (MetricUpdateEvent "conplicity_verifyExitCode" "gauge" (Name v) (Itoa state))
  end.

(** [Backup] performs the backup of the volume of the engine.  The
    volume is written through a pointer; the engine is given back with
    the volume as the function leaves it. *)
Definition Backup (fuel : nat) (r : ResticEngine) : M (ResticEngine * option error) :=
  let v := Volume_ r in
  let* (targetURL, err) := call (UrlParse (TargetURL v)) in
  match err with
  | Some e => ret (r, Some (Errorf "failed to parse target URL: %v" [Error e]))
  | None =>
      let v := {| Name := Name v; Mountpoint := Mountpoint v; TargetURL := TargetURL v;
                  Target := targetURL;
                  BackupDir := Mountpoint v +:+ "/" +:+ BackupDir v;
                  Mount := Name v +:+ ":" +:+ Mountpoint v +:+ ":ro" |} in
      let r := {| Handler := Handler r; Volume_ := v |} in
      let* err := util.Retry 3 (init fuel r) in
      match err with
      | Some e => ret (r, Some (Errorf "failed to create a secure bucket: %v" [Error e]))
      | None =>
          let* err := util.Retry 3 (resticBackup fuel r) in
          match err with
          | Some e => ret (r, Some (Errorf "failed to backup the volume: %v" [Error e]))
          | None =>
              let* (_, err') := call (IsCheckScheduled (Name v)) in
              match err' with
              | None =>
                  let* err' := util.Retry 3 (verify fuel r) in
                  match err' with
                  | Some e =>
                      ret (r, Some (Errorf "failed to verify backup: %v" [Error e]))
                  | None => ret (r, None)
                  end
              | Some _ => ret (r, None)
              end
          end
      end
  end.

End engines.

(** * Vocabulary of the statements *)

(** A metric line for a volume: [conplicity{volume="<volume>",what="<what>"} <value>]. *)
Definition metricLine (volume what : string) (value : Z) : string :=
  Sprintf (volume.metricFormat what) [volume; Itoa value].

(** The error [Status] gives when the text after a marker is not found. *)
Definition missingMarker (marker volume : string) : error :=
  New ("Failed to parse Duplicity output for " +:+ marker +:+ " of " +:+ volume).

(** The calls made between the world [w] and the later world [w']. *)
Definition since (w w' : World) : list Call := drop (length (calls w)) (calls w').

(** A world in which Duplicity, whatever it is asked, ends in [state]
    with the output [stdout] and the launch error [err]. *)
Definition duplicityWorld (state : docker.ContainerJSON) (stdout : string)
  (err : option error) : World :=
  {| outside := fun _ c =>
       match c return answer (result c) with
       | LaunchDuplicity _ _ => Ans (state, stdout, err)
       | _ => Panic "unexpected call"
       end;
     calls := [];
     logs := [] |}.

Definition exitedWith (code : Z) : docker.ContainerJSON :=
  {| docker.Status := "exited"; docker.ExitCode := code |}.

Definition sampleVolume : volume.Volume :=
  {| volume.Name := "data";
     volume.Target := "s3://bucket/host/data";
     volume.BackupDir := "/var/backups";
     volume.Mount := "data:/var/backups:ro";
     volume.FullIfOlderThan := "15D";
     volume.RemoveOlderThan := "30D" |}.

Definition lf : string := String "010"%char EmptyString.
Definition crlf : string := String "013"%char lf.

(** The two lines of the status report, as a terminal delivers them. *)
Definition sampleStatus : string :=
  "Last full backup date: Mon Jan 2 15:04:05 2006" +:+ crlf +:+
  "Collection Status" +:+ crlf +:+
  "Chain start time: Mon Jan 2 15:04:05 2006" +:+ crlf +:+
  "Chain end time: Tue Jan 3 16:05:06 2006" +:+ crlf.

(** A status report without the chain end time. *)
Definition statusWithoutChainEnd : string :=
  "Last full backup date: Mon Jan 2 15:04:05 2006" +:+ crlf +:+
  "No backup chains found" +:+ crlf.


(** [strings.Index s substr]: where [substr] first occurs in [s]. *)
Fixpoint Index (s substr : string) : option nat :=
  if HasPrefix s substr then Some 0%nat
  else match s with
       | EmptyString => None
       | String _ s' => option_map S (Index s' substr)
       end.

(** [lineAt pre marker t s]: after [pre], the text [s] goes on with
    [marker] and then [t], which is not empty and runs to the end of its
    line or of [s]. *)
Definition lineAt (pre marker t s : string) : Prop :=
  exists post,
    s = pre +:+ marker +:+ t +:+ post /\
    t <> EmptyString /\
    Contains t lf = false /\
    (post = EmptyString \/ HasPrefix post lf = true).

(** The text [s] contains a line [marker t]. *)
Definition containsLine (marker s t : string) : Prop :=
  exists pre, lineAt pre marker t s.

(** The first occurrence of [marker] in [s] is followed by [t] up to the
    end of the line. *)
Definition firstLine (marker s t : string) : Prop :=
  exists pre, lineAt pre marker t s /\ Index s marker = Some (String.length pre).

(** The world once [util.CheckErr] has been given [err] with an exit of
    -1: an error is written to the log with the message [msg]. *)
Definition noted (msg : string) (err : option error) (w : World) : World :=
  match err with
  | Some e => logged {| level := ErrorLevel; format := msg; args := [Error e] |} w
  | None => w
  end.

(** What the spec asks of an operation whose worker exits with code [c]:
    one metric carrying [c], and an error exactly when [c] is not 0. *)
Definition reportsExitCode (volume what : string) (c : Z)
  (r : outcome (list string * option error)) : Prop :=
  exists err, r = Returned ([metricLine volume what c], err) /\
    (c = 0%Z -> err = None) /\ (c <> 0%Z -> err <> None).

Definition isInspect (c : Call) : bool :=
  match c with ContainerInspect _ => true | _ => false end.

(** A world for the Restic launcher: the image is there, the worker
    [worker] is created and started, reads [running] for the first
    [polls] inspections and then [exited] with the code [exit]; its
    output is [output]; removal succeeds. *)
Definition resticWorld (polls : nat) (exit : Z) (output : string) : World :=
  {| outside := fun history c =>
       match c return answer (result c) with
       | UtilPullImage _ => Ans None
       | ContainerCreate _ _ => Ans ({| docker.ID := "worker" |}, None)
       | ContainerStart _ => Ans None
       | ContainerInspect _ =>
           if (length (filter (fun c => isInspect c = true) history) <? polls)%nat
           then Ans ({| docker.Status := "running"; docker.ExitCode := 0 |}, None)
           else Ans (exitedWith exit, None)
       | ContainerLogs _ _ => Ans None
       | ReadAll _ => Ans (output, None)
       | BodyClose _ => Ans None
       | UtilRemoveContainer _ => Ans None
       | _ => Panic "unexpected call"
       end;
     calls := [];
     logs := [] |}.

Definition sampleEngine : engines.ResticEngine :=
  {| engines.Handler :=
       {| engines.ResticImage := "restic/restic:latest";
          engines.ResticPassword := "secret";
          engines.AWSAccessKeyID := "key";
          engines.AWSSecretAccessKey := "secretkey";
          engines.SwiftUsername := EmptyString;
          engines.SwiftPassword := EmptyString;
          engines.SwiftAuthURL := EmptyString;
          engines.SwiftTenantName := EmptyString;
          engines.SwiftRegionName := EmptyString |};
     engines.Volume_ :=
       {| engines.Name := "data";
          engines.Mountpoint := "/data";
          engines.TargetURL := "s3://bucket/host/data";
          engines.Target := "s3://bucket/host/data";
          engines.BackupDir := "/data/";
          engines.Mount := "data:/data:ro" |} |}.

(** [failsThenSucceeds op k w w']: started in [w], the operation fails [k]
    times in a row and then succeeds, which leaves the world [w']. *)
Inductive failsThenSucceeds (op : M (option error)) : nat -> World -> World -> Prop :=
| succeeds_now w w' :
    op w = (Returned None, w') ->
    failsThenSucceeds op 0 w w'
| fails_first k w e w1 w' :
    op w = (Returned (Some e), w1) ->
    failsThenSucceeds op k w1 w' ->
    failsThenSucceeds op (S k) w w'.

(** [failsTimes op n w e w']: started in [w], the operation fails [n]
    times in a row ([n] at least 1), the last time with the error [e],
    which leaves the world [w']. *)
Inductive failsTimes (op : M (option error)) : nat -> World -> error -> World -> Prop :=
| fails_once w e w' :
    op w = (Returned (Some e), w') ->
    failsTimes op 1 w e w'
| fails_again n w e1 w1 e w' :
    op w = (Returned (Some e1), w1) ->
    failsTimes op n w1 e w' ->
    failsTimes op (S n) w e w'.

(** An operation for the examples: it starts the worker [id]. *)
Definition startOnce (id : string) : M (option error) := call (ContainerStart id).

(** A world in which a start fails as long as fewer than [failures]
    calls were made, and succeeds after that. *)
Definition flakyWorld (failures : nat) : World :=
  {| outside := fun history c =>
       match c return answer (result c) with
       | ContainerStart _ =>
           if (length history <? failures)%nat
           then Ans (Some (New "connection refused")) else Ans None
       | _ => Panic "unexpected call"
       end;
     calls := [];
     logs := [] |}.

(** A world in which every start fails. *)
Definition brokenWorld : World :=
  {| outside := fun history c =>
       match c return answer (result c) with
       | ContainerStart _ => Ans (Some (New "connection refused"))
       | _ => Panic "unexpected call"
       end;
     calls := [];
     logs := [] |}.

(** The label that overrides the retention threshold, and the label that
    excludes a volume. *)
Definition thresholdLabel : string := "io.conplicity.full_if_older_than".
Definition ignoreLabel : string := "io.conplicity.ignore".

(** The threshold in the command of the first worker created after the
    world [w], read in the later world [w']. *)
Definition commandThreshold (w w' : World) : option string :=
  match since w w' with
  | CreateContainer opts :: _ => docker.Cmd (docker.Config_ opts) !! 1%nat
  | _ => None
  end.

Definition sampleEnvironment : environment :=
  {| settings.Image := "camptocamp/duplicity:latest";
     DuplicityTargetURL := "s3://bucket";
     AWSAccessKeyID := "key";
     AWSSecretAccessKey := "secretkey";
     SwiftUsername := EmptyString;
     SwiftPassword := EmptyString;
     SwiftAuthURL := EmptyString;
     SwiftTenantName := EmptyString;
     SwiftRegionName := EmptyString;
     FullIfOlderThan := "15D" |}.

Definition sampleConplicity : Main.conplicity :=
  {| Main.env := sampleEnvironment; Main.Hostname := "host" |}.

Definition namedVolume (name : string) (labels : gmap string string) : docker.Volume :=
  {| docker.Name := name;
     docker.Driver := "local";
     docker.Mountpoint := "/var/lib/docker/volumes/" +:+ name +:+ "/_data";
     docker.Labels := labels |}.

(** An anonymous volume: its name is a hash of 64 characters. *)
Definition anonymousVolume : docker.Volume :=
  namedVolume "0123456789abcdef0123456789abcdef0123456789abcdef0123456789abcdef" ∅.

Definition ignoredVolume : docker.Volume :=
  namedVolume "scratch" {[ ignoreLabel := "true" ]}.

Definition weeklyVolume : docker.Volume :=
  namedVolume "db" {[ thresholdLabel := "7D" ]}.

(** A volume that carries the threshold label with an empty value. *)
Definition emptyLabelVolume : docker.Volume :=
  namedVolume "cache" {[ thresholdLabel := EmptyString ]}.

Definition plainVolume : docker.Volume := namedVolume "www" ∅.

(** A world for the command: the host is [host], the client connects,
    the runtime lists [vols], knows each of them and takes any other name
    for a volume without labels, the image is there; creating a worker
    gives [created] and starting one gives [started]. *)
Definition commandWorld (vols : list docker.Volume)
  (created : option docker.Container * option error) (started : option error) : World :=
  {| outside := fun history c =>
       match c return answer (result c) with
       | EnvParse => Ans sampleEnvironment
       | OsHostname => Ans ("host", None)
       | NewClient _ => Ans None
       | ListVolumes => Ans (vols, None)
       | InspectVolume name =>
           Ans (Some (default (namedVolume name ∅)
                        (List.find (fun v => String.eqb (docker.Name v) name) vols)),
                None)
       | InspectImage _ => Ans None
       | CreateContainer _ => Ans created
       | DockerptyStart _ _ => Ans started
       | RemoveContainer _ => Ans None
       | _ => Panic "unexpected call"
       end;
     calls := [];
     logs := [] |}.

Definition sampleContainer : docker.Container := {| docker.ID := "4f2a9c" |}.

(** Modelled from the spec: [util.RemoveContainer] is not among the
    sources, only its deferred call in the launcher is; the spec has the
    launcher schedule a forced removal, so a call of it counts as one.
    In the command a forced removal is a [RemoveContainer] with [Force]. *)
Definition isForcedRemoval (id : string) (c : Call) : bool :=
  match c with
  | RemoveContainer opts => String.eqb (docker.ID_ opts) id && docker.Force opts
  | UtilRemoveContainer id' => String.eqb id' id
  | _ => false
  end.

(** How many times the worker [id] is removed in a list of calls. *)
Definition removals (id : string) (l : list Call) : nat :=
  length (List.filter (isForcedRemoval id) l).

(** A function has come to its end: it returned or it panicked. *)
Definition ended {A} (out : outcome A) : Prop :=
  match out with
  | Returned _ | Panicked _ => True
  | Exited _ | OutOfFuel => False
  end.

(** The inspection made after the history [history] ends the wait of the
    launcher: it fails, it panics, or it reads [exited]. *)
Definition pollSettled (w : World) (history : list Call) (id : string) : bool :=
  match outside w history (ContainerInspect id) with
  | Ans (cont, None) => String.eqb (docker.Status cont) "exited"
  | _ => true
  end.

(** The calls of the launcher up to its first inspection of the worker. *)
Definition launchPrefix (r : engines.ResticEngine) (cmd binds : list string) (id : string)
  : list Call :=
  [ UtilPullImage (engines.ResticImage (engines.Handler r));
    engines.createCall r cmd binds;
    ContainerStart id ].

(** A world in which the worker is created and its start panics. *)
Definition panickingWorld : World :=
  {| outside := fun history c =>
       match c return answer (result c) with
       | CreateContainer _ => Ans (Some sampleContainer, None)
       | DockerptyStart _ _ => Panic "write on closed connection"
       | RemoveContainer _ => Ans None
       | _ => Panic "unexpected call"
       end;
     calls := [];
     logs := [] |}.

(** The names of the volumes inspected in a list of calls, in order. *)
Definition inspected (l : list Call) : list string :=
  omap (fun c => match c with InspectVolume name => Some name | _ => None end) l.

(** The outside lets the command reach the listing of the volumes: the
    environment is read, the host has a name, the client connects. *)
Definition reachesListing (o : Outside) (e : environment) (host : string) : Prop :=
  (forall h, o h EnvParse = Ans e) /\
  (forall h, o h OsHostname = Ans (host, None)) /\
  (forall h endpoint, o h (NewClient endpoint) = Ans None).

(** The outside knows every volume, creates every worker and never
    panics; starting a worker may fail. *)
Definition cooperative (o : Outside) : Prop :=
  (forall h name, exists vol ep, o h (InspectVolume name) = Ans (Some vol, ep)) /\
  (forall h opts, exists ct, o h (CreateContainer opts) = Ans (Some ct, None)) /\
  (forall h ct hc, exists e, o h (DockerptyStart ct hc) = Ans e) /\
  (forall h opts, exists e, o h (RemoveContainer opts) = Ans e).

(** The line the loop of the command writes when a volume fails. *)
Definition processFailure (vol : docker.Volume) (e : error) : LogEntry :=
  {| level := ErrorLevel;
     format := "Failed to process volume " +:+ docker.Name vol +:+ ": %v";
     args := [Error e] |}.

(** The line written when Duplicity cannot be launched. *)
Definition launchFailure (e : error) : LogEntry :=
  {| level := ErrorLevel; format := "Failed to launch Duplicity: %v"; args := [Error e] |}.

(** [l1] occurs in [l2] as a run of consecutive elements. *)
Definition consecutive {A} (l1 l2 : list A) : Prop :=
  exists before after, l2 = before ++ l1 ++ after.

(** A status report with a second, later chain. *)
Definition statusTwoChains : string :=
  sampleStatus +:+ lf +:+ "Chain end time: Fri Jan 6 10:00:00 2006" +:+ crlf.

(** A status report whose chain end time does not parse. *)
Definition statusBadChainEnd : string :=
  "Last full backup date: Mon Jan 2 15:04:05 2006" +:+ crlf +:+
  "Chain end time: unknown" +:+ crlf.

(** Every byte of [s] is below 128. *)
Fixpoint allASCII (s : string) : bool :=
  match s with
  | EmptyString => true
  | String c s' => (byte c <? 128)%N && allASCII s'
  end.

(** A name of 64 bytes that counts 61 characters: three of them take two
    bytes each. *)
Definition accentedVolume : docker.Volume :=
  namedVolume "données-de-référence-0123456789abcdef0123456789abcdef01234567" ∅.

(** The calls the loop over the volumes makes. *)
Definition isLoopCall (c : Call) : bool :=
  match c with
  | InspectVolume _ | CreateContainer _ | DockerptyStart _ _ | RemoveContainer _ => true
  | _ => false
  end.

(** The calls the command makes before the loop. *)
Definition isPrologueCall (c : Call) : bool :=
  match c with
  | EnvParse | OsHostname | NewClient _ | ListVolumes | InspectImage _ | PullImage _ => true
  | _ => false
  end.

(** [workers o history live l] follows the workers through the calls [l]
    made after the calls of [history], with the answers [o] gives to them;
    [live] is the worker that waits for its removal, if there is one.  A
    creation asks that no worker waits and, when it gives a worker and no
    error, leaves that worker waiting.  A removal asks that it is the
    forced removal of the worker that waits, and leaves none waiting,
    whatever the removal answers.  The result is the worker that waits
    after [l], and nothing when a call breaks one of the two rules. *)
Fixpoint workers (o : Outside) (history : list Call) (live : option string) (l : list Call)
  : option (option string) :=
  match l with
  | [] => Some live
  | c :: l' =>
      match c with
      | CreateContainer opts =>
          match live with
          | Some _ => None
          | None =>
              match o history (CreateContainer opts) with
              | Ans (Some ct, None) => workers o (history ++ [c]) (Some (docker.ID ct)) l'
              | _ => workers o (history ++ [c]) None l'
              end
          end
      | RemoveContainer opts =>
          match live with
          | Some id =>
              if String.eqb (docker.ID_ opts) id && docker.Force opts
              then workers o (history ++ [c]) None l'
              else None
          | None => None
          end
      | _ => workers o (history ++ [c]) live l'
      end
  end.

(** The pulls among the calls [pre] made after those of [w]: none, or
    one, the last call of [pre], of the image the environment names, right
    after an inspection of that same image that gave an error. *)
Definition pullJustified (w : World) (pre : list Call) : Prop :=
  forall repo, In (PullImage repo) pre ->
    exists envr before e,
      outside w (calls w) EnvParse = Ans envr /\
      repo = settings.Image envr /\
      pre = before ++ [InspectImage (settings.Image envr); PullImage (settings.Image envr)] /\
      outside w (calls w ++ before) (InspectImage (settings.Image envr)) = Ans (Some e) /\
      forall repo', ~ In (PullImage repo') before.

(** The line the loop writes in front of a volume when the variable
    [err] is set. *)
Definition inspectFailure (vol : docker.Volume) (e : error) : LogEntry :=
  {| level := ErrorLevel;
     format := "Failed to inspect volume " +:+ docker.Name vol +:+ ": %v";
     args := [Error e] |}.

(** A world in which the runtime does not know the volumes it lists: the
    inspection gives no volume and an error. *)
Definition vanishedWorld (vols : list docker.Volume) : World :=
  {| outside := fun history c =>
       match c return answer (result c) with
       | EnvParse => Ans sampleEnvironment
       | OsHostname => Ans ("host", None)
       | NewClient _ => Ans None
       | ListVolumes => Ans (vols, None)
       | InspectVolume name => Ans (None, Some (New "no such volume"))
       | InspectImage _ => Ans None
       | _ => Panic "unexpected call"
       end;
     calls := [];
     logs := [] |}.


(** A call with the answer the outside gives to it. *)
Definition reply (c : Call) (a : result c) : {c : Call & result c} := existT c a.

(** [answered o history script]: made one after the other after the
    calls of [history], the calls of [script] get from [o] the answers
    written next to them. *)
Fixpoint answered (o : Outside) (history : list Call) (script : list {c : Call & result c})
  : Prop :=
  match script with
  | [] => True
  | existT c a :: script' => o history c = Ans a /\ answered o (history ++ [c]) script'
  end.

(** The worker has not exited. *)
Definition running (cont : docker.ContainerJSON) : bool :=
  negb (String.eqb (docker.Status cont) "exited").

(** The inspections of the launcher: the worker is read as [polls] says,
    one inspection after the other, and then as [cont]. *)
Definition inspections (id : string) (polls : list docker.ContainerJSON)
  (cont : docker.ContainerJSON) : list {c : Call & result c} :=
  map (fun p => reply (ContainerInspect id) (p, None)) polls
  ++ [reply (ContainerInspect id) (cont, None)].

(** A launch without failure: the image is there, the worker [ct] is
    created and started, inspected as [polls] and then [cont], its logs
    are [content]; [eclose] and [erm] are what the closing of the logs and
    the removal of the worker give. *)
Definition launchScript (r : engines.ResticEngine) (cmd binds : list string)
  (ct : docker.Container) (polls : list docker.ContainerJSON) (cont : docker.ContainerJSON)
  (content : string) (eclose erm : option error) : list {c : Call & result c} :=
  let id := docker.ID ct in
  [ reply (UtilPullImage (engines.ResticImage (engines.Handler r))) None;
    reply (engines.createCall r cmd binds) (ct, None);
    reply (ContainerStart id) None ]
  ++ inspections id polls cont
  ++ [ reply (ContainerLogs id engines.logsOptions) None;
       reply (ReadAll id) (content, None);
       reply (BodyClose id) eclose;
       reply (UtilRemoveContainer id) erm ].

(** The calls of the launcher after its last inspection of the worker. *)
Definition launchSuffix (id : string) : list Call :=
  [ ContainerLogs id engines.logsOptions; ReadAll id; BodyClose id; UtilRemoveContainer id ].

(** The lines a launch without failure writes to the log. *)
Definition launchLines (r : engines.ResticEngine) (cmd binds : list string)
  (content : string) : list LogEntry :=
  [ {| level := DebugLevel; format := "Creating container";
       args := [ engines.ResticImage (engines.Handler r); engines.Join cmd " ";
                 engines.Join (engines.workerEnv r) ", "; engines.Join binds ", " ] |};
    {| level := DebugLevel; format := "Launching 'restic %v'...";
       args := [engines.Join cmd " "] |};
    {| level := DebugLevel; format := content; args := [] |} ].

(** A world in which the image of Restic cannot be pulled. *)
Definition unpulledWorld : World :=
  {| outside := fun history c =>
       match c return answer (result c) with
       | UtilPullImage _ => Ans (Some (New "registry unreachable"))
       | _ => Panic "unexpected call"
       end;
     calls := [];
     logs := [] |}.

(** A world in which the worker exits with the code [exit] and its logs
    cannot be retrieved. *)
Definition logsLostWorld (exit : Z) : World :=
  {| outside := fun history c =>
       match c return answer (result c) with
       | UtilPullImage _ => Ans None
       | ContainerCreate _ _ => Ans ({| docker.ID := "worker" |}, None)
       | ContainerStart _ => Ans None
       | ContainerInspect _ => Ans (exitedWith exit, None)
       | ContainerLogs _ _ => Ans (Some (New "connection reset"))
       | UtilRemoveContainer _ => Ans None
       | _ => Panic "unexpected call"
       end;
     calls := [];
     logs := [] |}.

(** A world in which the check of Restic exits with the code [exit] after
    one inspection that reads [running]; the timestamp file can be touched
    and the update of the metric gives [updated]. *)
Definition checkWorld (exit : Z) (updated : option error) : World :=
  {| outside := fun history c =>
       match c return answer (result c) with
       | UtilPullImage _ => Ans None
       | ContainerCreate _ _ => Ans ({| docker.ID := "worker" |}, None)
       | ContainerStart _ => Ans None
       | ContainerInspect _ =>
           if (length (filter (fun c => isInspect c = true) history) <? 1)%nat
           then Ans ({| docker.Status := "running"; docker.ExitCode := 0 |}, None)
           else Ans (exitedWith exit, None)
       | ContainerLogs _ _ => Ans None
       | ReadAll _ => Ans ("check output", None)
       | BodyClose _ => Ans None
       | UtilRemoveContainer _ => Ans None
       | Chtimes _ => Ans None
       | MetricUpdateEvent _ _ _ _ => Ans updated
       | _ => Panic "unexpected call"
       end;
     calls := [];
     logs := [] |}.

(** The calls a launch of Restic makes. *)
Definition isLaunchCall (c : Call) : bool :=
  match c with
  | UtilPullImage _ | ContainerCreate _ _ | ContainerStart _ | ContainerInspect _
  | ContainerLogs _ _ | ReadAll _ | BodyClose _ | UtilRemoveContainer _ => true
  | _ => false
  end.

(** A world in which a backup with Restic goes through: the target URL
    parses to itself, every worker exits with the code 0, and no check is
    scheduled. *)
Definition backupWorld : World :=
  {| outside := fun history c =>
       match c return answer (result c) with
       | UrlParse rawurl => Ans (rawurl, None)
       | UtilPullImage _ => Ans None
       | ContainerCreate _ _ => Ans ({| docker.ID := "worker" |}, None)
       | ContainerStart _ => Ans None
       | ContainerInspect _ => Ans (exitedWith 0, None)
       | ContainerLogs _ _ => Ans None
       | ReadAll _ => Ans ("done", None)
       | BodyClose _ => Ans None
       | UtilRemoveContainer _ => Ans None
       | IsCheckScheduled _ => Ans (false, Some (New "no check scheduled"))
       | _ => Panic "unexpected call"
       end;
     calls := [];
     logs := [] |}.
(** * Properties *)

(** ** Text *)

#[local] Arguments String.append !s1 s2 : simpl nomatch.

Lemma append_empty (s : string) : s +:+ EmptyString = s.
Proof.
  induction s as [|c s IH]; [reflexivity |].
  change (String c (s +:+ EmptyString) = String c s). now rewrite IH.
Qed.

Lemma metricLine_text (volume what : string) (value : Z) :
  In what ["backupExitCode"; "verifyExitCode"; "lastBackup"; "lastFullBackup"] ->
  metricLine volume what value =
  "conplicity{volume=" +:+ dquote +:+ volume +:+ dquote +:+ ",what=" +:+ dquote
  +:+ what +:+ dquote +:+ "} " +:+ Itoa value.
Proof.
  intros Hin. unfold metricLine.
  repeat (destruct Hin as [<- | Hin]; [cbn; now rewrite append_empty |]).
  destruct Hin.
Qed.

Lemma missingMarker_Sprintf (marker volume : string) :
  In marker ["last full backup date"; "chain end time"] ->
  New (Sprintf ("Failed to parse Duplicity output for " +:+ marker +:+ " of %v") [volume])
  = missingMarker marker volume.
Proof.
  intros Hin. unfold missingMarker.
  repeat (destruct Hin as [<- | Hin]; [cbn; now rewrite append_empty |]).
  destruct Hin.
Qed.

(** ** The leftmost match of a marker pattern *)

Lemma afterPrefix_app (s p rest : string) :
  volume.afterPrefix s p = Some rest -> s = p +:+ rest.
Proof.
  revert s; induction p as [|b p IH]; intros [|a s] H; cbn in *; try congruence.
  destruct (Ascii.eqb_spec a b); [subst | discriminate].
  f_equal; auto.
Qed.

Lemma HasPrefix_afterPrefix (s p : string) :
  HasPrefix s p = false -> volume.afterPrefix s p = None.
Proof.
  revert s; induction p as [|b p IH]; intros [|a s] H; cbn in *; try congruence.
  destruct (Ascii.eqb a b); auto.
Qed.

Lemma HasPrefix_app (s p q : string) :
  HasPrefix s (p +:+ q) = true -> HasPrefix s p = true.
Proof.
  revert s; induction p as [|b p IH]; intros [|a s] H; cbn in *; try congruence.
  destruct (Ascii.eqb a b); auto.
Qed.

Lemma dots_split (s : string) :
  exists post, s = volume.dots s +:+ post /\
    (post = EmptyString \/ exists post', post = String volume.newline post').
Proof.
  induction s as [|c s (post & Heq & Hpost)]; cbn.
  - exists EmptyString; auto.
  - destruct (Ascii.eqb_spec c volume.newline) as [-> | _].
    + exists (String volume.newline s); cbn; eauto.
    + exists post; cbn; split; [congruence | exact Hpost].
Qed.

(** A match stands in the text: the marker, then the group up to the end
    of the line, the group being non-empty. *)
Lemma FindStringSubmatch_sound (rx : volume.Regexp) (s whole group : string) :
  volume.FindStringSubmatch rx s = [whole; group] ->
  whole = volume.literal rx +:+ group /\ group <> EmptyString /\
  exists pre post,
    s = pre +:+ volume.literal rx +:+ group +:+ post /\
    (post = EmptyString \/ exists post', post = String volume.newline post').
Proof.
  induction s as [|c s IH]; cbn; unfold volume.matchHere.
  - destruct (volume.afterPrefix _ _) as [rest|] eqn:Hp; [|discriminate].
    destruct (volume.dots rest) eqn:Hd; [discriminate|].
    apply afterPrefix_app in Hp.
    destruct (volume.literal rx); [|discriminate]. cbn in Hp; subst rest.
    discriminate.
  - destruct (volume.afterPrefix _ _) as [rest|] eqn:Hp.
    + destruct (volume.dots rest) as [|d ds] eqn:Hd.
      * intros H. destruct (IH H) as (Hw & Hg & pre & post & Hs & Hpost).
        repeat split; auto. exists (String c pre), post. cbn. split; [now rewrite <- Hs | auto].
      * intros [= <- <-]. repeat split; [discriminate|].
        apply afterPrefix_app in Hp.
        destruct (dots_split rest) as (post & Hrest & Hpost).
        exists EmptyString, post. rewrite Hd in Hrest. split; [cbn in *; congruence | auto].
    + intros H. destruct (IH H) as (Hw & Hg & pre & post & Hs & Hpost).
      repeat split; auto. exists (String c pre), post. cbn. split; [now rewrite <- Hs | auto].
Qed.

(** The result of a search is nil or a match with its group. *)
Lemma FindStringSubmatch_shape (rx : volume.Regexp) (s : string) :
  volume.FindStringSubmatch rx s = [] \/
  exists group, volume.FindStringSubmatch rx s = [volume.literal rx +:+ group; group].
Proof.
  induction s as [|c s IH]; cbn; unfold volume.matchHere;
    destruct (volume.afterPrefix _ _) as [rest|]; auto;
    destruct (volume.dots rest); eauto.
Qed.

Lemma matchHere_absent (rx : volume.Regexp) (marker tail s : string) :
  volume.literal rx = marker +:+ tail ->
  HasPrefix s marker = false ->
  volume.matchHere rx s = None.
Proof.
  intros Hlit Hp. unfold volume.matchHere.
  rewrite HasPrefix_afterPrefix; [reflexivity|].
  destruct (HasPrefix s (volume.literal rx)) eqn:E; [|reflexivity].
  rewrite Hlit in E. apply HasPrefix_app in E. rewrite E in Hp. discriminate.
Qed.

(** A text that does not contain the marker has no match. *)
Lemma FindStringSubmatch_absent (rx : volume.Regexp) (marker tail s : string) :
  volume.literal rx = marker +:+ tail ->
  Contains s marker = false ->
  volume.FindStringSubmatch rx s = [].
Proof.
  intros Hlit. induction s as [|c s IH]; intros H.
  - change (HasPrefix EmptyString marker || false = false) in H.
    apply orb_false_iff in H as [Hp _].
    change (match volume.matchHere rx EmptyString with Some m => m | None => [] end = []).
    now rewrite (matchHere_absent rx marker tail).
  - change (HasPrefix (String c s) marker || Contains s marker = false) in H.
    apply orb_false_iff in H as [Hp Hc].
    change (match volume.matchHere rx (String c s) with
            | Some m => m
            | None => volume.FindStringSubmatch rx s
            end = []).
    rewrite (matchHere_absent rx marker tail) by assumption. auto.
Qed.

Lemma afterPrefix_here (p rest : string) : volume.afterPrefix (p +:+ rest) p = Some rest.
Proof.
  induction p as [|b p IH]; cbn -[Ascii.eqb]; [now destruct rest|].
  now rewrite Ascii.eqb_refl.
Qed.

Lemma dots_line (t post : string) :
  volume.dots t = t ->
  post = EmptyString \/ (exists post', post = String volume.newline post') ->
  volume.dots (t +:+ post) = t.
Proof.
  intros Ht Hpost. induction t as [|c t IH]; cbn -[Ascii.eqb] in *.
  - destruct Hpost as [-> | [post' ->]]; [reflexivity|].
    cbn -[Ascii.eqb]. now rewrite Ascii.eqb_refl.
  - destruct (Ascii.eqb c volume.newline); [discriminate|].
    f_equal. apply IH. congruence.
Qed.

(** A text that starts with the marker followed by a non-empty line [t]
    is matched there, with [t] for its group. *)
Lemma FindStringSubmatch_line (rx : volume.Regexp) (t post : string) :
  t <> EmptyString ->
  volume.dots t = t ->
  post = EmptyString \/ (exists post', post = String volume.newline post') ->
  volume.FindStringSubmatch rx (volume.literal rx +:+ t +:+ post)
  = [volume.literal rx +:+ t; t].
Proof.
  intros Hne Ht Hpost.
  assert (Hm : volume.matchHere rx (volume.literal rx +:+ t +:+ post)
               = Some [volume.literal rx +:+ t; t]).
  { unfold volume.matchHere. rewrite afterPrefix_here, dots_line by assumption.
    destruct t; [congruence | reflexivity]. }
  destruct (volume.literal rx +:+ t +:+ post); cbn; now rewrite Hm.
Qed.

Lemma Contains_lf_dots (t : string) : Contains t lf = false -> volume.dots t = t.
Proof.
  induction t as [|c t IH]; [reflexivity|].
  change (HasPrefix (String c t) lf || Contains t lf = false -> volume.dots (String c t) = String c t).
  intros Hc. apply orb_false_iff in Hc as [Hhere Hrest].
  cbn -[Ascii.eqb] in *. unfold volume.newline.
  destruct (Ascii.eqb c "010"%char); [now destruct t | now rewrite IH].
Qed.

Lemma HasPrefix_lf (post : string) :
  HasPrefix post lf = true -> exists post', post = String volume.newline post'.
Proof.
  destruct post as [|c post]; [discriminate|]. cbn -[Ascii.eqb].
  destruct (Ascii.eqb_spec c "010"%char) as [-> | _]; [eauto | discriminate].
Qed.

(** The line that follows the first occurrence of the marker of a pattern
    is what the pattern finds. *)
Lemma firstLine_found (rx : volume.Regexp) (s t : string) :
  firstLine (volume.literal rx) s t ->
  volume.FindStringSubmatch rx s = [volume.literal rx +:+ t; t].
Proof.
  intros (pre & (post & -> & Hne & Hline & Hpost) & Hidx).
  assert (Hpost' : post = EmptyString \/ exists post', post = String volume.newline post')
    by (destruct Hpost as [-> | Hp]; [now left | right; now apply HasPrefix_lf]).
  induction pre as [|c pre IH].
  - apply FindStringSubmatch_line; [exact Hne | now apply Contains_lf_dots | exact Hpost'].
  - change (String c pre +:+ volume.literal rx +:+ t +:+ post)
      with (String c (pre +:+ volume.literal rx +:+ t +:+ post)) in *.
    set (s' := pre +:+ volume.literal rx +:+ t +:+ post) in *.
    change ((if HasPrefix (String c s') (volume.literal rx) then Some 0%nat
             else option_map S (Index s' (volume.literal rx)))
            = Some (S (String.length pre))) in Hidx.
    destruct (HasPrefix (String c s') (volume.literal rx)) eqn:Hhere; [discriminate|].
    destruct (Index s' (volume.literal rx)) as [n|] eqn:Hn; [|discriminate].
    injection Hidx as ->.
    change (match volume.matchHere rx (String c s') with
            | Some m => m
            | None => volume.FindStringSubmatch rx s'
            end = [volume.literal rx +:+ t; t]).
    unfold volume.matchHere at 1. rewrite (HasPrefix_afterPrefix _ _ Hhere).
    now apply IH.
Qed.

(** ** The status parser *)

Ltac status_step := cbn -[TrimSpace volume.timeFormat time.Unix metricLine].

Section StatusParser.

Context `{!time.Parser}.

Variable v : volume.Volume.
Variable w : World.
Variables (state : docker.ContainerJSON) (stdout : string).

Hypothesis launched :
  outside w (calls w) (volume.statusCall v) = Ans (state, stdout, None).

(** When both patterns find their text, [Status] returns two lines made
    of what [time.Parse] gave for each text, and the error of the second
    [time.Parse]; an error of either is written to the log. *)
Lemma Status_found (whole1 t1 whole2 t2 : string) :
  volume.FindStringSubmatch volume.fullBackupRx stdout = [whole1; t1] ->
  volume.FindStringSubmatch volume.chainEndTimeRx stdout = [whole2; t2] ->
  volume.Status v w =
    (Returned
       ([ "conplicity{volume=" +:+ dquote +:+ volume.Name v +:+ dquote
          +:+ ",what=" +:+ dquote +:+ "lastBackup" +:+ dquote +:+ "} "
          +:+ Itoa (time.Unix (fst (time.Parse volume.timeFormat (TrimSpace t2))));
          "conplicity{volume=" +:+ dquote +:+ volume.Name v +:+ dquote
          +:+ ",what=" +:+ dquote +:+ "lastFullBackup" +:+ dquote +:+ "} "
          +:+ Itoa (time.Unix (fst (time.Parse volume.timeFormat (TrimSpace t1)))) ],
        snd (time.Parse volume.timeFormat (TrimSpace t2))),
     noted "Failed to parse chain end time date: %v"
       (snd (time.Parse volume.timeFormat (TrimSpace t2)))
       (noted "Failed to parse full backup date: %v"
          (snd (time.Parse volume.timeFormat (TrimSpace t1)))
          (record (volume.statusCall v) w))).
Proof.
  intros Hfull Hchain.
  rewrite <- !metricLine_text by (cbn; auto).
  unfold volume.Status, bind, call. rewrite launched. status_step.
  rewrite Hfull. status_step.
  destruct (time.Parse volume.timeFormat (TrimSpace t1)) as [T1 [e1|]];
    status_step; rewrite Hchain; status_step;
    destruct (time.Parse volume.timeFormat (TrimSpace t2)) as [T2 [e2|]];
    reflexivity.
Qed.

(** C2.  When the first occurrence of [Last full backup date: ] in the
    captured output is followed on its line by [t1] and the first
    occurrence of [Chain end time: ] by [t2], and both texts, trimmed of
    the white space around them, parse under the fixed layout, [Status]
    returns no error and exactly two metrics: the line
    [conplicity{volume="<name>",what="lastBackup"} <n2>] with the epoch
    seconds of [t2], then the line
    [conplicity{volume="<name>",what="lastFullBackup"} <n1>] with the epoch
    seconds of [t1]. *)
Theorem Status_two_dates (t1 t2 : string) (T1 T2 : time.Time) :
  firstLine "Last full backup date: " stdout t1 ->
  firstLine "Chain end time: " stdout t2 ->
  time.parse volume.timeFormat (TrimSpace t1) = inr T1 ->
  time.parse volume.timeFormat (TrimSpace t2) = inr T2 ->
  volume.Status v w =
    (Returned ([ "conplicity{volume=" +:+ dquote +:+ volume.Name v +:+ dquote
                 +:+ ",what=" +:+ dquote +:+ "lastBackup" +:+ dquote +:+ "} "
                 +:+ Itoa (time.Unix T2);
                 "conplicity{volume=" +:+ dquote +:+ volume.Name v +:+ dquote
                 +:+ ",what=" +:+ dquote +:+ "lastFullBackup" +:+ dquote +:+ "} "
                 +:+ Itoa (time.Unix T1) ],
               None),
     record (volume.statusCall v) w).
Proof.
  intros Hfull Hchain Hp1 Hp2.
  apply (firstLine_found volume.fullBackupRx) in Hfull.
  apply (firstLine_found volume.chainEndTimeRx) in Hchain.
  rewrite (Status_found _ _ _ _ Hfull Hchain).
  unfold time.Parse. rewrite Hp1, Hp2. reflexivity.
Qed.

(** C3.  When either marker is absent from the captured output, be it
    that the text does not contain the words of the marker or that the
    pattern of the marker finds nothing after them, [Status] returns no
    metric and an error that names a marker that was not found together
    with the volume: the last full backup date when that one is missing,
    the chain end time otherwise. *)
Theorem Status_missing_marker :
  Contains stdout "Last full backup date" = false \/
  Contains stdout "Chain end time" = false \/
  volume.FindStringSubmatch volume.fullBackupRx stdout = [] \/
  volume.FindStringSubmatch volume.chainEndTimeRx stdout = [] ->
  exists rx marker w',
    (rx = volume.fullBackupRx /\ marker = "last full backup date" \/
     rx = volume.chainEndTimeRx /\ marker = "chain end time") /\
    volume.FindStringSubmatch rx stdout = [] /\
    volume.Status v w =
      (Returned ([], Some (missingMarker marker (volume.Name v))), w') /\
    calls w' = calls w ++ [volume.statusCall v].
Proof.
  intros Hgiven.
  assert (Habsent : volume.FindStringSubmatch volume.fullBackupRx stdout = [] \/
                    volume.FindStringSubmatch volume.chainEndTimeRx stdout = []).
  { destruct Hgiven as [Hx | [Hx | [Hx | Hx]]]; auto.
    - left. now apply (FindStringSubmatch_absent _ "Last full backup date" ": ").
    - right. now apply (FindStringSubmatch_absent _ "Chain end time" ": "). }
  clear Hgiven.
  destruct (FindStringSubmatch_shape volume.fullBackupRx stdout) as [Hfull | [g Hfull]].
  - exists volume.fullBackupRx, "last full backup date". eexists.
    split; [auto|]. split; [exact Hfull|].
    unfold volume.Status, bind, call. rewrite launched. status_step.
    rewrite Hfull. status_step. rewrite append_empty. split; reflexivity.
  - destruct Habsent as [Hnone | Hchain]; [congruence|].
    exists volume.chainEndTimeRx, "chain end time".
    destruct (time.parse volume.timeFormat (TrimSpace g)) as [e | T1] eqn:Hp;
      eexists; (split; [auto|]); (split; [exact Hchain|]);
      unfold volume.Status, bind, call; rewrite launched; status_step;
      rewrite Hfull; status_step; unfold time.Parse; rewrite Hp;
      status_step; rewrite Hchain; status_step;
      rewrite append_empty; split; reflexivity.
Qed.


End StatusParser.

Lemma Status_two_dates_witness :
  let w := duplicityWorld (exitedWith 0) sampleStatus None in
  let t1 := "Mon Jan 2 15:04:05 2006" +:+ String "013"%char EmptyString in
  let t2 := "Tue Jan 3 16:05:06 2006" +:+ String "013"%char EmptyString in
  let T1 := time.Date 2006 1 2 15 4 5 in
  let T2 := time.Date 2006 1 3 16 5 6 in
  outside w (calls w) (volume.statusCall sampleVolume)
    = Ans (exitedWith 0, sampleStatus, None) /\
  firstLine "Last full backup date: " sampleStatus t1 /\
  firstLine "Chain end time: " sampleStatus t2 /\
  time.parseLayout volume.timeFormat (TrimSpace t1) = inr T1 /\
  time.parseLayout volume.timeFormat (TrimSpace t2) = inr T2 /\
  @volume.Status time.layoutParser sampleVolume w =
    (Returned ([ "conplicity{volume=" +:+ dquote +:+ "data" +:+ dquote
                 +:+ ",what=" +:+ dquote +:+ "lastBackup" +:+ dquote +:+ "} 1136304306";
                 "conplicity{volume=" +:+ dquote +:+ "data" +:+ dquote
                 +:+ ",what=" +:+ dquote +:+ "lastFullBackup" +:+ dquote +:+ "} 1136214245" ],
               None),
     record (volume.statusCall sampleVolume) w).
Proof.
  cbv zeta.
  assert (Hfull : firstLine "Last full backup date: " sampleStatus
                    ("Mon Jan 2 15:04:05 2006" +:+ String "013"%char EmptyString)).
  { exists EmptyString. split; [|reflexivity].
    eexists. split; [reflexivity|]. split; [discriminate|]. split; [reflexivity|].
    right; reflexivity. }
  assert (Hchain : firstLine "Chain end time: " sampleStatus
                     ("Tue Jan 3 16:05:06 2006" +:+ String "013"%char EmptyString)).
  { exists ("Last full backup date: Mon Jan 2 15:04:05 2006" +:+ crlf +:+
            "Collection Status" +:+ crlf +:+
            "Chain start time: Mon Jan 2 15:04:05 2006" +:+ crlf).
    split; [|reflexivity].
    eexists. split; [reflexivity|]. split; [discriminate|]. split; [reflexivity|].
    right; reflexivity. }
  split; [reflexivity|]. split; [exact Hfull|]. split; [exact Hchain|].
  split; [reflexivity|]. split; [reflexivity|].
  exact (@Status_two_dates time.layoutParser sampleVolume
           (duplicityWorld (exitedWith 0) sampleStatus None)
           (exitedWith 0) sampleStatus eq_refl
           _ _ (time.Date 2006 1 2 15 4 5) (time.Date 2006 1 3 16 5 6)
           Hfull Hchain eq_refl eq_refl).
Defined.

(** C2 as the spec words it fails on a report of two chains: the text
    contains the line [Chain end time: Fri Jan 6 10:00:00 2006], whose
    text parses to the epoch seconds 1136541600, and a line of the last
    full backup date that parses; [Status] returns for [lastBackup] the
    epoch seconds of the chain end time of the first chain, 1136304306. *)
Lemma later_chain_end_time_not_read :
  let w := duplicityWorld (exitedWith 0) statusTwoChains None in
  let t1 := "Mon Jan 2 15:04:05 2006" +:+ String "013"%char EmptyString in
  let t2 := "Fri Jan 6 10:00:00 2006" +:+ String "013"%char EmptyString in
  containsLine "Last full backup date: " statusTwoChains t1 /\
  containsLine "Chain end time: " statusTwoChains t2 /\
  time.parseLayout volume.timeFormat (TrimSpace t1) = inr (time.Date 2006 1 2 15 4 5) /\
  time.parseLayout volume.timeFormat (TrimSpace t2) = inr (time.Date 2006 1 6 10 0 0) /\
  Itoa (time.Unix (time.Date 2006 1 6 10 0 0)) = "1136541600" /\
  @volume.Status time.layoutParser sampleVolume w =
    (Returned ([ "conplicity{volume=" +:+ dquote +:+ "data" +:+ dquote
                 +:+ ",what=" +:+ dquote +:+ "lastBackup" +:+ dquote +:+ "} 1136304306";
                 "conplicity{volume=" +:+ dquote +:+ "data" +:+ dquote
                 +:+ ",what=" +:+ dquote +:+ "lastFullBackup" +:+ dquote +:+ "} 1136214245" ],
               None),
     record (volume.statusCall sampleVolume) w).
Proof.
  cbv zeta. split; [|split].
  - exists EmptyString. eexists. split; [reflexivity|]. split; [discriminate|].
    split; [reflexivity|]. right; reflexivity.
  - exists (sampleStatus +:+ lf). eexists. split; [reflexivity|]. split; [discriminate|].
    split; [reflexivity|]. right; reflexivity.
  - repeat split; reflexivity.
Qed.

Lemma Status_missing_marker_witness :
  let w := duplicityWorld (exitedWith 0) statusWithoutChainEnd None in
  outside w (calls w) (volume.statusCall sampleVolume)
    = Ans (exitedWith 0, statusWithoutChainEnd, None) /\
  Contains statusWithoutChainEnd "Chain end time" = false /\
  exists rx marker w',
    (rx = volume.fullBackupRx /\ marker = "last full backup date" \/
     rx = volume.chainEndTimeRx /\ marker = "chain end time") /\
    volume.FindStringSubmatch rx statusWithoutChainEnd = [] /\
    @volume.Status time.layoutParser sampleVolume w =
      (Returned ([], Some (missingMarker marker "data")), w') /\
    calls w' = calls w ++ [volume.statusCall sampleVolume].
Proof.
  cbv zeta. repeat (split; [reflexivity|]).
  exact (@Status_missing_marker time.layoutParser sampleVolume
           (duplicityWorld (exitedWith 0) statusWithoutChainEnd None)
           (exitedWith 0) statusWithoutChainEnd eq_refl (or_intror (or_introl eq_refl))).
Defined.


(** ** Exit codes *)

(** C1, as the code has it.  When the launch itself gives no error,
    [Backup] and [Verify] of package [volume] return exactly one metric,
    [backupExitCode] or [verifyExitCode], whose value is the exit code of
    the worker, and no error, whatever the code.  The Restic backup step
    returns no metric; it returns no error when the launch gave none and
    the worker ended with code 0, and an error that names the code when
    the worker ended with another code. *)
Theorem exit_code_metric_or_error :
  (forall v w state stdout,
     outside w (calls w) (volume.backupCall v) = Ans (state, stdout, None) ->
     volume.Backup v w =
       (Returned ([metricLine (volume.Name v) "backupExitCode" (docker.ExitCode state)],
                  None),
        record (volume.backupCall v) w)) /\
  (forall v w state stdout,
     outside w (calls w) (volume.verifyCall v) = Ans (state, stdout, None) ->
     volume.Verify v w =
       (Returned ([metricLine (volume.Name v) "verifyExitCode" (docker.ExitCode state)],
                  None),
        record (volume.verifyCall v) w)) /\
  (forall fuel r w state stdout err w',
     engines.launchRestic fuel r
       ["-r"; engines.Target (engines.Volume_ r); "backup";
        engines.BackupDir (engines.Volume_ r)]
       [engines.Mount (engines.Volume_ r)] w
     = (Returned (state, stdout, err), w') ->
     (state = 0%Z -> err = None ->
      engines.resticBackup fuel r w = (Returned None, w')) /\
     (state <> 0%Z ->
      engines.resticBackup fuel r w =
        (Returned (Some (New ("Restic exited with state " +:+ Itoa state
                              +:+ " while backuping the volume"))), w'))).
Proof.
  split; [|split].
  - intros v w state stdout H. unfold volume.Backup, bind, call. now rewrite H.
  - intros v w state stdout H. unfold volume.Verify, bind, call. now rewrite H.
  - intros fuel r w state stdout err w' H.
    unfold engines.resticBackup, bind. rewrite H. split.
    + intros -> ->. reflexivity.
    + intros Hne. apply Z.eqb_neq in Hne. rewrite Hne. reflexivity.
Qed.

Lemma exit_code_metric_or_error_witness :
  let w := duplicityWorld (exitedWith 2) EmptyString None in
  let wr := resticWorld 1 3 "Fatal: unable to open repository" in
  let launch :=
    engines.launchRestic 4 sampleEngine
      ["-r"; engines.Target (engines.Volume_ sampleEngine); "backup";
       engines.BackupDir (engines.Volume_ sampleEngine)]
      [engines.Mount (engines.Volume_ sampleEngine)] wr in
  (outside w (calls w) (volume.backupCall sampleVolume)
     = Ans (exitedWith 2, EmptyString, None) /\
   volume.Backup sampleVolume w =
     (Returned ([metricLine "data" "backupExitCode" 2], None),
      record (volume.backupCall sampleVolume) w)) /\
  (launch = (Returned (3%Z, "Fatal: unable to open repository", None), snd launch) /\
   3%Z <> 0%Z /\
   engines.resticBackup 4 sampleEngine wr =
     (Returned (Some (New "Restic exited with state 3 while backuping the volume")),
      snd launch)).
Proof.
  cbv zeta. split.
  - split; [reflexivity|].
    exact (proj1 exit_code_metric_or_error sampleVolume
             (duplicityWorld (exitedWith 2) EmptyString None)
             (exitedWith 2) EmptyString eq_refl).
  - split; [reflexivity|]. split; [discriminate|].
    exact (proj2 (proj2 (proj2 exit_code_metric_or_error) 4%nat sampleEngine
                    (resticWorld 1 3 "Fatal: unable to open repository")
                    3%Z "Fatal: unable to open repository" None _ eq_refl)
             ltac:(discriminate)).
Defined.

(** C1 as the spec words it fails on [Backup]: a worker that ends with
    code 2 yields the metric and no error. *)
Lemma Backup_exit_2_not_reported_as_error :
  ~ reportsExitCode "data" "backupExitCode" 2
      (fst (volume.Backup sampleVolume (duplicityWorld (exitedWith 2) EmptyString None))).
Proof.
  intros (err & Heq & _ & Herr).
  injection Heq as Hnone.
  apply Herr; [discriminate | congruence].
Qed.

(** ** The retry policy *)

Lemma retryLoop_succeeds (op : M (option error)) (k : nat) :
  forall left w w', (k <= left)%nat ->
    failsThenSucceeds op k w w' ->
    util.retryLoop left op w = (Returned (None, S k), w').
Proof.
  induction k as [|k IH]; intros left w w' Hle Hrun.
  - inversion Hrun as [w0 w0' Hop |]; subst.
    destruct left; cbn; unfold bind; rewrite Hop; reflexivity.
  - inversion Hrun as [| k0 w0 e w1 w0' Hop Hrest]; subst.
    destruct left as [|left]; [lia|].
    cbn. unfold bind at 1. rewrite Hop.
    unfold bind. rewrite (IH left w1 w') by (assumption || lia). reflexivity.
Qed.

Lemma retryLoop_exhausted (op : M (option error)) (left : nat) :
  forall w e w', failsTimes op (S left) w e w' ->
    util.retryLoop left op w = (Returned (Some e, S left), w').
Proof.
  induction left as [|left IH]; intros w e w' Hrun.
  - inversion Hrun as [w0 e0 w0' Hop | n w0 e1 w1 e0 w0' Hop Hrest]; subst.
    + cbn. unfold bind. rewrite Hop. reflexivity.
    + inversion Hrest.
  - inversion Hrun as [| n w0 e1 w1 e0 w0' Hop Hrest]; subst.
    cbn. unfold bind at 1. rewrite Hop.
    unfold bind. rewrite (IH w1 e w') by assumption. reflexivity.
Qed.

(** C5.  For [n] at least 1: when the operation fails [k < n] times and
    then succeeds, [Retry n] returns no error and the operation was
    invoked exactly [k + 1] times; when the operation fails every time,
    that is [n] times in a row, [Retry n] returns an error, the one of the
    last invocation, and the operation was invoked exactly [n] times. *)
Theorem Retry_invocations (n : Z) (op : M (option error)) (w : World) :
  (1 <= n)%Z ->
  (forall k w', (Z.of_nat k < n)%Z -> failsThenSucceeds op k w w' ->
     util.RetryCount n op w = (Returned (None, S k), w') /\
     util.Retry n op w = (Returned None, w')) /\
  (forall e w', failsTimes op (Z.to_nat n) w e w' ->
     util.RetryCount n op w = (Returned (Some e, Z.to_nat n), w') /\
     util.Retry n op w = (Returned (Some e), w')).
Proof.
  intros Hn. split.
  - intros k w' Hk Hrun.
    assert (Hcount : util.RetryCount n op w = (Returned (None, S k), w')).
    { unfold util.RetryCount. apply retryLoop_succeeds; [lia | assumption]. }
    split; [exact Hcount|]. unfold util.Retry, bind. now rewrite Hcount.
  - intros e w' Hrun.
    assert (Hcount : util.RetryCount n op w = (Returned (Some e, Z.to_nat n), w')).
    { unfold util.RetryCount.
      replace (Z.to_nat n) with (S (Z.to_nat (n - 1))) in * by lia.
      now apply retryLoop_exhausted. }
    split; [exact Hcount|]. unfold util.Retry, bind. now rewrite Hcount.
Qed.

Lemma Retry_invocations_witness :
  let op := startOnce "worker" in
  let thrice w := record (ContainerStart "worker")
                    (record (ContainerStart "worker")
                       (record (ContainerStart "worker") w)) in
  (1 <= 3)%Z /\
  (Z.of_nat 2 < 3)%Z /\
  failsThenSucceeds op 2 (flakyWorld 2) (thrice (flakyWorld 2)) /\
  failsTimes op (Z.to_nat 3) brokenWorld (New "connection refused") (thrice brokenWorld) /\
  (util.RetryCount 3 op (flakyWorld 2) = (Returned (None, 3%nat), thrice (flakyWorld 2)) /\
   util.Retry 3 op (flakyWorld 2) = (Returned None, thrice (flakyWorld 2))) /\
  (util.RetryCount 3 op brokenWorld
     = (Returned (Some (New "connection refused"), Z.to_nat 3), thrice brokenWorld) /\
   util.Retry 3 op brokenWorld
     = (Returned (Some (New "connection refused")), thrice brokenWorld)).
Proof.
  cbv zeta.
  assert (Hn : (1 <= 3)%Z) by lia.
  assert (Hk : (Z.of_nat 2 < 3)%Z) by lia.
  assert (Hrun : failsThenSucceeds (startOnce "worker") 2 (flakyWorld 2)
    (record (ContainerStart "worker")
       (record (ContainerStart "worker")
          (record (ContainerStart "worker") (flakyWorld 2))))).
  { eapply fails_first; [reflexivity|].
    eapply fails_first; [reflexivity|].
    apply succeeds_now. reflexivity. }
  assert (Hfail : failsTimes (startOnce "worker") (Z.to_nat 3) brokenWorld
    (New "connection refused")
    (record (ContainerStart "worker")
       (record (ContainerStart "worker")
          (record (ContainerStart "worker") brokenWorld)))).
  { eapply fails_again; [reflexivity|].
    eapply fails_again; [reflexivity|].
    apply fails_once. reflexivity. }
  repeat (split; [assumption|]).
  split.
  - exact (proj1 (Retry_invocations 3 (startOnce "worker") (flakyWorld 2) Hn) 2%nat _ Hk Hrun).
  - exact (proj2 (Retry_invocations 3 (startOnce "worker") brokenWorld Hn) _ _ Hfail).
Defined.

(** ** Per-volume policy of the command *)

Lemma getVolumeLabel_lookup (vol : docker.Volume) (suffix : string) :
  Main.getVolumeLabel vol suffix
  = default EmptyString (docker.Labels vol !! (Main.labelPrefix +:+ suffix)).
Proof. reflexivity. Qed.

(** C6.  A volume whose name counts 64 characters, or that carries the
    label [io.conplicity.ignore] with the value [true], is skipped:
    [backupVolume] returns no error, writes one informational line and
    makes no call to the runtime, so no worker is created or started. *)
Theorem backupVolume_skips (c : Main.conplicity) (vol : docker.Volume) (w : World) :
  utf8.RuneCountInString (docker.Name vol) = 64%Z \/
  docker.Labels vol !! ignoreLabel = Some "true" ->
  exists line,
    Main.backupVolume c (Some vol) w = (Returned None, logged line w) /\
    level line = InfoLevel /\
    calls (logged line w) = calls w.
Proof.
  intros Hskip. unfold Main.backupVolume.
  destruct (utf8.RuneCountInString (docker.Name vol) =? 64)%Z eqn:Hlen.
  - eexists. split; [reflexivity|]. split; reflexivity.
  - destruct Hskip as [Hname | Hlabel].
    + apply Z.eqb_neq in Hlen. contradiction.
    + rewrite getVolumeLabel_lookup.
      change (Main.labelPrefix +:+ ".ignore") with ignoreLabel.
      rewrite Hlabel. cbn.
      eexists. split; [reflexivity|]. split; reflexivity.
Qed.

Lemma backupVolume_skips_witness :
  (utf8.RuneCountInString (docker.Name anonymousVolume) = 64%Z \/
   docker.Labels anonymousVolume !! ignoreLabel = Some "true") /\
  (utf8.RuneCountInString (docker.Name ignoredVolume) = 64%Z \/
   docker.Labels ignoredVolume !! ignoreLabel = Some "true") /\
  (exists line,
     Main.backupVolume sampleConplicity (Some anonymousVolume)
       (commandWorld [anonymousVolume] (Some sampleContainer, None) None)
     = (Returned None,
        logged line (commandWorld [anonymousVolume] (Some sampleContainer, None) None)) /\
     level line = InfoLevel /\
     calls (logged line (commandWorld [anonymousVolume] (Some sampleContainer, None) None))
     = calls (commandWorld [anonymousVolume] (Some sampleContainer, None) None)) /\
  (exists line,
     Main.backupVolume sampleConplicity (Some ignoredVolume)
       (commandWorld [ignoredVolume] (Some sampleContainer, None) None)
     = (Returned None,
        logged line (commandWorld [ignoredVolume] (Some sampleContainer, None) None)) /\
     level line = InfoLevel /\
     calls (logged line (commandWorld [ignoredVolume] (Some sampleContainer, None) None))
     = calls (commandWorld [ignoredVolume] (Some sampleContainer, None) None)).
Proof.
  assert (H1 : utf8.RuneCountInString (docker.Name anonymousVolume) = 64%Z \/
               docker.Labels anonymousVolume !! ignoreLabel = Some "true")
    by (left; reflexivity).
  assert (H2 : utf8.RuneCountInString (docker.Name ignoredVolume) = 64%Z \/
               docker.Labels ignoredVolume !! ignoreLabel = Some "true")
    by (right; vm_compute; reflexivity).
  split; [exact H1|]. split; [exact H2|]. split.
  - exact (backupVolume_skips sampleConplicity anonymousVolume _ H1).
  - exact (backupVolume_skips sampleConplicity ignoredVolume _ H2).
Defined.

(** Case analysis on the answers of the outside met in the goal. *)
Ltac answer_cases :=
  repeat match goal with
         | |- context [match outside ?w ?h ?c with _ => _ end] =>
             let a := fresh "a" in
             let E := fresh "E" in
             destruct (outside w h c) as [a | ?] eqn:E; cbn in *
         | a : (_ * _)%type |- _ => destruct a; cbn in *
         | a : option _ |- _ => destruct a; cbn in *
         end.

Lemma not_ignored (vol : docker.Volume) :
  docker.Labels vol !! ignoreLabel <> Some "true" ->
  String.eqb (Main.getVolumeLabel vol ".ignore") "true" = false.
Proof.
  intros Hne. rewrite getVolumeLabel_lookup.
  change (Main.labelPrefix +:+ ".ignore") with ignoreLabel.
  destruct (docker.Labels vol !! ignoreLabel) as [x|]; [|reflexivity].
  cbn. apply String.eqb_neq. congruence.
Qed.

(** The threshold [backupVolume] resolves for a volume. *)
Lemma backupVolume_first_call (c : Main.conplicity) (vol : docker.Volume) (w : World) :
  utf8.RuneCountInString (docker.Name vol) <> 64%Z ->
  docker.Labels vol !! ignoreLabel <> Some "true" ->
  exists rest,
    calls (snd (Main.backupVolume c (Some vol) w)) =
    calls w ++
    CreateContainer
      (Main.createOptions c vol
         (if String.eqb (Main.getVolumeLabel vol ".full_if_older_than") EmptyString
          then FullIfOlderThan (Main.env c)
          else Main.getVolumeLabel vol ".full_if_older_than")) :: rest.
Proof.
  intros Hname Hignore. unfold Main.backupVolume.
  apply Z.eqb_neq in Hname. rewrite Hname. rewrite (not_ignored vol Hignore).
  set (opts := Main.createOptions _ _ _).
  unfold bind, logf, call, Main.checkErr, defer, Main.removeCreated, bind, call, ret,
    osExit, panic, logf.
  cbn. answer_cases; eexists; rewrite <- ?app_assoc; reflexivity.
Qed.

(** C7, as the code has it.  For a volume that is not skipped, the
    threshold placed after [--full-if-older-than] in the command of the
    worker is the value of the label [io.conplicity.full_if_older_than]
    when the volume carries that label with a non-empty value; it is the
    default of the configuration when the volume does not carry the label,
    and also when it carries it with an empty value. *)
Theorem backupVolume_threshold (c : Main.conplicity) (vol : docker.Volume) (w : World) :
  utf8.RuneCountInString (docker.Name vol) <> 64%Z ->
  docker.Labels vol !! ignoreLabel <> Some "true" ->
  exists th,
    commandThreshold w (snd (Main.backupVolume c (Some vol) w)) = Some th /\
    (forall x, docker.Labels vol !! thresholdLabel = Some x -> x <> EmptyString -> th = x) /\
    (docker.Labels vol !! thresholdLabel = None -> th = FullIfOlderThan (Main.env c)) /\
    (docker.Labels vol !! thresholdLabel = Some EmptyString ->
     th = FullIfOlderThan (Main.env c)).
Proof.
  intros Hname Hignore.
  destruct (backupVolume_first_call c vol w Hname Hignore) as [rest Hcalls].
  eexists. split.
  - unfold commandThreshold, since. rewrite Hcalls, drop_app_length. reflexivity.
  - rewrite getVolumeLabel_lookup.
    change (Main.labelPrefix +:+ ".full_if_older_than") with thresholdLabel.
    repeat split.
    + intros x -> Hx. cbn. apply String.eqb_neq in Hx. now rewrite Hx.
    + intros ->. reflexivity.
    + intros ->. reflexivity.
Qed.

Lemma backupVolume_threshold_witness :
  let w := commandWorld [weeklyVolume] (Some sampleContainer, None) None in
  utf8.RuneCountInString (docker.Name weeklyVolume) <> 64%Z /\
  docker.Labels weeklyVolume !! ignoreLabel <> Some "true" /\
  docker.Labels weeklyVolume !! thresholdLabel = Some "7D" /\
  commandThreshold w (snd (Main.backupVolume sampleConplicity (Some weeklyVolume) w))
    = Some "7D".
Proof.
  cbv zeta.
  assert (Hname : utf8.RuneCountInString (docker.Name weeklyVolume) <> 64%Z)
    by (vm_compute; discriminate).
  assert (Hignore : docker.Labels weeklyVolume !! ignoreLabel <> Some "true")
    by (vm_compute; discriminate).
  assert (Hlabel : docker.Labels weeklyVolume !! thresholdLabel = Some "7D")
    by (vm_compute; reflexivity).
  repeat (split; [assumption|]).
  destruct (backupVolume_threshold sampleConplicity weeklyVolume
              (commandWorld [weeklyVolume] (Some sampleContainer, None) None)
              Hname Hignore) as (th & Hth & Hlab & _).
  rewrite Hth. f_equal. apply Hlab; [exact Hlabel | discriminate].
Defined.

(** C7 as the spec words it fails on a volume that carries the label
    with an empty value: the command of its worker holds the default
    [15D], not the value of the label. *)
Lemma empty_threshold_label_gives_default :
  let w := commandWorld [emptyLabelVolume] (Some sampleContainer, None) None in
  docker.Labels emptyLabelVolume !! thresholdLabel = Some EmptyString /\
  commandThreshold w (snd (Main.backupVolume sampleConplicity (Some emptyLabelVolume) w))
    = Some "15D" /\
  commandThreshold w (snd (Main.backupVolume sampleConplicity (Some emptyLabelVolume) w))
    <> docker.Labels emptyLabelVolume !! thresholdLabel.
Proof.
  cbv zeta. split; [vm_compute; reflexivity|].
  split; [vm_compute; reflexivity | vm_compute; discriminate].
Qed.

(** ** Removal of the worker *)

#[local] Arguments removals : simpl never.

Lemma removals_app (id : string) (l1 l2 : list Call) :
  removals id (l1 ++ l2) = (removals id l1 + removals id l2)%nat.
Proof. unfold removals. now rewrite List.filter_app, length_app. Qed.

Lemma removals_inspections (id id' : string) (n : nat) :
  removals id (repeat (ContainerInspect id') n) = 0%nat.
Proof. unfold removals. induction n as [|n IH]; [reflexivity | exact IH]. Qed.

Lemma since_app (w w' : World) (l : list Call) :
  calls w' = calls w ++ l -> since w w' = l.
Proof. intros H. unfold since. now rewrite H, drop_app_length. Qed.

(** The wait only inspects: it leaves the outside and the log as they
    are, adds inspections to the calls, and never exits the process. *)
Lemma waitExited_world (id : string) (fuel : nat) :
  forall w, exists n,
    snd (engines.waitExited fuel id w) =
      {| outside := outside w;
         calls := calls w ++ repeat (ContainerInspect id) n;
         logs := logs w |} /\
    (forall code, fst (engines.waitExited fuel id w) <> Exited code).
Proof.
  induction fuel as [|fuel IH]; intros w.
  - exists 0%nat. cbn. rewrite app_nil_r. destruct w; split; [reflexivity | discriminate].
  - cbn. unfold bind, call.
    destruct (outside w (calls w) (ContainerInspect id)) as [[cont [e|]] | v] eqn:E; cbn.
    + exists 1%nat. split; [reflexivity | discriminate].
    + destruct (String.eqb (docker.Status cont) "exited").
      * exists 1%nat. split; [reflexivity | discriminate].
      * destruct (IH (record (ContainerInspect id) w)) as (n & Hw & Hout).
        exists (S n). rewrite Hw. cbn. rewrite <- app_assoc. split; [reflexivity | exact Hout].
    + exists 1%nat. split; [reflexivity | discriminate].
Qed.

(** Enough fuel ends the wait: when the inspection number [k] (from 0)
    settles, [k + 1] units of fuel or more give an outcome. *)
Lemma waitExited_settles (id : string) (k : nat) :
  forall fuel w, (k < fuel)%nat ->
    pollSettled w (calls w ++ repeat (ContainerInspect id) k) id = true ->
    fst (engines.waitExited fuel id w) <> OutOfFuel.
Proof.
  induction k as [|k IH]; intros fuel w Hk Hsettled;
    (destruct fuel as [|fuel]; [lia|]); cbn; unfold bind, call.
  - cbn in Hsettled. rewrite app_nil_r in Hsettled. unfold pollSettled in Hsettled.
    destruct (outside w (calls w) (ContainerInspect id)) as [[cont [e|]] | v]; cbn;
      try discriminate.
    rewrite Hsettled. discriminate.
  - destruct (outside w (calls w) (ContainerInspect id)) as [[cont [e|]] | v]; cbn;
      try discriminate.
    destruct (String.eqb (docker.Status cont) "exited"); [discriminate|].
    apply IH; [lia|]. cbn. rewrite <- app_assoc. exact Hsettled.
Qed.

(** What runs under the deferred removal never exits the process, leaves
    the outside as it is, and removes no worker itself. *)
Lemma runWorker_world (fuel : nat) (cmd : list string) (id : string) (w : World) :
  forall out w', engines.runWorker fuel cmd id w = (out, w') ->
    (forall code, out <> Exited code) /\
    outside w' = outside w /\
    exists l, calls w' = calls w ++ l /\ forall id', removals id' l = 0%nat.
Proof.
  intros out w' Hrun.
  unfold engines.runWorker in Hrun.
  unfold bind at 1, logf at 1 in Hrun. unfold bind at 1, call at 1 in Hrun.
  cbn [outside calls logs logged record] in Hrun.
  destruct (outside w (calls w) (ContainerStart id)) as [[e|] | v].
  - injection Hrun as <- <-. cbn.
    split; [discriminate|]. split; [reflexivity|]. eexists; split; reflexivity.
  - set (w1 := record _ _) in Hrun.
    destruct (waitExited_world id fuel w1) as (n & Hw & Hnoexit).
    unfold bind at 1 in Hrun.
    destruct (engines.waitExited fuel id w1) as [o w2]. cbn in Hw, Hnoexit. subst w2.
    assert (Hn : forall id' l,
               removals id' (ContainerStart id :: repeat (ContainerInspect id) n ++ l)
               = removals id' l).
    { intros id' l.
      change (removals id' (repeat (ContainerInspect id) n ++ l) = removals id' l).
      now rewrite removals_app, removals_inspections. }
    assert (Hnil : forall out0 : outcome (Z * string * option error),
               (forall code, out0 <> Exited code) ->
               (forall code, out0 <> Exited code) /\
               outside w = outside w /\
               exists l, calls w ++ ContainerStart id :: repeat (ContainerInspect id) n
                         = calls w ++ l /\ forall id', removals id' l = 0%nat).
    { intros out0 H0. split; [exact H0|]. split; [reflexivity|].
      exists (ContainerStart id :: repeat (ContainerInspect id) n ++ []).
      split; [now rewrite app_nil_r | intros; now rewrite Hn]. }
    destruct o as [[e | state] | code | v | ].
    + injection Hrun as <- <-. cbn. rewrite <- app_assoc. apply Hnil. discriminate.
    + unfold bind, call, defer, engines.readLogs, bind, call, logf, ret in Hrun.
      cbn [outside calls logs logged record] in Hrun.
      revert Hrun. answer_cases; intros [= <- <-]; cbn;
        (split; [discriminate|]); (split; [reflexivity|]);
        eexists; (split; [rewrite <- ?app_assoc; cbn; reflexivity
                         | intros; rewrite (Hn _ _); reflexivity]).
    + now destruct (Hnoexit code).
    + injection Hrun as <- <-. cbn. rewrite <- app_assoc. apply Hnil. discriminate.
    + injection Hrun as <- <-. cbn. rewrite <- app_assoc. apply Hnil. discriminate.
  - injection Hrun as <- <-. cbn.
    split; [discriminate|]. split; [reflexivity|]. eexists; split; reflexivity.
Qed.

(** With enough fuel for the wait, what runs under the deferred removal
    comes to an end. *)
Lemma runWorker_finishes (fuel k : nat) (cmd : list string) (id : string) (w : World) :
  (k < fuel)%nat ->
  pollSettled w (calls w ++ ContainerStart id :: repeat (ContainerInspect id) k) id = true ->
  fst (engines.runWorker fuel cmd id w) <> OutOfFuel.
Proof.
  intros Hk Hsettled.
  unfold engines.runWorker.
  unfold bind at 1, logf at 1. unfold bind at 1, call at 1.
  cbn [outside calls logs logged record].
  destruct (outside w (calls w) (ContainerStart id)) as [[e|] | v]; try discriminate.
  set (w1 := record _ _).
  assert (Hwait : fst (engines.waitExited fuel id w1) <> OutOfFuel).
  { apply (waitExited_settles id k); [exact Hk|].
    subst w1. cbn [calls record logged]. rewrite <- app_assoc. exact Hsettled. }
  destruct (waitExited_world id fuel w1) as (n & Hw & _).
  unfold bind at 1.
  destruct (engines.waitExited fuel id w1) as [o w2]. cbn in Hw, Hwait. subst w2.
  destruct o as [[e | state] | code | v | ]; try discriminate; [|congruence].
  unfold bind, call, defer, engines.readLogs, bind, call, logf, ret.
  cbn [outside calls logs logged record].
  answer_cases; discriminate.
Qed.

Section Launcher.

Variables (fuel : nat) (r : engines.ResticEngine) (cmd binds : list string).
Variables (w : World) (ct : docker.Container).

Hypothesis pulled :
  outside w (calls w) (UtilPullImage (engines.ResticImage (engines.Handler r))) = Ans None.

Hypothesis created :
  outside w (calls w ++ [UtilPullImage (engines.ResticImage (engines.Handler r))])
    (engines.createCall r cmd binds) = Ans (ct, None).

(** Once the worker is created, a launch that comes to an end has
    removed the worker exactly once. *)
Lemma launchRestic_removes_once (out : outcome (Z * string * option error)) (w' : World) :
  engines.launchRestic fuel r cmd binds w = (out, w') ->
  out <> OutOfFuel ->
  ended out /\ removals (docker.ID ct) (since w w') = 1%nat.
Proof.
  intros Hrun Hfuel. unfold engines.launchRestic in Hrun.
  unfold bind at 1, call at 1 in Hrun. rewrite pulled in Hrun.
  unfold bind at 1, logf at 1 in Hrun. unfold bind at 1, call at 1 in Hrun.
  cbn [outside calls logs logged record] in Hrun. rewrite created in Hrun.
  unfold defer in Hrun.
  set (w0 := record _ _) in Hrun.
  destruct (engines.runWorker fuel cmd (docker.ID ct) w0) as [o1 w1] eqn:Hbody.
  apply runWorker_world in Hbody as (Hnoexit & Hout & l & Hcalls & Hrem).
  assert (Hsince : forall c, calls (record c w1)
            = calls w ++ ([UtilPullImage (engines.ResticImage (engines.Handler r));
                           engines.createCall r cmd binds] ++ l) ++ [c]).
  { intros c. cbn [calls record]. rewrite Hcalls. subst w0.
    cbn [calls record logged]. now rewrite <- !app_assoc. }
  assert (Hcount : forall c, isForcedRemoval (docker.ID ct) c = true ->
            removals (docker.ID ct) (since w (record c w1)) = 1%nat).
  { intros c Hc. rewrite (since_app _ _ _ (Hsince c)).
    rewrite !removals_app, Hrem. unfold removals. cbn. now rewrite Hc. }
  assert (Hremove : isForcedRemoval (docker.ID ct) (UtilRemoveContainer (docker.ID ct)) = true)
    by apply String.eqb_refl.
  destruct o1 as [a | code | v | ].
  - unfold bind, call in Hrun.
    destruct (outside w1 (calls w1) (UtilRemoveContainer (docker.ID ct)));
      injection Hrun as <- <-; (split; [exact I | now apply Hcount]).
  - now destruct (Hnoexit code).
  - unfold bind, call in Hrun.
    destruct (outside w1 (calls w1) (UtilRemoveContainer (docker.ID ct)));
      injection Hrun as <- <-; (split; [exact I | now apply Hcount]).
  - injection Hrun as <- <-. now destruct Hfuel.
Qed.

(** Once the worker is created, the launch comes to an end as soon as
    the fuel covers the inspections up to the one that settles. *)
Lemma launchRestic_finishes (k : nat) :
  (k < fuel)%nat ->
  pollSettled w
    (calls w ++ launchPrefix r cmd binds (docker.ID ct)
       ++ repeat (ContainerInspect (docker.ID ct)) k) (docker.ID ct) = true ->
  fst (engines.launchRestic fuel r cmd binds w) <> OutOfFuel.
Proof.
  intros Hk Hsettled. unfold engines.launchRestic.
  unfold bind at 1, call at 1. rewrite pulled.
  unfold bind at 1, logf at 1. unfold bind at 1, call at 1.
  cbn [outside calls logs logged record]. rewrite created.
  unfold defer.
  set (w0 := record _ _).
  assert (Hbody : fst (engines.runWorker fuel cmd (docker.ID ct) w0) <> OutOfFuel).
  { apply (runWorker_finishes fuel k); [exact Hk|].
    subst w0. cbn [calls record logged]. unfold launchPrefix in Hsettled.
    rewrite <- !app_assoc. exact Hsettled. }
  destruct (engines.runWorker fuel cmd (docker.ID ct) w0) as [o1 w1] eqn:Hrun.
  apply runWorker_world in Hrun as (Hnoexit & _).
  cbn in Hbody.
  destruct o1 as [a | code | v | ]; [| now destruct (Hnoexit code) | | congruence];
    unfold bind, call;
    destruct (outside w1 (calls w1) (UtilRemoveContainer (docker.ID ct))); discriminate.
Qed.

End Launcher.

(** Once the worker of a volume is created, [backupVolume] comes to an
    end, by a return or by a panic, and has removed the worker exactly
    once. *)
Lemma backupVolume_removes_once (c : Main.conplicity) (vol : docker.Volume) (w : World)
  (ct : docker.Container) (out : outcome (option error)) (w' : World) :
  utf8.RuneCountInString (docker.Name vol) <> 64%Z ->
  docker.Labels vol !! ignoreLabel <> Some "true" ->
  (forall opts, outside w (calls w) (CreateContainer opts) = Ans (Some ct, None)) ->
  Main.backupVolume c (Some vol) w = (out, w') ->
  ended out /\ removals (docker.ID ct) (since w w') = 1%nat.
Proof.
  intros Hname Hignore Hcreate. unfold Main.backupVolume.
  apply Z.eqb_neq in Hname. rewrite Hname. rewrite (not_ignored vol Hignore).
  set (opts := Main.createOptions _ _ _).
  unfold bind, logf, call, Main.checkErr, defer, Main.removeCreated, bind, call, ret,
    osExit, panic, logf.
  cbn [outside calls logs logged record]. rewrite Hcreate.
  cbn [outside calls logs logged record].
  answer_cases; intros [= <- <-]; (split; [exact I|]);
    unfold since; cbn [calls record logged]; rewrite <- ?app_assoc, drop_app_length;
    unfold removals; cbn; rewrite String.eqb_refl; reflexivity.
Qed.

(** C8.  In the command and in the Restic launcher alike, once the
    worker is created every end of the launch, return or panic, comes
    after exactly one forced removal of that worker; the process does not
    exit in between.  The launcher does reach an end as soon as the
    inspections of the worker settle within the fuel given. *)
Theorem worker_removed_exactly_once :
  (forall c vol w ct out w',
     utf8.RuneCountInString (docker.Name vol) <> 64%Z ->
     docker.Labels vol !! ignoreLabel <> Some "true" ->
     (forall opts, outside w (calls w) (CreateContainer opts) = Ans (Some ct, None)) ->
     Main.backupVolume c (Some vol) w = (out, w') ->
     ended out /\ removals (docker.ID ct) (since w w') = 1%nat) /\
  (forall fuel r cmd binds w ct,
     outside w (calls w) (UtilPullImage (engines.ResticImage (engines.Handler r)))
       = Ans None ->
     outside w (calls w ++ [UtilPullImage (engines.ResticImage (engines.Handler r))])
       (engines.createCall r cmd binds) = Ans (ct, None) ->
     (forall out w',
        engines.launchRestic fuel r cmd binds w = (out, w') ->
        out <> OutOfFuel ->
        ended out /\ removals (docker.ID ct) (since w w') = 1%nat) /\
     (forall k,
        (k < fuel)%nat ->
        pollSettled w
          (calls w ++ launchPrefix r cmd binds (docker.ID ct)
             ++ repeat (ContainerInspect (docker.ID ct)) k) (docker.ID ct) = true ->
        fst (engines.launchRestic fuel r cmd binds w) <> OutOfFuel)).
Proof.
  split.
  - intros c vol w ct out w'. apply backupVolume_removes_once.
  - intros fuel r cmd binds w ct Hpull Hcreate. split.
    + intros out w'. now apply launchRestic_removes_once.
    + intros k. now apply launchRestic_finishes.
Qed.

Lemma worker_removed_exactly_once_witness :
  let wc := commandWorld [plainVolume] (Some sampleContainer, None)
              (Some (New "cannot start")) in
  let wr := resticWorld 2 0 "snapshot saved" in
  let launch := engines.launchRestic 5 sampleEngine ["-r"; "repo"; "backup"; "/data/"]
                  ["data:/data:ro"] wr in
  (utf8.RuneCountInString (docker.Name plainVolume) <> 64%Z /\
   docker.Labels plainVolume !! ignoreLabel <> Some "true" /\
   (forall opts, outside wc (calls wc) (CreateContainer opts)
                 = Ans (Some sampleContainer, None)) /\
   fst (Main.backupVolume sampleConplicity (Some plainVolume) wc)
     = Returned (Some (New "cannot start")) /\
   removals "4f2a9c"
     (since wc (snd (Main.backupVolume sampleConplicity (Some plainVolume) wc))) = 1%nat) /\
  (fst launch = Returned (0%Z, "snapshot saved", None) /\
   removals "worker" (since wr (snd launch)) = 1%nat /\
   fst launch <> OutOfFuel).
Proof.
  cbv zeta.
  set (wc := commandWorld [plainVolume] (Some sampleContainer, None)
               (Some (New "cannot start"))).
  set (wr := resticWorld 2 0 "snapshot saved").
  assert (Hname : utf8.RuneCountInString (docker.Name plainVolume) <> 64%Z)
    by (vm_compute; discriminate).
  assert (Hignore : docker.Labels plainVolume !! ignoreLabel <> Some "true")
    by (vm_compute; discriminate).
  assert (Hcreate : forall opts, outside wc (calls wc) (CreateContainer opts)
                                 = Ans (Some sampleContainer, None))
    by (intros opts; reflexivity).
  assert (Hpull : outside wr (calls wr)
                    (UtilPullImage (engines.ResticImage (engines.Handler sampleEngine)))
                  = Ans None) by reflexivity.
  assert (Hmade : outside wr
                    (calls wr ++ [UtilPullImage
                                    (engines.ResticImage (engines.Handler sampleEngine))])
                    (engines.createCall sampleEngine ["-r"; "repo"; "backup"; "/data/"]
                       ["data:/data:ro"])
                  = Ans ({| docker.ID := "worker" |}, None)) by reflexivity.
  split.
  - repeat (split; [assumption|]). split; [reflexivity|].
    exact (proj2 (proj1 worker_removed_exactly_once sampleConplicity plainVolume wc
                    sampleContainer _ _ Hname Hignore Hcreate
                    (surjective_pairing _))).
  - split; [reflexivity|].
    pose proof (proj2 worker_removed_exactly_once 5%nat sampleEngine
                  ["-r"; "repo"; "backup"; "/data/"] ["data:/data:ro"] wr
                  {| docker.ID := "worker" |} Hpull Hmade) as [Honce Hends].
    assert (Hfin : fst (engines.launchRestic 5 sampleEngine
                          ["-r"; "repo"; "backup"; "/data/"] ["data:/data:ro"] wr)
                   <> OutOfFuel).
    { apply (Hends 2%nat); [lia | reflexivity]. }
    split; [|exact Hfin].
    exact (proj2 (Honce _ _ (surjective_pairing _) Hfin)).
Defined.

(** A start that panics: the panic leaves [backupVolume] after the
    removal of the worker. *)
Example backupVolume_panic_removes :
  fst (Main.backupVolume sampleConplicity (Some plainVolume) panickingWorld)
    = Panicked "write on closed connection" /\
  since panickingWorld
    (snd (Main.backupVolume sampleConplicity (Some plainVolume) panickingWorld))
    = [ CreateContainer (Main.createOptions sampleConplicity plainVolume "15D");
        DockerptyStart (Some sampleContainer)
          {| docker.Binds := ["/var/lib/docker/volumes/www/_data:/var/backups:ro"] |};
        RemoveContainer {| docker.ID_ := "4f2a9c"; docker.Force := true |} ].
Proof. split; reflexivity. Qed.

(** ** Initialization of the Restic repository *)

(** A launch that returns an error returns no output with it. *)
Lemma runWorker_error_no_output (fuel : nat) (cmd : list string) (id : string) (w : World)
  (state : Z) (stdout : string) (e : error) (w' : World) :
  engines.runWorker fuel cmd id w = (Returned (state, stdout, Some e), w') ->
  stdout = EmptyString.
Proof.
  unfold engines.runWorker.
  unfold bind at 1, logf at 1. unfold bind at 1, call at 1.
  cbn [outside calls logs logged record].
  destruct (outside w (calls w) (ContainerStart id)) as [[e0|] | v]; try discriminate.
  - intros [= _ <- _ _]. reflexivity.
  - unfold bind at 1.
    destruct (engines.waitExited fuel id _) as [[[e1 | st] | code | v | ] w2];
      try discriminate.
    + intros [= _ <- _ _]. reflexivity.
    + unfold bind, call, defer, engines.readLogs, bind, call, logf, ret.
      cbn [outside calls logs logged record].
      answer_cases; intros [= ]; subst; reflexivity.
Qed.

Lemma launchRestic_error_no_output (fuel : nat) (r : engines.ResticEngine)
  (cmd binds : list string) (w : World)
  (state : Z) (stdout : string) (e : error) (w' : World) :
  engines.launchRestic fuel r cmd binds w = (Returned (state, stdout, Some e), w') ->
  stdout = EmptyString.
Proof.
  unfold engines.launchRestic.
  unfold bind at 1, call at 1.
  destruct (outside w (calls w) _) as [[e0|] | v]; try discriminate.
  - intros [= _ <- _ _]. reflexivity.
  - unfold bind at 1, logf at 1. unfold bind at 1, call at 1.
    cbn [outside calls logs logged record].
    destruct (outside w _ _) as [[ct [e0|]] | v]; try discriminate.
    + intros [= _ <- _ _]. reflexivity.
    + unfold defer.
      destruct (engines.runWorker fuel cmd (docker.ID ct) _)
        as [[[[st out] [e1|]] | code | v | ] w1] eqn:Hbody; try discriminate.
      * apply runWorker_error_no_output in Hbody. subst out.
        unfold bind, call. destruct (outside w1 _ _); try discriminate.
        intros [= _ <- _ _]. reflexivity.
      * unfold bind, call. destruct (outside w1 _ _); discriminate.
      * unfold bind, call. destruct (outside w1 _ _); discriminate.
Qed.

(** C9.  When the output of the launch of [init] contains
    [already initialized], [init] returns no error, whatever exit code
    and whatever error the launch returned with it: the output is looked
    at before both. *)
Theorem init_already_initialized (fuel : nat) (r : engines.ResticEngine) (w : World)
  (state : Z) (stdout : string) (err : option error) (w' : World) :
  engines.launchRestic fuel r
    ["-r"; engines.Target (engines.Volume_ r); "init"]
    [engines.Mount (engines.Volume_ r)] w
  = (Returned (state, stdout, err), w') ->
  Contains stdout "already initialized" = true ->
  engines.init fuel r w = (Returned None, w').
Proof.
  intros Hlaunch Hout. unfold engines.init, bind. rewrite Hlaunch, Hout. reflexivity.
Qed.

Lemma init_already_initialized_witness :
  let out := "Fatal: create repository failed: config file already initialized" in
  let w := resticWorld 1 1 out in
  engines.launchRestic 3 sampleEngine
    ["-r"; engines.Target (engines.Volume_ sampleEngine); "init"]
    [engines.Mount (engines.Volume_ sampleEngine)] w
  = (Returned (1%Z, out, None),
     snd (engines.launchRestic 3 sampleEngine
            ["-r"; engines.Target (engines.Volume_ sampleEngine); "init"]
            [engines.Mount (engines.Volume_ sampleEngine)] w)) /\
  Contains out "already initialized" = true /\
  fst (engines.init 3 sampleEngine w) = Returned None.
Proof.
  cbv zeta. split; [reflexivity|]. split; [reflexivity|].
  rewrite (init_already_initialized 3 sampleEngine
             (resticWorld 1 1 "Fatal: create repository failed: config file already initialized")
             1%Z "Fatal: create repository failed: config file already initialized"
             None _ eq_refl eq_refl).
  reflexivity.
Defined.

(** ** The loop over the volumes *)

Lemma inspected_app (l1 l2 : list Call) :
  inspected (l1 ++ l2) = inspected l1 ++ inspected l2.
Proof. unfold inspected. apply omap_app. Qed.

(** Under a cooperative outside, [backupVolume] returns for every
    volume, with or without an error, and inspects no volume itself. *)
Lemma backupVolume_returns (c : Main.conplicity) (vol : docker.Volume) (w : World) :
  cooperative (outside w) ->
  exists e w' l,
    Main.backupVolume c (Some vol) w = (Returned e, w') /\
    outside w' = outside w /\
    calls w' = calls w ++ l /\
    inspected l = [].
Proof.
  intros (_ & Hcreate & Hstart & Hremove). unfold Main.backupVolume.
  destruct (utf8.RuneCountInString (docker.Name vol) =? 64)%Z.
  { do 2 eexists. exists []. rewrite app_nil_r. repeat split; reflexivity. }
  destruct (String.eqb (Main.getVolumeLabel vol ".ignore") "true").
  { do 2 eexists. exists []. rewrite app_nil_r. repeat split; reflexivity. }
  set (opts := Main.createOptions _ _ _).
  unfold bind, logf, call, Main.checkErr, defer, Main.removeCreated, bind, call, ret,
    osExit, panic, logf.
  cbn [outside calls logs logged record].
  destruct (Hcreate (calls w) opts) as [ct ->].
  cbn [outside calls logs logged record].
  match goal with |- context [outside w ?h (DockerptyStart ?a ?b)] =>
    destruct (Hstart h a b) as [e ->] end.
  destruct e as [e|]; cbn;
    match goal with |- context [outside w ?h (RemoveContainer ?a)] =>
      destruct (Hremove h a) as [er ->] end;
    do 2 eexists; eexists [_; _; _];
    (split; [reflexivity|]); (split; [reflexivity|]);
    (split; [cbn; rewrite <- ?app_assoc; reflexivity | reflexivity]).
Qed.

Lemma checkErr_continues (err : option error) (msg : string) (w : World) :
  exists w', Main.checkErr err msg (-1) w = (Returned tt, w') /\
             outside w' = outside w /\ calls w' = calls w /\
             (forall e, err = Some e ->
                w' = logged {| level := ErrorLevel; format := msg; args := [Error e] |} w).
Proof.
  destruct err as [e|]; eexists; cbn; (split; [reflexivity|]);
    (split; [reflexivity|]); (split; [reflexivity|]); intros ? [= <-]; reflexivity.
Qed.

(** Under a cooperative outside the loop goes through all the volumes:
    it returns, and it has inspected every volume, in the order of the
    list, whatever the starts of the workers gave. *)
Lemma forVols_returns (c : Main.conplicity) (vols : list docker.Volume) :
  forall err w, cooperative (outside w) ->
    exists err' w' l,
      Main.forVols c vols err w = (Returned err', w') /\
      outside w' = outside w /\
      calls w' = calls w ++ l /\
      inspected l = map docker.Name vols.
Proof.
  induction vols as [|vol rest IH]; intros err w Hcoop.
  - exists err, w, []. rewrite app_nil_r. repeat split; reflexivity.
  - cbn [Main.forVols]. unfold bind at 1, call at 1.
    destruct Hcoop as (Hinspect & Hrest).
    destruct (Hinspect (calls w) (docker.Name vol)) as (voll & ep & ->).
    set (w1 := record _ w).
    unfold bind at 1.
    destruct (checkErr_continues err
                ("Failed to inspect volume " +:+ docker.Name vol +:+ ": %v") w1)
      as (w2 & -> & Hout2 & Hcalls2 & _).
    unfold bind at 1.
    destruct (backupVolume_returns c voll w2) as (e & w3 & l3 & -> & Hout3 & Hcalls3 & Hl3).
    { rewrite Hout2. split; assumption. }
    unfold bind at 1.
    destruct (checkErr_continues e
                ("Failed to process volume " +:+ docker.Name vol +:+ ": %v") w3)
      as (w4 & -> & Hout4 & Hcalls4 & _).
    destruct (IH e w4) as (err' & w' & l & -> & Hout & Hcalls & Hl).
    { rewrite Hout4, Hout3, Hout2. split; assumption. }
    exists err', w', (InspectVolume (docker.Name vol) :: l3 ++ l).
    split; [reflexivity|]. split; [now rewrite Hout, Hout4, Hout3, Hout2|].
    split.
    + rewrite Hcalls, Hcalls4, Hcalls3, Hcalls2. subst w1. cbn [calls record].
      rewrite <- !app_assoc. reflexivity.
    + change (InspectVolume (docker.Name vol) :: l3 ++ l)
        with ([InspectVolume (docker.Name vol)] ++ l3 ++ l).
      rewrite !inspected_app, Hl3, Hl. reflexivity.
Qed.

Section Run.

Variables (w : World) (e : environment) (host : string) (vols : list docker.Volume).

Hypothesis reaches : reachesListing (outside w) e host.

(** A failure of the listing ends the run with code 1, before any volume
    is looked at. *)
Lemma main_listing_fatal (err : error) :
  (forall h, outside w h ListVolumes = Ans (vols, Some err)) ->
  fst (Main.main w) = Exited 1 /\ inspected (since w (snd (Main.main w))) = [].
Proof.
  destruct reaches as (Henv & Hhost & Hclient). intros Hlist.
  unfold Main.main, Main.getEnv.
  unfold bind, logf, call, Main.checkErr. cbn [outside calls logs logged record].
  rewrite Henv. cbn. rewrite Hhost. cbn. rewrite Hclient. cbn. rewrite Hlist. cbn.
  split; [reflexivity|]. unfold since. cbn. rewrite <- !app_assoc, drop_app_length.
  reflexivity.
Qed.

Hypothesis listed : forall h, outside w h ListVolumes = Ans (vols, None).

(** A failure to make the image available ends the run with code 1,
    before any volume is looked at. *)
Lemma main_image_fatal (e1 e2 : error) :
  (forall h name, outside w h (InspectImage name) = Ans (Some e1)) ->
  (forall h repo, outside w h (PullImage repo) = Ans (Some e2)) ->
  fst (Main.main w) = Exited 1 /\ inspected (since w (snd (Main.main w))) = [].
Proof.
  destruct reaches as (Henv & Hhost & Hclient). intros Hinspect Hpull.
  unfold Main.main, Main.getEnv, Main.pullImage.
  unfold bind, logf, call, Main.checkErr. cbn [outside calls logs logged record].
  rewrite Henv. cbn. rewrite Hhost. cbn. rewrite Hclient. cbn. rewrite listed. cbn.
  rewrite Hinspect. cbn. rewrite Hpull. cbn.
  split; [reflexivity|]. unfold since. cbn. rewrite <- !app_assoc, drop_app_length.
  reflexivity.
Qed.

Hypothesis imageReady : forall h name, outside w h (InspectImage name) = Ans None.

(** The world in which the loop starts. *)
Lemma main_loop :
  exists w0,
    outside w0 = outside w /\
    calls w0 = calls w ++ [ EnvParse; OsHostname; NewClient "unix:///var/run/docker.sock";
                            ListVolumes; InspectImage (settings.Image e) ] /\
    Main.main w =
      bind (Main.forVols {| Main.env := e; Main.Hostname := host |} vols None)
           (fun _ => logf InfoLevel "End backup..." []) w0.
Proof.
  destruct reaches as (Henv & Hhost & Hclient).
  eexists. split; [|split]; cycle 2.
  - unfold Main.main, Main.getEnv, Main.pullImage.
    unfold bind at 1, logf at 1. unfold bind at 1, call at 1.
    cbn [outside calls logs logged record]. rewrite Henv.
    unfold bind at 1, call at 1. cbn [outside calls logs logged record]. rewrite Hhost.
    unfold bind at 1, Main.checkErr at 1, ret at 1.
    unfold bind at 1, call at 1. cbn [outside calls logs logged record]. rewrite Hclient.
    unfold bind at 1, Main.checkErr at 1, ret at 1.
    unfold bind at 1, call at 1. cbn [outside calls logs logged record]. rewrite listed.
    unfold bind at 1, Main.checkErr at 1, ret at 1.
    unfold bind at 1. unfold bind at 1, call at 1.
    cbn [outside calls logs logged record Main.env]. rewrite imageReady.
    unfold ret at 1.
    unfold bind at 1, Main.checkErr at 1, ret at 1.
    reflexivity.
  - reflexivity.
  - cbn [calls record logged]. rewrite <- !app_assoc. reflexivity.
Qed.

(** Under a cooperative outside the run comes to its end whatever the
    starts of the workers give, after it has gone through all the
    volumes. *)
Lemma main_returns :
  cooperative (outside w) ->
  fst (Main.main w) = Returned tt /\
  inspected (since w (snd (Main.main w))) = map docker.Name vols.
Proof.
  intros Hcoop. destruct main_loop as (w0 & Hout0 & Hcalls0 & ->).
  destruct (forVols_returns {| Main.env := e; Main.Hostname := host |} vols None w0)
    as (err' & w' & l & Hloop & Hout & Hcalls & Hl).
  { now rewrite Hout0. }
  unfold bind. rewrite Hloop. cbn [fst snd logf].
  split; [reflexivity|].
  rewrite (since_app w _ ([ EnvParse; OsHostname; NewClient "unix:///var/run/docker.sock";
                            ListVolumes; InspectImage (settings.Image e) ] ++ l)).
  - rewrite inspected_app. exact Hl.
  - cbn [calls logged]. rewrite Hcalls, Hcalls0, <- app_assoc. reflexivity.
Qed.

End Run.

(** A worker that cannot be created ends the run with code 1: the
    volumes that follow are not looked at. *)
Lemma forVols_create_fatal (c : Main.conplicity) (vol : docker.Volume)
  (rest : list docker.Volume) (err : option error) (w : World)
  (voll : docker.Volume) (ep : option error) (ct : option docker.Container) (e : error) :
  outside w (calls w) (InspectVolume (docker.Name vol)) = Ans (Some voll, ep) ->
  utf8.RuneCountInString (docker.Name voll) <> 64%Z ->
  docker.Labels voll !! ignoreLabel <> Some "true" ->
  (forall h opts, outside w h (CreateContainer opts) = Ans (ct, Some e)) ->
  exists w' opts,
    Main.forVols c (vol :: rest) err w = (Exited 1, w') /\
    calls w' = calls w ++ [InspectVolume (docker.Name vol); CreateContainer opts].
Proof.
  intros Hinspect Hname Hignore Hcreate.
  cbn [Main.forVols]. unfold bind at 1, call at 1. rewrite Hinspect.
  unfold bind at 1.
  destruct (checkErr_continues err
              ("Failed to inspect volume " +:+ docker.Name vol +:+ ": %v")
              (record (InspectVolume (docker.Name vol)) w))
    as (w2 & -> & Hout2 & Hcalls2 & _).
  unfold bind at 1. unfold Main.backupVolume.
  apply Z.eqb_neq in Hname. rewrite Hname. rewrite (not_ignored voll Hignore).
  set (opts := Main.createOptions _ _ _).
  unfold bind, logf, call, Main.checkErr, osExit.
  destruct w2 as [o2 c2 l2]. cbn in Hout2, Hcalls2. subst o2 c2.
  cbn [outside calls logs logged record].
  rewrite Hcreate. cbn.
  do 2 eexists. split; [reflexivity|]. cbn.
  rewrite <- !app_assoc. reflexivity.
Qed.

(** A worker that cannot be started is a failure of its volume only: the
    loop writes the failure down and goes on with the next volume. *)
Lemma forVols_start_failure (c : Main.conplicity) (vol : docker.Volume)
  (rest : list docker.Volume) (err : option error) (w : World)
  (voll : docker.Volume) (ep : option error) (ct : docker.Container)
  (e : error) (er : option error) :
  outside w (calls w) (InspectVolume (docker.Name vol)) = Ans (Some voll, ep) ->
  utf8.RuneCountInString (docker.Name voll) <> 64%Z ->
  docker.Labels voll !! ignoreLabel <> Some "true" ->
  (forall h opts, outside w h (CreateContainer opts) = Ans (Some ct, None)) ->
  (forall h a b, outside w h (DockerptyStart a b) = Ans (Some e)) ->
  (forall h opts, outside w h (RemoveContainer opts) = Ans er) ->
  exists w',
    Main.forVols c (vol :: rest) err w = Main.forVols c rest (Some e) w' /\
    last (logs w') = Some (processFailure vol e) /\
    outside w' = outside w.
Proof.
  intros Hinspect Hname Hignore Hcreate Hstart Hremove.
  cbn [Main.forVols]. unfold bind at 1, call at 1. rewrite Hinspect.
  unfold bind at 1.
  destruct (checkErr_continues err
              ("Failed to inspect volume " +:+ docker.Name vol +:+ ": %v")
              (record (InspectVolume (docker.Name vol)) w))
    as (w2 & -> & Hout2 & Hcalls2 & _).
  unfold bind at 1. unfold Main.backupVolume.
  apply Z.eqb_neq in Hname. rewrite Hname. rewrite (not_ignored voll Hignore).
  set (opts := Main.createOptions _ _ _).
  unfold bind, logf, call, Main.checkErr, defer, Main.removeCreated, bind, call, ret,
    osExit, panic, logf.
  destruct w2 as [o2 c2 l2]. cbn in Hout2, Hcalls2. subst o2 c2.
  cbn [outside calls logs logged record].
  rewrite Hcreate. cbn. rewrite Hstart. cbn. rewrite Hremove. cbn.
  eexists. split; [reflexivity|]. cbn [logs outside]. split; [|reflexivity].
  unfold processFailure. cbn [logs logged]. now rewrite last_snoc.
Qed.

(** C4, as the code has it.  A worker that cannot be started is written
    down and the loop goes on with the next volume, so that under an
    outside that answers every call the run goes through all the volumes
    whatever the starts give.  A failure to list the volumes, to make the
    image available, or to create the worker of a volume ends the whole
    run with the exit code 1. *)
Theorem run_failures :
  (forall c vol rest err w voll ep ct e er,
     outside w (calls w) (InspectVolume (docker.Name vol)) = Ans (Some voll, ep) ->
     utf8.RuneCountInString (docker.Name voll) <> 64%Z ->
     docker.Labels voll !! ignoreLabel <> Some "true" ->
     (forall h opts, outside w h (CreateContainer opts) = Ans (Some ct, None)) ->
     (forall h a b, outside w h (DockerptyStart a b) = Ans (Some e)) ->
     (forall h opts, outside w h (RemoveContainer opts) = Ans er) ->
     exists w',
       Main.forVols c (vol :: rest) err w = Main.forVols c rest (Some e) w' /\
       last (logs w') = Some (processFailure vol e) /\
       outside w' = outside w) /\
  (forall w e host vols,
     reachesListing (outside w) e host ->
     (forall h, outside w h ListVolumes = Ans (vols, None)) ->
     (forall h name, outside w h (InspectImage name) = Ans None) ->
     cooperative (outside w) ->
     fst (Main.main w) = Returned tt /\
     inspected (since w (snd (Main.main w))) = map docker.Name vols) /\
  (forall w e host vols err,
     reachesListing (outside w) e host ->
     (forall h, outside w h ListVolumes = Ans (vols, Some err)) ->
     fst (Main.main w) = Exited 1 /\ inspected (since w (snd (Main.main w))) = []) /\
  (forall w e host vols e1 e2,
     reachesListing (outside w) e host ->
     (forall h, outside w h ListVolumes = Ans (vols, None)) ->
     (forall h name, outside w h (InspectImage name) = Ans (Some e1)) ->
     (forall h repo, outside w h (PullImage repo) = Ans (Some e2)) ->
     fst (Main.main w) = Exited 1 /\ inspected (since w (snd (Main.main w))) = []) /\
  (forall c vol rest err w voll ep ct e,
     outside w (calls w) (InspectVolume (docker.Name vol)) = Ans (Some voll, ep) ->
     utf8.RuneCountInString (docker.Name voll) <> 64%Z ->
     docker.Labels voll !! ignoreLabel <> Some "true" ->
     (forall h opts, outside w h (CreateContainer opts) = Ans (ct, Some e)) ->
     exists w' opts,
       Main.forVols c (vol :: rest) err w = (Exited 1, w') /\
       calls w' = calls w ++ [InspectVolume (docker.Name vol); CreateContainer opts]).
Proof.
  split; [|split; [|split; [|split]]].
  - intros. eapply forVols_start_failure; eassumption.
  - intros. eapply main_returns; eassumption.
  - intros. eapply main_listing_fatal; eassumption.
  - intros. eapply main_image_fatal; eassumption.
  - intros. eapply forVols_create_fatal; eassumption.
Qed.

Lemma run_failures_witness :
  let w := commandWorld [plainVolume; weeklyVolume] (Some sampleContainer, None)
             (Some (New "cannot start")) in
  reachesListing (outside w) sampleEnvironment "host" /\
  (forall h, outside w h ListVolumes = Ans ([plainVolume; weeklyVolume], None)) /\
  (forall h name, outside w h (InspectImage name) = Ans None) /\
  cooperative (outside w) /\
  fst (Main.main w) = Returned tt /\
  inspected (since w (snd (Main.main w))) = ["www"; "db"].
Proof.
  cbv zeta.
  set (w := commandWorld [plainVolume; weeklyVolume] (Some sampleContainer, None)
              (Some (New "cannot start"))).
  assert (Hreach : reachesListing (outside w) sampleEnvironment "host")
    by (repeat split; intros; reflexivity).
  assert (Hlist : forall h, outside w h ListVolumes = Ans ([plainVolume; weeklyVolume], None))
    by (intros; reflexivity).
  assert (Himage : forall h name, outside w h (InspectImage name) = Ans None)
    by (intros; reflexivity).
  assert (Hcoop : cooperative (outside w))
    by (repeat split; intros; repeat eexists; reflexivity).
  repeat (split; [assumption|]).
  exact (proj1 (proj2 run_failures) w sampleEnvironment "host"
           [plainVolume; weeklyVolume] Hreach Hlist Himage Hcoop).
Defined.

(** C4 as the spec words it fails when a worker cannot be created: the
    run exits with code 1 after the first of two volumes, the second one
    is never looked at. *)
Lemma create_failure_aborts_batch :
  let w := commandWorld [plainVolume; weeklyVolume]
             (None, Some (New "no space left on device")) None in
  fst (Main.main w) = Exited 1 /\
  inspected (since w (snd (Main.main w))) = ["www"] /\
  inspected (since w (snd (Main.main w))) <> map docker.Name [plainVolume; weeklyVolume].
Proof.
  cbv zeta. split; [vm_compute; reflexivity|].
  split; [vm_compute; reflexivity | vm_compute; discriminate].
Qed.

(** * Further properties of package [volume] *)

(** X1.  No operation of the package hands a launch error back to its
    caller: when Duplicity cannot be launched, the operation writes one
    line and the process exits with code 1. *)
Theorem duplicity_launch_failure_exits `{!time.Parser}
  (v : volume.Volume) (w : World) (state : docker.ContainerJSON) (stdout : string)
  (e : error) :
  (outside w (calls w) (volume.backupCall v) = Ans (state, stdout, Some e) ->
   volume.Backup v w
   = (Exited 1, logged (launchFailure e) (record (volume.backupCall v) w))) /\
  (outside w (calls w) (volume.removeOldCall v) = Ans (state, stdout, Some e) ->
   volume.RemoveOld v w
   = (Exited 1, logged (launchFailure e) (record (volume.removeOldCall v) w))) /\
  (outside w (calls w) (volume.cleanupCall v) = Ans (state, stdout, Some e) ->
   volume.Cleanup v w
   = (Exited 1, logged (launchFailure e) (record (volume.cleanupCall v) w))) /\
  (outside w (calls w) (volume.verifyCall v) = Ans (state, stdout, Some e) ->
   volume.Verify v w
   = (Exited 1, logged (launchFailure e) (record (volume.verifyCall v) w))) /\
  (outside w (calls w) (volume.statusCall v) = Ans (state, stdout, Some e) ->
   volume.Status v w
   = (Exited 1, logged (launchFailure e) (record (volume.statusCall v) w))).
Proof.
  repeat split; intros Hans;
    [ unfold volume.Backup | unfold volume.RemoveOld | unfold volume.Cleanup
    | unfold volume.Verify | unfold volume.Status ];
    unfold bind, call; rewrite Hans; reflexivity.
Qed.

Lemma duplicity_launch_failure_exits_witness :
  let w := duplicityWorld (exitedWith 0) EmptyString (Some (New "image not found")) in
  outside w (calls w) (volume.cleanupCall sampleVolume)
    = Ans (exitedWith 0, EmptyString, Some (New "image not found")) /\
  volume.Cleanup sampleVolume w
    = (Exited 1, logged (launchFailure (New "image not found"))
                   (record (volume.cleanupCall sampleVolume) w)).
Proof.
  cbv zeta. split; [reflexivity|].
  exact (proj1 (proj2 (proj2
           (@duplicity_launch_failure_exits time.layoutParser sampleVolume
              (duplicityWorld (exitedWith 0) EmptyString (Some (New "image not found")))
              (exitedWith 0) EmptyString (New "image not found")))) eq_refl).
Defined.

(** X2.  [RemoveOld] and [Cleanup] look at neither the exit code nor the
    output of the worker: once Duplicity is launched they return no
    metric and no error, whatever the worker did. *)
Theorem pruning_ignores_exit_code (v : volume.Volume) (w : World)
  (state : docker.ContainerJSON) (stdout : string) :
  (outside w (calls w) (volume.removeOldCall v) = Ans (state, stdout, None) ->
   volume.RemoveOld v w = (Returned ([], None), record (volume.removeOldCall v) w)) /\
  (outside w (calls w) (volume.cleanupCall v) = Ans (state, stdout, None) ->
   volume.Cleanup v w = (Returned ([], None), record (volume.cleanupCall v) w)).
Proof.
  split; intros Hans; [unfold volume.RemoveOld | unfold volume.Cleanup];
    unfold bind, call; rewrite Hans; reflexivity.
Qed.

Lemma pruning_ignores_exit_code_witness :
  let w := duplicityWorld (exitedWith 23) "Traceback: backend error" None in
  outside w (calls w) (volume.removeOldCall sampleVolume)
    = Ans (exitedWith 23, "Traceback: backend error", None) /\
  volume.RemoveOld sampleVolume w
    = (Returned ([], None), record (volume.removeOldCall sampleVolume) w).
Proof.
  cbv zeta. split; [reflexivity|].
  exact (proj1 (pruning_ignores_exit_code sampleVolume
                  (duplicityWorld (exitedWith 23) "Traceback: backend error" None)
                  (exitedWith 23) "Traceback: backend error") eq_refl).
Defined.

(** X3.  Every operation of the package launches exactly one worker,
    however it ends: by a return, by the exit of the process or by a
    panic of the launch. *)
Theorem one_launch_per_operation `{!time.Parser} (v : volume.Volume) (w : World) :
  calls (snd (volume.Backup v w)) = calls w ++ [volume.backupCall v] /\
  calls (snd (volume.RemoveOld v w)) = calls w ++ [volume.removeOldCall v] /\
  calls (snd (volume.Cleanup v w)) = calls w ++ [volume.cleanupCall v] /\
  calls (snd (volume.Verify v w)) = calls w ++ [volume.verifyCall v] /\
  calls (snd (volume.Status v w)) = calls w ++ [volume.statusCall v].
Proof.
  repeat split;
    [ unfold volume.Backup | unfold volume.RemoveOld | unfold volume.Cleanup
    | unfold volume.Verify | unfold volume.Status ];
    unfold bind, call;
    match goal with
    | |- context [outside w (calls w) ?c] =>
        destruct (outside w (calls w) c) as [[[state stdout] [e|]] | p]
    end; try reflexivity.
  status_step.
  destruct (FindStringSubmatch_shape volume.fullBackupRx stdout) as [Hfull | [g1 Hfull]];
    rewrite Hfull; status_step; [reflexivity|].
  destruct (time.Parse volume.timeFormat (TrimSpace g1)) as [T1 [e1|]]; status_step;
    (destruct (FindStringSubmatch_shape volume.chainEndTimeRx stdout)
       as [Hchain | [g2 Hchain]]; rewrite Hchain; status_step; [reflexivity|]);
    destruct (time.Parse volume.timeFormat (TrimSpace g2)) as [T2 [e2|]]; reflexivity.
Qed.

Section StatusTable.

Context `{!time.Parser}.

Variable v : volume.Volume.
Variable w : World.
Variables (state : docker.ContainerJSON) (stdout : string).

Hypothesis launched :
  outside w (calls w) (volume.statusCall v) = Ans (state, stdout, None).

(** X4.  When both markers are found [Status] always returns its two
    metrics, the line of [lastBackup] first and the line of
    [lastFullBackup] second, each with the epoch seconds of whatever
    [time.Parse] gave back for its text; the error it returns is the one
    of the chain end time, or none: a parse error of the last full backup
    date is written to the log and never returned. *)
Theorem Status_both_markers_found (whole1 t1 whole2 t2 : string) :
  volume.FindStringSubmatch volume.fullBackupRx stdout = [whole1; t1] ->
  volume.FindStringSubmatch volume.chainEndTimeRx stdout = [whole2; t2] ->
  fst (volume.Status v w) =
    Returned
      ([ "conplicity{volume=" +:+ dquote +:+ volume.Name v +:+ dquote
         +:+ ",what=" +:+ dquote +:+ "lastBackup" +:+ dquote +:+ "} "
         +:+ Itoa (time.Unix (fst (time.Parse volume.timeFormat (TrimSpace t2))));
         "conplicity{volume=" +:+ dquote +:+ volume.Name v +:+ dquote
         +:+ ",what=" +:+ dquote +:+ "lastFullBackup" +:+ dquote +:+ "} "
         +:+ Itoa (time.Unix (fst (time.Parse volume.timeFormat (TrimSpace t1)))) ],
       snd (time.Parse volume.timeFormat (TrimSpace t2))).
Proof.
  intros Hfull Hchain.
  rewrite (Status_found v w state stdout launched _ _ _ _ Hfull Hchain). reflexivity.
Qed.

(** X5.  Once Duplicity is launched [Status] returns, and it returns
    either no metric or two: none exactly when a marker is not found, and
    then always with an error. *)
Theorem Status_metrics_count :
  exists metrics err,
    fst (volume.Status v w) = Returned (metrics, err) /\
    (metrics = [] \/ length metrics = 2%nat) /\
    (metrics = [] <->
     volume.FindStringSubmatch volume.fullBackupRx stdout = [] \/
     volume.FindStringSubmatch volume.chainEndTimeRx stdout = []) /\
    (metrics = [] -> err <> None).
Proof.
  unfold volume.Status, bind, call. rewrite launched. status_step.
  destruct (FindStringSubmatch_shape volume.fullBackupRx stdout) as [Hfull | [g1 Hfull]];
    rewrite Hfull; status_step.
  { do 2 eexists. split; [reflexivity|]. repeat split; auto; discriminate. }
  destruct (time.Parse volume.timeFormat (TrimSpace g1)) as [T1 [e1|]]; status_step;
    (destruct (FindStringSubmatch_shape volume.chainEndTimeRx stdout)
       as [Hchain | [g2 Hchain]]; rewrite Hchain; status_step;
     [ do 2 eexists; split; [reflexivity|]; repeat split; auto; discriminate
     | destruct (time.Parse volume.timeFormat (TrimSpace g2)) as [T2 [e2|]];
       do 2 eexists; (split; [reflexivity|]);
       (split; [right; reflexivity|]);
       (split; [split; [discriminate | intros [Hx | Hx]; discriminate]
               | discriminate]) ]).
Qed.

End StatusTable.

Lemma Status_both_markers_found_witness :
  let w := duplicityWorld (exitedWith 0) statusBadChainEnd None in
  let t1 := "Mon Jan 2 15:04:05 2006" +:+ String "013"%char EmptyString in
  let t2 := "unknown" +:+ String "013"%char EmptyString in
  outside w (calls w) (volume.statusCall sampleVolume)
    = Ans (exitedWith 0, statusBadChainEnd, None) /\
  volume.FindStringSubmatch volume.fullBackupRx statusBadChainEnd
    = ["Last full backup date: " +:+ t1; t1] /\
  volume.FindStringSubmatch volume.chainEndTimeRx statusBadChainEnd
    = ["Chain end time: " +:+ t2; t2] /\
  fst (@volume.Status time.layoutParser sampleVolume w) =
    Returned ([ "conplicity{volume=" +:+ dquote +:+ "data" +:+ dquote
                +:+ ",what=" +:+ dquote +:+ "lastBackup" +:+ dquote +:+ "} -62135596800";
                "conplicity{volume=" +:+ dquote +:+ "data" +:+ dquote
                +:+ ",what=" +:+ dquote +:+ "lastFullBackup" +:+ dquote +:+ "} 1136214245" ],
              Some (New ("parsing time " +:+ dquote +:+ "unknown" +:+ dquote +:+ " as "
                         +:+ dquote +:+ "Mon Jan 2 15:04:05 2006" +:+ dquote
                         +:+ ": cannot parse " +:+ dquote +:+ "unknown" +:+ dquote
                         +:+ " as " +:+ dquote +:+ "Mon" +:+ dquote))).
Proof.
  cbv zeta. repeat (split; [reflexivity|]).
  exact (@Status_both_markers_found time.layoutParser sampleVolume
           (duplicityWorld (exitedWith 0) statusBadChainEnd None)
           (exitedWith 0) statusBadChainEnd eq_refl _ _ _ _ eq_refl eq_refl).
Defined.

Lemma Status_metrics_count_witness :
  let w := duplicityWorld (exitedWith 0) statusWithoutChainEnd None in
  outside w (calls w) (volume.statusCall sampleVolume)
    = Ans (exitedWith 0, statusWithoutChainEnd, None) /\
  exists metrics err,
    fst (@volume.Status time.layoutParser sampleVolume w) = Returned (metrics, err) /\
    (metrics = [] \/ length metrics = 2%nat) /\
    (metrics = [] <->
     volume.FindStringSubmatch volume.fullBackupRx statusWithoutChainEnd = [] \/
     volume.FindStringSubmatch volume.chainEndTimeRx statusWithoutChainEnd = []) /\
    (metrics = [] -> err <> None).
Proof.
  cbv zeta. split; [reflexivity|].
  exact (@Status_metrics_count time.layoutParser sampleVolume
           (duplicityWorld (exitedWith 0) statusWithoutChainEnd None)
           (exitedWith 0) statusWithoutChainEnd eq_refl).
Defined.

(** ** Text after the first report *)

Lemma afterPrefix_more (s p rest x : string) :
  volume.afterPrefix s p = Some rest ->
  volume.afterPrefix (s +:+ x) p = Some (rest +:+ x).
Proof.
  revert s; induction p as [|b p IH]; intros s; cbn -[Ascii.eqb].
  - intros Heq. assert (rest = s) as -> by (destruct s; cbn in Heq; congruence).
    now destruct s, x.
  - destruct s as [|a s]; cbn -[Ascii.eqb]; [discriminate|].
    destruct (Ascii.eqb a b); [apply IH | discriminate].
Qed.

Lemma dots_before_newline (r x : string) :
  volume.dots (r +:+ String volume.newline x) = volume.dots r.
Proof.
  induction r as [|c r IH]; cbn -[Ascii.eqb].
  - now rewrite Ascii.eqb_refl.
  - destruct (Ascii.eqb c volume.newline); [reflexivity | now rewrite IH].
Qed.

Lemma afterPrefix_still_none (s p x : string) :
  volume.dots p = p ->
  volume.afterPrefix s p = None ->
  volume.afterPrefix (s +:+ String volume.newline x) p = None.
Proof.
  revert s; induction p as [|b p IH]; intros [|a s] Hp; cbn -[Ascii.eqb] in *;
    try congruence.
  - intros _. destruct (Ascii.eqb_spec volume.newline b) as [<- | _]; [|reflexivity].
    rewrite Ascii.eqb_refl in Hp. discriminate.
  - destruct (Ascii.eqb a b); [|reflexivity].
    apply IH. destruct (Ascii.eqb b volume.newline); congruence.
Qed.

Lemma matchHere_before_newline (rx : volume.Regexp) (s x : string) :
  volume.dots (volume.literal rx) = volume.literal rx ->
  volume.matchHere rx (s +:+ String volume.newline x) = volume.matchHere rx s.
Proof.
  intros Hlit. unfold volume.matchHere.
  destruct (volume.afterPrefix s (volume.literal rx)) as [rest|] eqn:Hp.
  - rewrite (afterPrefix_more _ _ _ _ Hp), dots_before_newline. reflexivity.
  - now rewrite afterPrefix_still_none.
Qed.

(** What follows the line of the leftmost match does not change it. *)
Lemma FindStringSubmatch_before_newline (rx : volume.Regexp) (s x : string) :
  volume.dots (volume.literal rx) = volume.literal rx ->
  volume.FindStringSubmatch rx s <> [] ->
  volume.FindStringSubmatch rx (s +:+ String volume.newline x)
  = volume.FindStringSubmatch rx s.
Proof.
  intros Hlit. induction s as [|c s IH]; intros Hfound.
  - exfalso. apply Hfound. cbn. unfold volume.matchHere.
    destruct (volume.afterPrefix EmptyString (volume.literal rx)) as [rest|] eqn:Hp;
      [|reflexivity].
    apply afterPrefix_app in Hp. destruct (volume.literal rx); [|discriminate].
    cbn in Hp. now subst rest.
  - change (match volume.matchHere rx (String c s +:+ String volume.newline x) with
            | Some m => m
            | None => volume.FindStringSubmatch rx (s +:+ String volume.newline x)
            end
            = match volume.matchHere rx (String c s) with
              | Some m => m
              | None => volume.FindStringSubmatch rx s
              end).
    change (match volume.matchHere rx (String c s) with
            | Some m => m
            | None => volume.FindStringSubmatch rx s
            end <> []) in Hfound.
    rewrite matchHere_before_newline by assumption.
    destruct (volume.matchHere rx (String c s)); [reflexivity | auto].
Qed.

(** X6.  [Status] reads the first line of each marker only: lines that
    follow a report in which both markers are found, for instance the
    lines of a further chain, change neither the metrics nor the error. *)
Theorem Status_first_report `{!time.Parser} (v : volume.Volume) (w w2 : World)
  (state state2 : docker.ContainerJSON) (stdout later whole1 t1 whole2 t2 : string) :
  outside w (calls w) (volume.statusCall v) = Ans (state, stdout, None) ->
  outside w2 (calls w2) (volume.statusCall v)
    = Ans (state2, stdout +:+ String volume.newline later, None) ->
  volume.FindStringSubmatch volume.fullBackupRx stdout = [whole1; t1] ->
  volume.FindStringSubmatch volume.chainEndTimeRx stdout = [whole2; t2] ->
  fst (volume.Status v w2) = fst (volume.Status v w).
Proof.
  intros Hw Hw2 Hfull Hchain.
  assert (Hfull2 : volume.FindStringSubmatch volume.fullBackupRx
                     (stdout +:+ String volume.newline later) = [whole1; t1]).
  { rewrite FindStringSubmatch_before_newline; [exact Hfull | reflexivity | congruence]. }
  assert (Hchain2 : volume.FindStringSubmatch volume.chainEndTimeRx
                      (stdout +:+ String volume.newline later) = [whole2; t2]).
  { rewrite FindStringSubmatch_before_newline; [exact Hchain | reflexivity | congruence]. }
  unfold volume.Status, bind, call. rewrite Hw, Hw2. status_step.
  rewrite Hfull, Hfull2. status_step.
  destruct (time.Parse volume.timeFormat (TrimSpace t1)) as [T1 [e1|]];
    status_step; rewrite Hchain, Hchain2; status_step;
    destruct (time.Parse volume.timeFormat (TrimSpace t2)) as [T2 [e2|]]; reflexivity.
Qed.

Lemma Status_first_report_witness :
  let w := duplicityWorld (exitedWith 0) sampleStatus None in
  let w2 := duplicityWorld (exitedWith 0) statusTwoChains None in
  let later := "Chain end time: Fri Jan 6 10:00:00 2006" +:+ crlf in
  let t1 := "Mon Jan 2 15:04:05 2006" +:+ String "013"%char EmptyString in
  let t2 := "Tue Jan 3 16:05:06 2006" +:+ String "013"%char EmptyString in
  outside w (calls w) (volume.statusCall sampleVolume)
    = Ans (exitedWith 0, sampleStatus, None) /\
  outside w2 (calls w2) (volume.statusCall sampleVolume)
    = Ans (exitedWith 0, sampleStatus +:+ String volume.newline later, None) /\
  volume.FindStringSubmatch volume.fullBackupRx sampleStatus
    = ["Last full backup date: " +:+ t1; t1] /\
  volume.FindStringSubmatch volume.chainEndTimeRx sampleStatus
    = ["Chain end time: " +:+ t2; t2] /\
  fst (@volume.Status time.layoutParser sampleVolume w2)
    = fst (@volume.Status time.layoutParser sampleVolume w).
Proof.
  cbv zeta. repeat (split; [reflexivity|]).
  exact (@Status_first_report time.layoutParser sampleVolume
           (duplicityWorld (exitedWith 0) sampleStatus None)
           (duplicityWorld (exitedWith 0) statusTwoChains None)
           (exitedWith 0) (exitedWith 0) sampleStatus
           ("Chain end time: Fri Jan 6 10:00:00 2006" +:+ crlf)
           _ _ _ _ eq_refl eq_refl eq_refl eq_refl).
Defined.

(** X7.  The metric of [Backup] and of [Verify] is the line
    [conplicity{volume="<name>",what="<what>"} <code>]: the name of the
    volume is copied as it is and the exit code is written in decimal. *)
Theorem exit_code_metric_text (v : volume.Volume) (w : World)
  (state : docker.ContainerJSON) (stdout : string) :
  (outside w (calls w) (volume.backupCall v) = Ans (state, stdout, None) ->
   fst (volume.Backup v w) =
     Returned ([ "conplicity{volume=" +:+ dquote +:+ volume.Name v +:+ dquote
                 +:+ ",what=" +:+ dquote +:+ "backupExitCode" +:+ dquote
                 +:+ "} " +:+ Itoa (docker.ExitCode state) ], None)) /\
  (outside w (calls w) (volume.verifyCall v) = Ans (state, stdout, None) ->
   fst (volume.Verify v w) =
     Returned ([ "conplicity{volume=" +:+ dquote +:+ volume.Name v +:+ dquote
                 +:+ ",what=" +:+ dquote +:+ "verifyExitCode" +:+ dquote
                 +:+ "} " +:+ Itoa (docker.ExitCode state) ], None)).
Proof.
  split; intros Hans; [unfold volume.Backup | unfold volume.Verify];
    unfold bind, call; rewrite Hans; cbn; now rewrite append_empty.
Qed.

Lemma exit_code_metric_text_witness :
  let w := duplicityWorld (exitedWith 2) EmptyString None in
  outside w (calls w) (volume.backupCall sampleVolume)
    = Ans (exitedWith 2, EmptyString, None) /\
  fst (volume.Backup sampleVolume w) =
    Returned ([ "conplicity{volume=" +:+ dquote +:+ "data" +:+ dquote
                +:+ ",what=" +:+ dquote +:+ "backupExitCode" +:+ dquote
                +:+ "} 2" ], None).
Proof.
  cbv zeta. split; [reflexivity|].
  exact (proj1 (exit_code_metric_text sampleVolume
                  (duplicityWorld (exitedWith 2) EmptyString None)
                  (exitedWith 2) EmptyString) eq_refl).
Defined.

(** * Further properties of the command *)

(** ** Names and the rule of 64 characters *)

Lemma countFrom_le (s : string) :
  forall skip, (utf8.countFrom skip s <= String.length s)%nat.
Proof.
  induction s as [|c s IH]; intros skip; cbn -[utf8.runeSize]; [lia|].
  destruct skip as [|k].
  - specialize (IH (utf8.runeSize (String c s) - 1)%nat). lia.
  - specialize (IH k). lia.
Qed.

Lemma countFrom_ascii (s : string) :
  allASCII s = true -> utf8.countFrom 0 s = String.length s.
Proof.
  induction s as [|c s IH]; [reflexivity|].
  cbn -[N.ltb]. intros Hs. apply andb_prop in Hs as [Hc Hs].
  rewrite Hc. cbn. now rewrite IH.
Qed.

Lemma backupVolume_skip_world (c : Main.conplicity) (vol : docker.Volume) (w : World) :
  utf8.RuneCountInString (docker.Name vol) = 64%Z \/
  docker.Labels vol !! ignoreLabel = Some "true" ->
  exists line, Main.backupVolume c (Some vol) w = (Returned None, logged line w).
Proof.
  intros Hskip. unfold Main.backupVolume.
  destruct (utf8.RuneCountInString (docker.Name vol) =? 64)%Z eqn:Hlen.
  - eexists. reflexivity.
  - destruct Hskip as [Hname | Hlabel].
    + apply Z.eqb_neq in Hlen. contradiction.
    + rewrite getVolumeLabel_lookup.
      change (Main.labelPrefix +:+ ".ignore") with ignoreLabel.
      rewrite Hlabel. cbn. eexists. reflexivity.
Qed.

(** X8.  A name made of 64 bytes below 128, as the runtime gives to a
    volume without a name, is taken for an anonymous volume: the volume is
    skipped without a call to the runtime. *)
Theorem ascii_name_of_64_bytes_skipped (c : Main.conplicity) (vol : docker.Volume)
  (w : World) :
  allASCII (docker.Name vol) = true ->
  String.length (docker.Name vol) = 64%nat ->
  exists line, Main.backupVolume c (Some vol) w = (Returned None, logged line w).
Proof.
  intros Hascii Hlen. apply backupVolume_skip_world. left.
  unfold utf8.RuneCountInString. rewrite countFrom_ascii, Hlen by assumption. reflexivity.
Qed.

Lemma ascii_name_of_64_bytes_skipped_witness :
  allASCII (docker.Name anonymousVolume) = true /\
  String.length (docker.Name anonymousVolume) = 64%nat /\
  exists line,
    Main.backupVolume sampleConplicity (Some anonymousVolume)
      (commandWorld [anonymousVolume] (Some sampleContainer, None) None)
    = (Returned None,
       logged line (commandWorld [anonymousVolume] (Some sampleContainer, None) None)).
Proof.
  split; [reflexivity|]. split; [reflexivity|].
  exact (ascii_name_of_64_bytes_skipped sampleConplicity anonymousVolume _ eq_refl eq_refl).
Defined.

(** X9.  The rule counts characters, not bytes, and a name never counts
    more characters than it has bytes: a volume whose name is shorter than
    64 bytes and that is not marked to be ignored always has a worker
    created for it. *)
Theorem short_name_gets_worker (c : Main.conplicity) (vol : docker.Volume) (w : World) :
  (String.length (docker.Name vol) < 64)%nat ->
  docker.Labels vol !! ignoreLabel <> Some "true" ->
  exists opts rest,
    since w (snd (Main.backupVolume c (Some vol) w)) = CreateContainer opts :: rest.
Proof.
  intros Hlen Hignore.
  assert (Hname : utf8.RuneCountInString (docker.Name vol) <> 64%Z).
  { unfold utf8.RuneCountInString.
    pose proof (countFrom_le (docker.Name vol) 0). lia. }
  destruct (backupVolume_first_call c vol w Hname Hignore) as [rest Hcalls].
  do 2 eexists. apply since_app. exact Hcalls.
Qed.

Lemma short_name_gets_worker_witness :
  let w := commandWorld [plainVolume] (Some sampleContainer, None) None in
  (String.length (docker.Name plainVolume) < 64)%nat /\
  docker.Labels plainVolume !! ignoreLabel <> Some "true" /\
  exists opts rest,
    since w (snd (Main.backupVolume sampleConplicity (Some plainVolume) w))
    = CreateContainer opts :: rest.
Proof.
  cbv zeta.
  assert (Hlen : (String.length (docker.Name plainVolume) < 64)%nat) by (cbn; lia).
  assert (Hignore : docker.Labels plainVolume !! ignoreLabel <> Some "true")
    by (vm_compute; discriminate).
  split; [exact Hlen|]. split; [exact Hignore|].
  exact (short_name_gets_worker sampleConplicity plainVolume _ Hlen Hignore).
Defined.

(** A name of 64 bytes with accented letters counts fewer than 64
    characters: its volume is not skipped. *)
Example accented_name_not_anonymous :
  String.length (docker.Name accentedVolume) = 64%nat /\
  utf8.RuneCountInString (docker.Name accentedVolume) = 61%Z /\
  exists opts rest,
    since (commandWorld [accentedVolume] (Some sampleContainer, None) None)
      (snd (Main.backupVolume sampleConplicity (Some accentedVolume)
              (commandWorld [accentedVolume] (Some sampleContainer, None) None)))
    = CreateContainer opts :: rest.
Proof. split; [reflexivity|]. split; [reflexivity|]. do 2 eexists. reflexivity. Qed.

(** X10.  [backupVolume] makes no call to the runtime exactly when the
    volume is skipped, that is when its name counts 64 characters or its
    label [io.conplicity.ignore] is [true]; any other value of the label
    leaves the volume in the batch. *)
Theorem backupVolume_skips_iff (c : Main.conplicity) (vol : docker.Volume) (w : World) :
  calls (snd (Main.backupVolume c (Some vol) w)) = calls w <->
  utf8.RuneCountInString (docker.Name vol) = 64%Z \/
  docker.Labels vol !! ignoreLabel = Some "true".
Proof.
  split.
  - intros Hcalls.
    destruct (Z.eq_dec (utf8.RuneCountInString (docker.Name vol)) 64%Z) as [|Hname];
      [now left|].
    destruct (decide (docker.Labels vol !! ignoreLabel = Some "true")) as [|Hignore];
      [now right|].
    destruct (backupVolume_first_call c vol w Hname Hignore) as [rest Hfirst].
    rewrite Hfirst in Hcalls.
    apply (f_equal length) in Hcalls. rewrite length_app in Hcalls. cbn in Hcalls. lia.
  - intros Hskip. destruct (backupVolume_skip_world c vol w Hskip) as [line ->].
    reflexivity.
Qed.

(** X11.  When the worker of a volume is created and neither the start
    nor the removal panics, [backupVolume] makes three calls in this
    order: the creation, the start of that worker with the mount point of
    the volume bound read-only, the forced removal of that worker.  It
    returns what the start returned; what the removal returned is
    dropped. *)
Theorem backupVolume_call_sequence (c : Main.conplicity) (vol : docker.Volume) (w : World)
  (ct : docker.Container) (started removed : option error) :
  utf8.RuneCountInString (docker.Name vol) <> 64%Z ->
  docker.Labels vol !! ignoreLabel <> Some "true" ->
  (forall opts, outside w (calls w) (CreateContainer opts) = Ans (Some ct, None)) ->
  (forall h a b, outside w h (DockerptyStart a b) = Ans started) ->
  (forall h opts, outside w h (RemoveContainer opts) = Ans removed) ->
  exists opts,
    fst (Main.backupVolume c (Some vol) w) = Returned started /\
    since w (snd (Main.backupVolume c (Some vol) w)) =
      [ CreateContainer opts;
        DockerptyStart (Some ct)
          {| docker.Binds := [docker.Mountpoint vol +:+ ":/var/backups:ro"] |};
        RemoveContainer {| docker.ID_ := docker.ID ct; docker.Force := true |} ].
Proof.
  intros Hname Hignore Hcreate Hstart Hremove.
  destruct (Main.backupVolume c (Some vol) w) as [out w'] eqn:Hrun.
  revert Hrun. unfold Main.backupVolume.
  apply Z.eqb_neq in Hname. rewrite Hname. rewrite (not_ignored vol Hignore).
  set (opts := Main.createOptions _ _ _).
  unfold bind, logf, call, Main.checkErr, defer, Main.removeCreated, bind, call, ret,
    osExit, panic, logf.
  cbn [outside calls logs logged record]. rewrite Hcreate.
  cbn [outside calls logs logged record]. rewrite Hstart.
  destruct started as [e|]; cbn; rewrite Hremove; cbn;
    intros [= <- <-]; exists opts; (split; [reflexivity|]);
    apply since_app; cbn; rewrite <- ?app_assoc; reflexivity.
Qed.

Lemma backupVolume_call_sequence_witness :
  let w := commandWorld [plainVolume] (Some sampleContainer, None)
             (Some (New "cannot start")) in
  utf8.RuneCountInString (docker.Name plainVolume) <> 64%Z /\
  docker.Labels plainVolume !! ignoreLabel <> Some "true" /\
  exists opts,
    fst (Main.backupVolume sampleConplicity (Some plainVolume) w)
      = Returned (Some (New "cannot start")) /\
    since w (snd (Main.backupVolume sampleConplicity (Some plainVolume) w)) =
      [ CreateContainer opts;
        DockerptyStart (Some sampleContainer)
          {| docker.Binds := [docker.Mountpoint plainVolume +:+ ":/var/backups:ro"] |};
        RemoveContainer {| docker.ID_ := "4f2a9c"; docker.Force := true |} ].
Proof.
  cbv zeta.
  assert (Hname : utf8.RuneCountInString (docker.Name plainVolume) <> 64%Z)
    by (vm_compute; discriminate).
  assert (Hignore : docker.Labels plainVolume !! ignoreLabel <> Some "true")
    by (vm_compute; discriminate).
  split; [exact Hname|]. split; [exact Hignore|].
  exact (backupVolume_call_sequence sampleConplicity plainVolume
           (commandWorld [plainVolume] (Some sampleContainer, None)
              (Some (New "cannot start")))
           sampleContainer (Some (New "cannot start")) None Hname Hignore
           (fun _ => eq_refl) (fun _ _ _ => eq_refl) (fun _ _ => eq_refl)).
Defined.

(** ** What a run may do, whatever the outside answers *)

Lemma workers_app (o : Outside) (l1 l2 : list Call) :
  forall history live,
    workers o history live (l1 ++ l2)
    = match workers o history live l1 with
      | Some live' => workers o (history ++ l1) live' l2
      | None => None
      end.
Proof.
  induction l1 as [|c l1 IH]; intros history live; [now rewrite app_nil_r|].
  assert (Hnext : forall live0,
            workers o (history ++ [c]) live0 (l1 ++ l2)
            = match workers o (history ++ [c]) live0 l1 with
              | Some live' => workers o (history ++ c :: l1) live' l2
              | None => None
              end).
  { intros live0. rewrite IH, <- app_assoc. reflexivity. }
  destruct c; cbn [app workers]; try apply Hnext.
  - destruct live; [reflexivity|].
    destruct (o history (CreateContainer opts)) as [[[ct|] [e|]] | p]; apply Hnext.
  - destruct live as [id|]; [|reflexivity].
    destruct (String.eqb (docker.ID_ opts) id && docker.Force opts); [apply Hnext | reflexivity].
Qed.

(** Closes the goal on the workers of [backupVolume] with the answers met
    in its cases. *)
Ltac workers_cases :=
  cbn [workers app];
  repeat match goal with
         | E : outside _ _ _ = _ |- _ => rewrite E; clear E
         end;
  cbn [workers app docker.ID_ docker.Force]; rewrite ?String.eqb_refl; reflexivity.

(** The ways [backupVolume] can end and the calls it can make. *)
Lemma backupVolume_shape (c : Main.conplicity) (vol : option docker.Volume) (w : World)
  (out : outcome (option error)) (w' : World) :
  Main.backupVolume c vol w = (out, w') ->
  outside w' = outside w /\
  (forall code, out = Exited code -> code = 1%Z) /\
  out <> OutOfFuel /\
  exists l ll,
    calls w' = calls w ++ l /\
    forallb isLoopCall l = true /\
    inspected l = [] /\
    workers (outside w) (calls w) None l = Some None /\
    logs w' = logs w ++ ll.
Proof.
  assert (Hnone : forall o : outcome (option error), o <> OutOfFuel ->
            (forall code, o = Exited code -> code = 1%Z) ->
            forall ll, logs w' = logs w ++ ll -> calls w' = calls w ->
            outside w' = outside w ->
            outside w' = outside w /\
            (forall code, o = Exited code -> code = 1%Z) /\
            o <> OutOfFuel /\
            exists l ll,
              calls w' = calls w ++ l /\ forallb isLoopCall l = true /\
              inspected l = [] /\ workers (outside w) (calls w) None l = Some None /\
              logs w' = logs w ++ ll).
  { intros o Ho Hcode ll Hll Hcalls Hout. repeat (split; [assumption|]).
    exists [], ll. rewrite app_nil_r. repeat split; auto. }
  unfold Main.backupVolume. destruct vol as [vol|].
  2:{ intros [= <- <-]. apply (Hnone _) with (ll := []);
      [discriminate | discriminate | now rewrite app_nil_r | reflexivity | reflexivity]. }
  destruct (utf8.RuneCountInString (docker.Name vol) =? 64)%Z.
  { intros [= <- <-]. eapply (Hnone _);
      [discriminate | discriminate | reflexivity | reflexivity | reflexivity]. }
  destruct (String.eqb (Main.getVolumeLabel vol ".ignore") "true").
  { intros [= <- <-]. eapply (Hnone _);
      [discriminate | discriminate | reflexivity | reflexivity | reflexivity]. }
  clear Hnone.
  set (opts := Main.createOptions _ _ _).
  unfold bind, logf, call, Main.checkErr, defer, Main.removeCreated, bind, call, ret,
    osExit, panic, logf.
  cbn [outside calls logs logged record].
  answer_cases; intros [= <- <-];
    (split; [reflexivity|]);
    (split; [intros code0 Hc; cbn in Hc;
             first [discriminate Hc | injection Hc; congruence]|]);
    (split; [discriminate|]);
    do 2 eexists;
    (split; [cbn; rewrite <- ?app_assoc; reflexivity|]);
    (split; [reflexivity|]);
    (split; [reflexivity|]);
    (split; [workers_cases | cbn; rewrite <- ?app_assoc; reflexivity]).
Qed.

Lemma checkErr_soft (err : option error) (msg : string) (w : World) :
  exists w' ll, Main.checkErr err msg (-1) w = (Returned tt, w') /\
                outside w' = outside w /\ calls w' = calls w /\
                logs w' = logs w ++ ll.
Proof.
  destruct err as [e|].
  - do 2 eexists. cbn. repeat split; reflexivity.
  - exists w, []. rewrite app_nil_r. repeat split; reflexivity.
Qed.

(** The ways the loop can end and the calls it can make. *)
Lemma forVols_shape (c : Main.conplicity) (vols : list docker.Volume) :
  forall err w out w',
    Main.forVols c vols err w = (out, w') ->
    outside w' = outside w /\
    (forall code, out = Exited code -> code = 1%Z) /\
    out <> OutOfFuel /\
    exists l ll n,
      calls w' = calls w ++ l /\
      forallb isLoopCall l = true /\
      inspected l = map docker.Name (take n vols) /\
      workers (outside w) (calls w) None l = Some None /\
      ((exists e, out = Returned e) -> n = length vols) /\
      logs w' = logs w ++ ll.
Proof.
  induction vols as [|vol rest IH]; intros err w out w'.
  - intros [= <- <-]. split; [reflexivity|]. split; [discriminate|]. split; [discriminate|].
    exists [], [], 0%nat. rewrite !app_nil_r. repeat split; reflexivity.
  - cbn [Main.forVols]. unfold bind at 1, call at 1.
    destruct (outside w (calls w) (InspectVolume (docker.Name vol))) as [[voll ep] | p].
    2:{ intros [= <- <-]. split; [reflexivity|]. split; [discriminate|].
        split; [discriminate|].
        exists [InspectVolume (docker.Name vol)], [], 1%nat.
        rewrite app_nil_r. split; [reflexivity|]. split; [reflexivity|].
        split; [reflexivity|]. split; [reflexivity|]. split; [|reflexivity].
        intros [? [=]]. }
    unfold bind at 1.
    destruct (checkErr_soft err
                ("Failed to inspect volume " +:+ docker.Name vol +:+ ": %v")
                (record (InspectVolume (docker.Name vol)) w))
      as (w2 & ll2 & -> & Hout2 & Hcalls2 & Hlogs2).
    unfold bind at 1.
    destruct (Main.backupVolume c voll w2) as [o3 w3] eqn:Hbody.
    apply backupVolume_shape in Hbody
      as (Hout3 & Hcode3 & Hfuel3 & l3 & ll3 & Hcalls3 & Hloop3 & Hins3
          & Hwork3 & Hlogs3).
    rewrite Hout2, Hcalls2 in Hwork3. cbn [outside calls record] in Hwork3.
    assert (Hstop :
              (forall e, o3 <> Returned e) -> out = o3 -> w' = w3 ->
              outside w' = outside w /\
              (forall code, out = Exited code -> code = 1%Z) /\
              out <> OutOfFuel /\
              exists l ll n,
                calls w' = calls w ++ l /\ forallb isLoopCall l = true /\
                inspected l = map docker.Name (take n (vol :: rest)) /\
                workers (outside w) (calls w) None l = Some None /\
                ((exists e, out = Returned e) -> n = length (vol :: rest)) /\
                logs w' = logs w ++ ll).
    { intros Hnot -> ->.
      split; [now rewrite Hout3, Hout2|]. split; [exact Hcode3|]. split; [exact Hfuel3|].
      exists (InspectVolume (docker.Name vol) :: l3), (ll2 ++ ll3), 1%nat.
      split; [rewrite Hcalls3, Hcalls2; cbn; now rewrite <- app_assoc|].
      split; [exact Hloop3|].
      split; [cbn; unfold inspected in Hins3 |- *; cbn; now rewrite Hins3|].
      split; [exact Hwork3|].
      split; [|rewrite Hlogs3, Hlogs2; cbn; now rewrite <- app_assoc].
      intros [e He]. now destruct (Hnot e). }
    destruct o3 as [e | code | p | ].
    + clear Hstop. unfold bind at 1.
      destruct (checkErr_soft e
                  ("Failed to process volume " +:+ docker.Name vol +:+ ": %v") w3)
        as (w4 & ll4 & -> & Hout4 & Hcalls4 & Hlogs4).
      intros Hrest. apply IH in Hrest
        as (Hout & Hcode & Hfuel & l & ll & n & Hcalls & Hloop & Hins
            & Hwork & Hlen & Hlogs).
      rewrite Hout4, Hout3, Hout2, Hcalls4, Hcalls3, Hcalls2 in Hwork.
      cbn [outside calls record] in Hwork.
      split; [now rewrite Hout, Hout4, Hout3, Hout2|].
      split; [exact Hcode|]. split; [exact Hfuel|].
      exists (InspectVolume (docker.Name vol) :: l3 ++ l),
        (ll2 ++ ll3 ++ ll4 ++ ll), (S n).
      split; [rewrite Hcalls, Hcalls4, Hcalls3, Hcalls2; cbn; now rewrite <- !app_assoc|].
      split; [cbn; rewrite forallb_app, Hloop3, Hloop; reflexivity|].
      split.
      { change (InspectVolume (docker.Name vol) :: l3 ++ l)
          with ([InspectVolume (docker.Name vol)] ++ l3 ++ l).
        rewrite !inspected_app, Hins3, Hins. reflexivity. }
      split.
      { cbn [workers]. rewrite workers_app, Hwork3. exact Hwork. }
      split; [intros Hret; now rewrite (Hlen Hret)|].
      rewrite Hlogs, Hlogs4, Hlogs3, Hlogs2. cbn. now rewrite <- !app_assoc.
    + intros [= <- <-]. apply Hstop; auto; discriminate.
    + intros [= <- <-]. apply Hstop; auto; discriminate.
    + now destruct Hfuel3.
Qed.

(** Closes the side conditions of the case analysis of a run. *)
Ltac close_side :=
  first [ discriminate
        | (intros ? [= <-]; reflexivity)
        | reflexivity
        | (cbn; rewrite <- ?app_assoc; reflexivity)
        | match goal with H : forall pre, forallb _ pre = true -> _ |- _ =>
            now apply H end
        | assumption ].

(** The ways a run can end and the calls it can make. *)
Lemma main_shape (w : World) (out : outcome unit) (w' : World) :
  Main.main w = (out, w') ->
  (forall code, out = Exited code -> code = 1%Z) /\
  out <> OutOfFuel /\
  exists pre l,
    calls w' = (calls w ++ pre) ++ l /\
    forallb isPrologueCall pre = true /\
    forallb isLoopCall l = true /\
    workers (outside w) (calls w ++ pre) None l = Some None /\
    pullJustified w pre.
Proof.
  unfold Main.main, Main.getEnv, Main.pullImage.
  unfold bind, logf, call, Main.checkErr, ret, osExit.
  cbn [outside calls logs logged record].
  assert (Hearly : forall (o : outcome unit) (pre : list Call) (w1 : World),
            o <> OutOfFuel ->
            (forall code, o = Exited code -> code = 1%Z) ->
            forallb isPrologueCall pre = true ->
            pullJustified w pre ->
            calls w1 = calls w ++ pre ->
            (o, w1) = (out, w') ->
            (forall code, out = Exited code -> code = 1%Z) /\
            out <> OutOfFuel /\
            exists pre l,
              calls w' = (calls w ++ pre) ++ l /\
              forallb isPrologueCall pre = true /\
              forallb isLoopCall l = true /\
              workers (outside w) (calls w ++ pre) None l = Some None /\
              pullJustified w pre).
  { intros o pre w1 Hfuel Hcode Hpre Hpull Hcalls [= <- <-].
    split; [exact Hcode|]. split; [exact Hfuel|].
    exists pre, []. rewrite app_nil_r. repeat split; auto. }
  assert (Hloop : forall c vols (pre : list Call) (w1 : World),
            forallb isPrologueCall pre = true ->
            pullJustified w pre ->
            outside w1 = outside w ->
            calls w1 = calls w ++ pre ->
            (let (o, w0) := Main.forVols c vols None w1 in
             match o with
             | Returned _ =>
                 (Returned tt,
                  logged {| level := InfoLevel; format := "End backup..."; args := [] |} w0)
             | Exited code => (Exited code, w0)
             | Panicked p => (Panicked p, w0)
             | OutOfFuel => (OutOfFuel, w0)
             end) = (out, w') ->
            (forall code, out = Exited code -> code = 1%Z) /\
            out <> OutOfFuel /\
            exists pre l,
              calls w' = (calls w ++ pre) ++ l /\
              forallb isPrologueCall pre = true /\
              forallb isLoopCall l = true /\
              workers (outside w) (calls w ++ pre) None l = Some None /\
              pullJustified w pre).
  { intros c vols pre w1 Hpre Hpull Hout1 Hcalls1.
    destruct (Main.forVols c vols None w1) as [o w0] eqn:Hrun.
    apply forVols_shape in Hrun
      as (Hout & Hcode & Hfuel & l & ll0 & n & Hcalls & Hl & _ & Hwork & _ & _).
    rewrite Hcalls1 in Hcalls. rewrite Hout1, Hcalls1 in Hwork.
    destruct o as [e | code | p | ]; intros [= <- <-].
    - split; [discriminate|]. split; [discriminate|].
      exists pre, l. repeat split; auto.
    - split; [intros code0 [= <-]; now apply (Hcode code)|]. split; [discriminate|].
      exists pre, l. repeat split; auto.
    - split; [discriminate|]. split; [discriminate|].
      exists pre, l. repeat split; auto.
    - now destruct Hfuel. }
  assert (Hnopull : forall pre, forallb (fun c => negb (match c with PullImage _ => true
                                                                | _ => false end)) pre = true ->
            pullJustified w pre).
  { intros pre Hall repo Hin. rewrite forallb_forall in Hall.
    specialize (Hall _ Hin). discriminate. }
  assert (Hcode1 : forall code, @Exited unit 1 = Exited code -> code = 1%Z)
    by (intros code [= <-]; reflexivity).
  destruct (outside w (calls w) EnvParse) as [envr | p] eqn:Henv.
  2:{ apply (Hearly _ [EnvParse]); close_side. }
  cbn. destruct (outside w _ OsHostname) as [[host [e|]] | p]; cbn.
  1,3: apply (Hearly _ [EnvParse; OsHostname]); close_side.
  destruct (outside w _ (NewClient _)) as [[e|] | p]; cbn.
  1,3: apply (Hearly _ [EnvParse; OsHostname; NewClient "unix:///var/run/docker.sock"]);
         close_side.
  destruct (outside w _ ListVolumes) as [[vols [e|]] | p]; cbn.
  1,3: apply (Hearly _ [EnvParse; OsHostname; NewClient "unix:///var/run/docker.sock";
                        ListVolumes]); close_side.
  destruct (outside w _ (InspectImage _)) as [[e|] | p] eqn:Himage; cbn.
  - assert (Hpulled : pullJustified w
              [EnvParse; OsHostname; NewClient "unix:///var/run/docker.sock";
               ListVolumes; InspectImage (settings.Image envr);
               PullImage (settings.Image envr)]).
    { intros repo Hin.
      exists envr, [EnvParse; OsHostname; NewClient "unix:///var/run/docker.sock"; ListVolumes], e.
      split; [exact Henv|].
      split; [cbn in Hin; intuition congruence|].
      split; [reflexivity|].
      split; [rewrite <- !app_assoc in Himage; exact Himage|].
      intros repo' Hin'. cbn in Hin'. intuition discriminate. }
    destruct (outside w _ (PullImage _)) as [[e2|] | p]; cbn.
    + apply (Hearly _ [EnvParse; OsHostname; NewClient "unix:///var/run/docker.sock";
                       ListVolumes; InspectImage (settings.Image envr);
                       PullImage (settings.Image envr)]); close_side.
    + apply (Hloop _ vols [EnvParse; OsHostname; NewClient "unix:///var/run/docker.sock";
                           ListVolumes; InspectImage (settings.Image envr);
                           PullImage (settings.Image envr)]); close_side.
    + apply (Hearly _ [EnvParse; OsHostname; NewClient "unix:///var/run/docker.sock";
                       ListVolumes; InspectImage (settings.Image envr);
                       PullImage (settings.Image envr)]); close_side.
  - apply (Hloop _ vols [EnvParse; OsHostname; NewClient "unix:///var/run/docker.sock";
                         ListVolumes; InspectImage (settings.Image envr)]); close_side.
  - apply (Hearly _ [EnvParse; OsHostname; NewClient "unix:///var/run/docker.sock";
                     ListVolumes; InspectImage (settings.Image envr)]); close_side.
Qed.

Lemma workers_prologue (o : Outside) (pre : list Call) :
  forallb isPrologueCall pre = true ->
  forall history live, workers o history live pre = Some live.
Proof.
  induction pre as [|c pre IH]; intros Hpre history live; [reflexivity|].
  cbn in Hpre. apply andb_prop in Hpre as [Hc Hpre].
  destruct c; try discriminate; cbn; now apply IH.
Qed.

(** X12.  Whatever the outside answers, a run that ends by the exit of
    the process exits with the code 1. *)
Theorem main_exit_code (w : World) (code : Z) :
  fst (Main.main w) = Exited code -> code = 1%Z.
Proof.
  intros Hexit.
  destruct (main_shape w _ _ (surjective_pairing (Main.main w))) as (Hcode & _).
  now apply Hcode.
Qed.

Lemma main_exit_code_witness :
  let w := commandWorld [plainVolume; weeklyVolume]
             (None, Some (New "no space left on device")) None in
  fst (Main.main w) = Exited 1 /\ 1%Z = 1%Z.
Proof.
  cbv zeta.
  assert (Hexit : fst (Main.main (commandWorld [plainVolume; weeklyVolume]
                                    (None, Some (New "no space left on device")) None))
                  = Exited 1) by (vm_compute; reflexivity).
  split; [exact Hexit|].
  exact (main_exit_code _ 1%Z Hexit).
Defined.

(** X13.  Whatever the outside answers, a run calls the forced removal
    of every worker a creation gave it before it creates another one and
    before it ends, be it by a return, a panic or the exit of the process;
    it asks for no other removal.  What the removal answers is not looked
    at: a removal that fails leaves the worker where it is and the run
    goes on. *)
Theorem removal_called_before_next_creation (w : World) :
  workers (outside w) (calls w) None (since w (snd (Main.main w))) = Some None.
Proof.
  destruct (main_shape w _ _ (surjective_pairing (Main.main w)))
    as (_ & _ & pre & l & Hcalls & Hpre & _ & Hwork & _).
  rewrite <- app_assoc in Hcalls. rewrite (since_app _ _ _ Hcalls).
  rewrite workers_app, (workers_prologue _ pre Hpre). exact Hwork.
Qed.

(** A run over two volumes whose removals fail: the removal of the first
    worker is called, with its identifier and by force, before the second
    worker is created, and its error is dropped. *)
Example removal_that_fails_is_still_called :
  let w := {| outside := fun history c =>
                match c return answer (result c) with
                | EnvParse => Ans sampleEnvironment
                | OsHostname => Ans ("host", None)
                | NewClient _ => Ans None
                | ListVolumes => Ans ([plainVolume; weeklyVolume], None)
                | InspectImage _ => Ans None
                | InspectVolume name =>
                    Ans (find (fun v => String.eqb (docker.Name v) name)
                           [plainVolume; weeklyVolume], None)
                | CreateContainer _ => Ans (Some sampleContainer, None)
                | DockerptyStart _ _ => Ans None
                | RemoveContainer _ => Ans (Some (New "removal in progress"))
                | _ => Panic "unexpected call"
                end;
              calls := []; logs := [] |} in
  fst (Main.main w) = Returned tt /\
  omap (fun c => match c with
                 | CreateContainer _ => Some "create"
                 | RemoveContainer opts =>
                     Some ("remove " +:+ docker.ID_ opts +:+
                           (if docker.Force opts then " by force" else EmptyString))
                 | _ => None
                 end) (since w (snd (Main.main w)))
  = [ "create"; "remove " +:+ docker.ID sampleContainer +:+ " by force";
      "create"; "remove " +:+ docker.ID sampleContainer +:+ " by force" ].
Proof. vm_compute. split; reflexivity. Qed.

(** X14.  Whatever the outside answers, the run pulls an image only as
    the call that follows its inspection of the image the environment
    names, when that inspection gave an error, and the image it pulls is
    that same image; it pulls at most once.  An image whose inspection
    gives no error is never pulled. *)
Theorem image_pulled_only_if_absent (w : World) (repo : string) :
  In (PullImage repo) (since w (snd (Main.main w))) ->
  exists envr before after e,
    outside w (calls w) EnvParse = Ans envr /\
    repo = settings.Image envr /\
    since w (snd (Main.main w))
    = before ++ InspectImage (settings.Image envr) :: PullImage (settings.Image envr) :: after /\
    outside w (calls w ++ before) (InspectImage (settings.Image envr)) = Ans (Some e) /\
    (forall repo', ~ In (PullImage repo') before) /\
    (forall repo', ~ In (PullImage repo') after).
Proof.
  destruct (main_shape w _ _ (surjective_pairing (Main.main w)))
    as (_ & _ & pre & l & Hcalls & _ & Hl & _ & Hpull).
  rewrite <- app_assoc in Hcalls. rewrite (since_app _ _ _ Hcalls).
  assert (Hloop : forall repo', ~ In (PullImage repo') l).
  { intros repo' Hin. rewrite forallb_forall in Hl. specialize (Hl _ Hin). discriminate. }
  intros Hin. apply in_app_or in Hin as [Hin | Hin]; [|now destruct (Hloop repo)].
  destruct (Hpull repo Hin) as (envr & before & e & Henv & -> & -> & Himage & Hbefore).
  exists envr, before, l, e.
  split; [exact Henv|]. split; [reflexivity|].
  split; [now rewrite <- app_assoc|].
  split; [exact Himage|]. split; [exact Hbefore | exact Hloop].
Qed.

Lemma image_pulled_only_if_absent_witness :
  let w := {| outside := fun history c =>
                match c return answer (result c) with
                | EnvParse => Ans sampleEnvironment
                | OsHostname => Ans ("host", None)
                | NewClient _ => Ans None
                | ListVolumes => Ans ([], None)
                | InspectImage _ => Ans (Some (New "no such image"))
                | PullImage _ => Ans None
                | _ => Panic "unexpected call"
                end;
              calls := []; logs := [] |} in
  let image := settings.Image sampleEnvironment in
  In (PullImage image) (since w (snd (Main.main w))) /\
  exists envr before after e,
    outside w (calls w) EnvParse = Ans envr /\
    image = settings.Image envr /\
    since w (snd (Main.main w))
    = before ++ InspectImage (settings.Image envr) :: PullImage (settings.Image envr) :: after /\
    outside w (calls w ++ before) (InspectImage (settings.Image envr)) = Ans (Some e) /\
    (forall repo', ~ In (PullImage repo') before) /\
    (forall repo', ~ In (PullImage repo') after).
Proof.
  cbv zeta.
  match goal with |- In ?c (since ?w _) /\ _ =>
    assert (Hin : In c (since w (snd (Main.main w))))
      by (vm_compute; auto 10);
    split; [exact Hin | exact (image_pulled_only_if_absent w _ Hin)]
  end.
Defined.

(** X15.  Whatever the outside answers, the loop inspects the volumes in
    the order of the list, each at most once, up to the volume that ends
    the run; when it returns it has inspected all of them. *)
Theorem forVols_in_order (c : Main.conplicity) (vols : list docker.Volume)
  (err : option error) (w : World) :
  exists n,
    inspected (since w (snd (Main.forVols c vols err w))) = map docker.Name (take n vols) /\
    ((exists e, fst (Main.forVols c vols err w) = Returned e) -> n = length vols).
Proof.
  destruct (forVols_shape c vols err w _ _ (surjective_pairing _))
    as (_ & _ & _ & l & ll & n & Hcalls & _ & Hins & _ & Hret & _).
  exists n. rewrite (since_app _ _ _ Hcalls). split; [exact Hins | exact Hret].
Qed.

(** X16.  When the inspection of a volume gives no volume, the loop
    panics on the nil volume at once: nothing is written to the log, the
    error of the inspection is lost, and the volumes that follow are not
    looked at. *)
Theorem forVols_nil_volume (c : Main.conplicity) (vol : docker.Volume)
  (rest : list docker.Volume) (w : World) (ep : option error) :
  outside w (calls w) (InspectVolume (docker.Name vol)) = Ans (None, ep) ->
  Main.forVols c (vol :: rest) None w
  = (Panicked nilDereference, record (InspectVolume (docker.Name vol)) w).
Proof.
  intros Hinspect. cbn [Main.forVols]. unfold bind, call. rewrite Hinspect. reflexivity.
Qed.

Lemma forVols_nil_volume_witness :
  let w := vanishedWorld [plainVolume; weeklyVolume] in
  outside w (calls w) (InspectVolume (docker.Name plainVolume))
    = Ans (None, Some (New "no such volume")) /\
  Main.forVols sampleConplicity [plainVolume; weeklyVolume] None w
  = (Panicked nilDereference, record (InspectVolume (docker.Name plainVolume)) w).
Proof.
  cbv zeta. split; [reflexivity|].
  exact (forVols_nil_volume sampleConplicity plainVolume [weeklyVolume]
           (vanishedWorld [plainVolume; weeklyVolume])
           (Some (New "no such volume")) eq_refl).
Defined.

(** X17.  The loop checks the variable [err] after an inspection whose
    own error it has dropped: when that variable still holds the error of
    the volume before, the next volume is reported as not inspected, with
    that error, although its inspection gave a volume. *)
Theorem forVols_reports_stale_error (c : Main.conplicity) (vol : docker.Volume)
  (rest : list docker.Volume) (w : World) (e : error)
  (voll : docker.Volume) (ep : option error) :
  outside w (calls w) (InspectVolume (docker.Name vol)) = Ans (Some voll, ep) ->
  exists ll,
    logs (snd (Main.forVols c (vol :: rest) (Some e) w))
    = logs w ++ inspectFailure vol e :: ll.
Proof.
  intros Hinspect.
  destruct (Main.forVols c (vol :: rest) (Some e) w) as [out w'] eqn:Hrun.
  revert Hrun. cbn [Main.forVols]. unfold bind at 1, call at 1. rewrite Hinspect.
  unfold bind at 1. unfold Main.checkErr at 1. unfold bind at 1, logf at 1.
  cbn [Z.eqb Pos.eqb ret]. unfold bind at 1.
  set (w2 := logged _ _).
  destruct (Main.backupVolume c (Some voll) w2) as [o3 w3] eqn:Hbody.
  apply backupVolume_shape in Hbody
    as (_ & _ & _ & l3 & ll3 & _ & _ & _ & _ & Hlogs3).
  assert (Hlogs2 : logs w2 = logs w ++ [inspectFailure vol e]) by reflexivity.
  destruct o3 as [e3 | code | p | ].
  - unfold bind at 1.
    destruct (checkErr_soft e3
                ("Failed to process volume " +:+ docker.Name vol +:+ ": %v") w3)
      as (w4 & ll4 & -> & _ & _ & Hlogs4).
    intros Hrest.
    destruct (forVols_shape c rest e3 w4 _ _ Hrest)
      as (_ & _ & _ & l & ll & n & _ & _ & _ & _ & _ & Hlogs).
    exists (ll3 ++ ll4 ++ ll). cbn [snd].
    rewrite Hlogs, Hlogs4, Hlogs3, Hlogs2, <- !app_assoc. reflexivity.
  - intros [= <- <-]. exists ll3. cbn [snd].
    rewrite Hlogs3, Hlogs2, <- !app_assoc. reflexivity.
  - intros [= <- <-]. exists ll3. cbn [snd].
    rewrite Hlogs3, Hlogs2, <- !app_assoc. reflexivity.
  - intros [= <- <-]. exists ll3. cbn [snd].
    rewrite Hlogs3, Hlogs2, <- !app_assoc. reflexivity.
Qed.

Lemma forVols_reports_stale_error_witness :
  let w := commandWorld [weeklyVolume] (Some sampleContainer, None) None in
  outside w (calls w) (InspectVolume (docker.Name weeklyVolume))
    = Ans (Some weeklyVolume, None) /\
  exists ll,
    logs (snd (Main.forVols sampleConplicity [weeklyVolume]
                 (Some (New "cannot start")) w))
    = logs w ++ inspectFailure weeklyVolume (New "cannot start") :: ll.
Proof.
  cbv zeta. split; [reflexivity|].
  exact (forVols_reports_stale_error sampleConplicity weeklyVolume []
           (commandWorld [weeklyVolume] (Some sampleContainer, None) None)
           (New "cannot start") weeklyVolume None eq_refl).
Defined.

(** In a run over two volumes, the failed start of the first one is
    reported a second time as a failed inspection of the second one. *)
Example stale_error_in_a_run :
  In (inspectFailure weeklyVolume (New "cannot start"))
     (logs (snd (Main.main (commandWorld [plainVolume; weeklyVolume]
                              (Some sampleContainer, None)
                              (Some (New "cannot start")))))).
Proof. vm_compute. auto 20. Qed.

(** ** The Restic engine: launches and what is made of their results *)

Lemma answered_app (o : Outside) (l1 l2 : list {c : Call & result c}) :
  forall history,
    answered o history (l1 ++ l2) ->
    answered o history l1 /\ answered o (history ++ map projT1 l1) l2.
Proof.
  induction l1 as [|[c a] l1 IH]; intros history Hl; cbn in *.
  - rewrite app_nil_r. now split.
  - destruct Hl as [Hc Hl]. apply IH in Hl as [Hl1 Hl2].
    rewrite <- app_assoc in Hl2. now repeat split.
Qed.

Lemma inspections_calls (id : string) (polls : list docker.ContainerJSON)
  (cont : docker.ContainerJSON) :
  map projT1 (inspections id polls cont) = repeat (ContainerInspect id) (S (length polls)).
Proof.
  unfold inspections. rewrite map_app, map_map. cbn [map projT1 reply].
  induction polls as [|p polls IH]; [reflexivity|].
  cbn [map app length]. rewrite IH. reflexivity.
Qed.

(** The wait inspects the worker until it reads [exited] and gives the
    exit code read with it. *)
Lemma waitExited_exact (id : string) (cont : docker.ContainerJSON)
  (polls : list docker.ContainerJSON) :
  forall fuel w,
    (length polls < fuel)%nat ->
    answered (outside w) (calls w) (inspections id polls cont) ->
    forallb running polls = true ->
    docker.Status cont = "exited" ->
    engines.waitExited fuel id w
    = (Returned (inr (docker.ExitCode cont)),
       {| outside := outside w;
          calls := calls w ++ repeat (ContainerInspect id) (S (length polls));
          logs := logs w |}).
Proof.
  induction polls as [|p polls IH]; intros fuel w Hfuel Hans Hrun Hexit;
    (destruct fuel as [|fuel]; [cbn in Hfuel; lia|]);
    cbn [engines.waitExited]; unfold bind, call;
    cbn in Hans; destruct Hans as [Hc Hans]; rewrite Hc.
  - rewrite Hexit. reflexivity.
  - cbn in Hrun. apply andb_prop in Hrun as [Hp Hrun].
    unfold running in Hp. apply negb_true_iff in Hp. rewrite Hp.
    rewrite (IH fuel (record (ContainerInspect id) w));
      [ | cbn in Hfuel; lia | exact Hans | exact Hrun | exact Hexit].
    cbn [outside calls logs record length repeat]. rewrite <- app_assoc. reflexivity.
Qed.

(** X18.  A launch removes no worker but the one it has created, and
    that one at most once: a removal of [id] among the calls of a launch
    means that the creation gave the worker [id], and it is the only
    removal of it, whatever the outside answers. *)
Theorem launchRestic_removes_only_its_worker (fuel : nat) (r : engines.ResticEngine)
  (cmd binds : list string) (w : World) (id : string) :
  (0 < removals id (since w (snd (engines.launchRestic fuel r cmd binds w))))%nat ->
  exists ct,
    outside w (calls w ++ [UtilPullImage (engines.ResticImage (engines.Handler r))])
      (engines.createCall r cmd binds) = Ans (ct, None) /\
    docker.ID ct = id /\
    removals id (since w (snd (engines.launchRestic fuel r cmd binds w))) = 1%nat.
Proof.
  destruct (engines.launchRestic fuel r cmd binds w) as [out w'] eqn:Hrun. cbn [snd].
  revert Hrun. unfold engines.launchRestic.
  unfold bind at 1, call at 1.
  destruct (outside w (calls w) _) as [[e0|] | v].
  1, 3: intros [= <- <-];
        erewrite since_app by (cbn [calls record logged]; rewrite <- ?app_assoc; reflexivity);
        unfold removals; cbn; lia.
  unfold bind at 1, logf at 1. unfold bind at 1, call at 1.
  cbn [outside calls logs logged record].
  destruct (outside w _ (engines.createCall r cmd binds)) as [[ct [e0|]] | v].
  1, 3: intros [= <- <-];
        erewrite since_app by (cbn [calls record logged]; rewrite <- ?app_assoc; reflexivity);
        unfold removals; cbn; lia.
  unfold defer. set (w0 := record _ _).
  destruct (engines.runWorker fuel cmd (docker.ID ct) w0) as [o1 w1] eqn:Hbody.
  apply runWorker_world in Hbody as (Hnoexit & Hout & l & Hcalls & Hrem).
  assert (Hbefore : calls w1
            = calls w ++ [UtilPullImage (engines.ResticImage (engines.Handler r));
                          engines.createCall r cmd binds] ++ l).
  { rewrite Hcalls. subst w0. cbn [calls record logged]. now rewrite <- !app_assoc. }
  assert (Hquiet : removals id (since w w1) = 0%nat).
  { rewrite (since_app _ _ _ Hbefore), removals_app, Hrem. reflexivity. }
  assert (Hafter : forall c, since w (record c w1) = since w w1 ++ [c]).
  { intros c. rewrite (since_app _ _ _ Hbefore).
    apply since_app. cbn [calls record]. rewrite Hbefore, <- !app_assoc. reflexivity. }
  assert (Hremoved : forall c, c = UtilRemoveContainer (docker.ID ct) ->
            (0 < removals id (since w (record c w1)))%nat ->
            exists ct0,
              Ans (ct, @None error) = Ans (ct0, None) /\ docker.ID ct0 = id /\
              removals id (since w (record c w1)) = 1%nat).
  { intros c -> Hpos. rewrite Hafter, removals_app, Hquiet in *.
    unfold removals in *. cbn in *.
    destruct (String.eqb (docker.ID ct) id) eqn:Hid; [|cbn in Hpos; lia].
    apply String.eqb_eq in Hid. exists ct. now repeat split. }
  destruct o1 as [a | code | v | ].
  - unfold bind, call.
    destruct (outside w1 (calls w1) (UtilRemoveContainer (docker.ID ct)));
      intros [= <- <-]; now apply Hremoved.
  - now destruct (Hnoexit code).
  - unfold bind, call.
    destruct (outside w1 (calls w1) (UtilRemoveContainer (docker.ID ct)));
      intros [= <- <-]; now apply Hremoved.
  - intros [= <- <-]. rewrite Hquiet. lia.
Qed.

Lemma launchRestic_removes_only_its_worker_witness :
  let w := resticWorld 2 0 "snapshot saved" in
  let launch := engines.launchRestic 5 sampleEngine ["-r"; "repo"; "check"] ["data:/data:ro"] w in
  (0 < removals "worker" (since w (snd launch)))%nat /\
  exists ct,
    outside w (calls w ++ [UtilPullImage (engines.ResticImage (engines.Handler sampleEngine))])
      (engines.createCall sampleEngine ["-r"; "repo"; "check"] ["data:/data:ro"])
      = Ans (ct, None) /\
    docker.ID ct = "worker" /\
    removals "worker" (since w (snd launch)) = 1%nat.
Proof.
  cbv zeta.
  assert (Hpos : (0 < removals "worker"
                        (since (resticWorld 2 0 "snapshot saved")
                           (snd (engines.launchRestic 5 sampleEngine ["-r"; "repo"; "check"]
                                   ["data:/data:ro"] (resticWorld 2 0 "snapshot saved")))))%nat)
    by (vm_compute; lia).
  split; [exact Hpos|].
  exact (launchRestic_removes_only_its_worker 5 sampleEngine ["-r"; "repo"; "check"]
           ["data:/data:ro"] (resticWorld 2 0 "snapshot saved") "worker" Hpos).
Defined.

Ltac flatten_calls :=
  repeat (progress (rewrite <- ?app_assoc in *; cbn [app] in * )).

(** X19.  A launch without failure: the image is there, the worker is
    created and started, read as running some times and then as exited,
    and its logs are read to the end.  With fuel for the inspections the
    launch returns the exit code of the first inspection that reads
    [exited], the whole of the logs and no error; it has made the calls of
    the script and no other, the removal of the worker last; what the
    closing of the logs and the removal give is dropped. *)
Theorem launchRestic_success (fuel : nat) (r : engines.ResticEngine)
  (cmd binds : list string) (w : World) (ct : docker.Container)
  (polls : list docker.ContainerJSON) (cont : docker.ContainerJSON)
  (content : string) (eclose erm : option error) :
  answered (outside w) (calls w)
    (launchScript r cmd binds ct polls cont content eclose erm) ->
  forallb running polls = true ->
  docker.Status cont = "exited" ->
  (length polls < fuel)%nat ->
  engines.launchRestic fuel r cmd binds w
  = (Returned (docker.ExitCode cont, content, None),
     {| outside := outside w;
        calls := calls w ++ launchPrefix r cmd binds (docker.ID ct)
                 ++ repeat (ContainerInspect (docker.ID ct)) (S (length polls))
                 ++ launchSuffix (docker.ID ct);
        logs := logs w ++ launchLines r cmd binds content |}).
Proof.
  intros Hans Hrun Hexit Hfuel.
  unfold launchScript in Hans.
  cbn [app answered reply] in Hans. destruct Hans as (Hpull & Hcreate & Hstart & Hans).
  apply answered_app in Hans as [Hpolls Hans].
  rewrite inspections_calls in Hans.
  cbn [answered reply] in Hans. destruct Hans as (Hlogs & Hread & Hclose & Hremove & _).
  unfold engines.launchRestic.
  unfold bind at 1, call at 1. rewrite Hpull.
  unfold bind at 1, logf at 1. unfold bind at 1, call at 1.
  cbn [outside calls logs logged record]. rewrite Hcreate.
  unfold defer, engines.runWorker.
  unfold bind at 1, logf at 1. unfold bind at 1, call at 1.
  cbn [outside calls logs logged record]. rewrite Hstart.
  unfold bind at 1.
  rewrite (waitExited_exact (docker.ID ct) cont polls fuel _ Hfuel);
    [ | exact Hpolls | exact Hrun | exact Hexit].
  unfold bind at 1, call at 1. cbn [outside calls logs logged record].
  flatten_calls.
  rewrite Hlogs.
  unfold defer, engines.readLogs. unfold bind at 1, call at 1.
  cbn [outside calls logs logged record].
  flatten_calls.
  rewrite Hread.
  unfold bind at 1, logf at 1, ret at 1. unfold bind at 1, call at 1.
  cbn [outside calls logs logged record].
  flatten_calls.
  rewrite Hclose.
  unfold ret at 1. unfold bind at 1, call at 1.
  cbn [outside calls logs logged record].
  flatten_calls.
  rewrite Hremove. unfold ret.
  unfold launchPrefix, launchSuffix, launchLines, record, logged.
  cbn [outside calls logs]. flatten_calls. reflexivity.
Qed.

Lemma launchRestic_success_witness :
  let w := resticWorld 2 3 "snapshot saved" in
  let ct := {| docker.ID := "worker" |} in
  let cmd := ["-r"; "repo"; "backup"; "/data/"] in
  let binds := ["data:/data:ro"] in
  let polls := [ {| docker.Status := "running"; docker.ExitCode := 0 |};
                 {| docker.Status := "running"; docker.ExitCode := 0 |} ] in
  answered (outside w) (calls w)
    (launchScript sampleEngine cmd binds ct polls (exitedWith 3) "snapshot saved" None None) /\
  forallb running polls = true /\
  docker.Status (exitedWith 3) = "exited" /\
  (length polls < 5)%nat /\
  engines.launchRestic 5 sampleEngine cmd binds w
  = (Returned (3%Z, "snapshot saved", None),
     {| outside := outside w;
        calls := calls w ++ launchPrefix sampleEngine cmd binds "worker"
                 ++ repeat (ContainerInspect "worker") 3
                 ++ launchSuffix "worker";
        logs := logs w ++ launchLines sampleEngine cmd binds "snapshot saved" |}).
Proof.
  cbv zeta.
  assert (Hans : answered (outside (resticWorld 2 3 "snapshot saved"))
                   (calls (resticWorld 2 3 "snapshot saved"))
                   (launchScript sampleEngine ["-r"; "repo"; "backup"; "/data/"]
                      ["data:/data:ro"] {| docker.ID := "worker" |}
                      [ {| docker.Status := "running"; docker.ExitCode := 0 |};
                        {| docker.Status := "running"; docker.ExitCode := 0 |} ]
                      (exitedWith 3) "snapshot saved" None None))
    by (vm_compute; repeat split).
  split; [exact Hans|]. split; [reflexivity|]. split; [reflexivity|].
  split; [cbn; lia|].
  exact (launchRestic_success 5 sampleEngine ["-r"; "repo"; "backup"; "/data/"]
           ["data:/data:ro"] (resticWorld 2 3 "snapshot saved") {| docker.ID := "worker" |}
           [ {| docker.Status := "running"; docker.ExitCode := 0 |};
             {| docker.Status := "running"; docker.ExitCode := 0 |} ]
           (exitedWith 3) "snapshot saved" None None
           Hans eq_refl eq_refl ltac:(cbn; lia)).
Defined.

(** X20.  An error of the launch is always reported by [init]: a launch
    that returns an error returns no output with it, so the words
    [already initialized] cannot hide it. *)
Theorem init_reports_launch_error (fuel : nat) (r : engines.ResticEngine) (w : World)
  (state : Z) (stdout : string) (e : error) (w' : World) :
  engines.launchRestic fuel r
    ["-r"; engines.Target (engines.Volume_ r); "init"]
    [engines.Mount (engines.Volume_ r)] w
  = (Returned (state, stdout, Some e), w') ->
  engines.init fuel r w
  = (Returned (Some (Errorf "failed to launch Restic to initialize the repository: %v"
                       [Error e])), w').
Proof.
  intros Hlaunch.
  pose proof (launchRestic_error_no_output _ _ _ _ _ _ _ _ _ Hlaunch) as ->.
  unfold engines.init, bind. rewrite Hlaunch. reflexivity.
Qed.

Lemma init_reports_launch_error_witness :
  engines.launchRestic 3 sampleEngine
    ["-r"; engines.Target (engines.Volume_ sampleEngine); "init"]
    [engines.Mount (engines.Volume_ sampleEngine)] unpulledWorld
  = (Returned (0%Z, EmptyString,
               Some (Errorf "failed to pull image: %v" [Error (New "registry unreachable")])),
     record (UtilPullImage "restic/restic:latest") unpulledWorld) /\
  engines.init 3 sampleEngine unpulledWorld
  = (Returned (Some (Errorf "failed to launch Restic to initialize the repository: %v"
                       [Error (Errorf "failed to pull image: %v"
                                 [Error (New "registry unreachable")])])),
     record (UtilPullImage "restic/restic:latest") unpulledWorld).
Proof.
  split; [reflexivity|].
  exact (init_reports_launch_error 3 sampleEngine unpulledWorld 0%Z EmptyString
           (Errorf "failed to pull image: %v" [Error (New "registry unreachable")])
           (record (UtilPullImage "restic/restic:latest") unpulledWorld) eq_refl).
Defined.

(** X21.  [init] returns no error in two cases only: the output of the
    launch holds the words [already initialized], or the launch returned
    no error and the exit code 0. *)
Theorem init_nil_iff (fuel : nat) (r : engines.ResticEngine) (w w' : World) :
  engines.init fuel r w = (Returned None, w') <->
  exists state stdout err,
    engines.launchRestic fuel r
      ["-r"; engines.Target (engines.Volume_ r); "init"]
      [engines.Mount (engines.Volume_ r)] w
    = (Returned (state, stdout, err), w') /\
    (Contains stdout "already initialized" = true \/ (err = None /\ state = 0%Z)).
Proof.
  unfold engines.init, bind.
  destruct (engines.launchRestic fuel r _ _ w) as [[[[state stdout] err] | code | v | ] w1].
  2-4: split; [discriminate | intros (? & ? & ? & [=] & _)].
  destruct (Contains stdout "already initialized") eqn:Hout.
  - split.
    + intros [= <-]. exists state, stdout, err. split; [reflexivity | now left].
    + intros (? & ? & ? & [= <- <- <- <-] & _). reflexivity.
  - destruct err as [e|].
    + split; [discriminate|].
      intros (? & ? & ? & [= <- <- <- <-] & [Hc | [[=] _]]). congruence.
    + destruct (Z.eqb_spec state 0) as [-> | Hstate]; cbn [negb].
      * split.
        -- intros [= <-]. exists 0%Z, stdout, None. split; [reflexivity | now right].
        -- intros (? & ? & ? & [= <- <- <- <-] & _). reflexivity.
      * split; [discriminate|].
        intros (? & ? & ? & [= <- <- <- <-] & [Hc | [_ Hz]]); congruence.
Qed.

(** X22.  [resticBackup] returns no error exactly when the launch
    returned no error and the exit code 0. *)
Theorem resticBackup_nil_iff (fuel : nat) (r : engines.ResticEngine) (w w' : World) :
  engines.resticBackup fuel r w = (Returned None, w') <->
  exists stdout,
    engines.launchRestic fuel r
      ["-r"; engines.Target (engines.Volume_ r); "backup"; engines.BackupDir (engines.Volume_ r)]
      [engines.Mount (engines.Volume_ r)] w
    = (Returned (0%Z, stdout, None), w').
Proof.
  unfold engines.resticBackup, bind.
  destruct (engines.launchRestic fuel r _ _ w) as [[[[state stdout] err] | code | v | ] w1].
  2-4: split; [discriminate | intros (? & [=])].
  unfold ret. destruct (Z.eqb_spec state 0) as [-> | Hstate]; cbn [negb].
  - destruct err as [e|].
    + split; [discriminate | intros (? & [=])].
    + split; [intros [= <-]; now exists stdout | intros (? & [= <- <-]); reflexivity].
  - split; [discriminate | intros (? & [= -> _ _ _]); congruence].
Qed.

(** X23.  In [resticBackup] the exit code wins over the error of the
    launch: when the launch returns an exit code other than 0 together
    with an error, as it does when the logs of the exited worker cannot
    be retrieved, the error returned names the exit code and the error of
    the launch is lost. *)
Theorem resticBackup_exit_code_hides_error (fuel : nat) (r : engines.ResticEngine)
  (w : World) (state : Z) (stdout : string) (err : option error) (w' : World) :
  engines.launchRestic fuel r
    ["-r"; engines.Target (engines.Volume_ r); "backup"; engines.BackupDir (engines.Volume_ r)]
    [engines.Mount (engines.Volume_ r)] w
  = (Returned (state, stdout, err), w') ->
  state <> 0%Z ->
  engines.resticBackup fuel r w
  = (Returned (Some (Errorf "Restic exited with state %v while backuping the volume"
                       [Itoa state])), w').
Proof.
  intros Hlaunch Hstate. unfold engines.resticBackup, bind. rewrite Hlaunch.
  apply Z.eqb_neq in Hstate. rewrite Hstate. reflexivity.
Qed.

Lemma resticBackup_exit_code_hides_error_witness :
  let w := logsLostWorld 3 in
  let launch := engines.launchRestic 3 sampleEngine
                  ["-r"; engines.Target (engines.Volume_ sampleEngine); "backup";
                   engines.BackupDir (engines.Volume_ sampleEngine)]
                  [engines.Mount (engines.Volume_ sampleEngine)] w in
  launch = (Returned (3%Z, EmptyString,
                      Some (Errorf "failed to retrieve logs: %v"
                              [Error (New "connection reset")])), snd launch) /\
  3%Z <> 0%Z /\
  engines.resticBackup 3 sampleEngine w
  = (Returned (Some (Errorf "Restic exited with state %v while backuping the volume"
                       [Itoa 3])), snd launch).
Proof.
  cbv zeta. split; [reflexivity|]. split; [lia|].
  exact (resticBackup_exit_code_hides_error 3 sampleEngine (logsLostWorld 3) 3%Z EmptyString
           (Some (Errorf "failed to retrieve logs: %v" [Error (New "connection reset")]))
           _ eq_refl ltac:(lia)).
Defined.

(** X24.  A check that exits with a code other than 0 is no error of
    [verify]: the timestamp file is left alone, the exit code goes into
    the metric, and [verify] returns what the update of the metric
    returns. *)
Theorem verify_failed_check_not_an_error (fuel : nat) (r : engines.ResticEngine)
  (w : World) (state : Z) (stdout : string) (w' : World) (updated : option error) :
  engines.launchRestic fuel r
    ["-r"; engines.Target (engines.Volume_ r); "check"]
    [engines.Mount (engines.Volume_ r)] w
  = (Returned (state, stdout, None), w') ->
  state <> 0%Z ->
  outside w' (calls w')
    (MetricUpdateEvent "conplicity_verifyExitCode" "gauge"
       (engines.Name (engines.Volume_ r)) (Itoa state)) = Ans updated ->
  engines.verify fuel r w
  = (Returned updated,
     record (MetricUpdateEvent "conplicity_verifyExitCode" "gauge"
               (engines.Name (engines.Volume_ r)) (Itoa state)) w').
Proof.
  intros Hlaunch Hstate Hmetric. unfold engines.verify.
  unfold bind at 1. rewrite Hlaunch.
  apply Z.eqb_neq in Hstate. rewrite Hstate.
  unfold bind, ret, call. rewrite Hmetric. reflexivity.
Qed.

Lemma verify_failed_check_not_an_error_witness :
  let w := checkWorld 1 None in
  let launch := engines.launchRestic 3 sampleEngine
                  ["-r"; engines.Target (engines.Volume_ sampleEngine); "check"]
                  [engines.Mount (engines.Volume_ sampleEngine)] w in
  launch = (Returned (1%Z, "check output", None), snd launch) /\
  1%Z <> 0%Z /\
  outside (snd launch) (calls (snd launch))
    (MetricUpdateEvent "conplicity_verifyExitCode" "gauge" "data" (Itoa 1)) = Ans None /\
  engines.verify 3 sampleEngine w
  = (Returned None,
     record (MetricUpdateEvent "conplicity_verifyExitCode" "gauge" "data" (Itoa 1))
       (snd launch)).
Proof.
  cbv zeta. split; [reflexivity|]. split; [lia|]. split; [reflexivity|].
  exact (verify_failed_check_not_an_error 3 sampleEngine (checkWorld 1 None) 1%Z
           "check output" _ None eq_refl ltac:(lia) eq_refl).
Defined.

Lemma forallb_inspections (id : string) (n : nat) :
  forallb isLaunchCall (repeat (ContainerInspect id) n) = true.
Proof. induction n as [|n IH]; [reflexivity | exact IH]. Qed.

(** What runs under the deferred removal makes calls of a launch only. *)
Lemma runWorker_calls (fuel : nat) (cmd : list string) (id : string) (w : World) :
  forall out w', engines.runWorker fuel cmd id w = (out, w') ->
    exists l, calls w' = calls w ++ l /\ forallb isLaunchCall l = true.
Proof.
  intros out w' Hrun.
  unfold engines.runWorker in Hrun.
  unfold bind at 1, logf at 1 in Hrun. unfold bind at 1, call at 1 in Hrun.
  cbn [outside calls logs logged record] in Hrun.
  destruct (outside w (calls w) (ContainerStart id)) as [[e|] | v].
  1, 3: injection Hrun as <- <-; cbn; eexists; split; reflexivity.
  set (w1 := record _ _) in Hrun.
  destruct (waitExited_world id fuel w1) as (n & Hw & _).
  unfold bind at 1 in Hrun.
  destruct (engines.waitExited fuel id w1) as [o w2]. cbn in Hw. subst w2.
  assert (Hn : forall l, forallb isLaunchCall l = true ->
             forallb isLaunchCall (ContainerStart id :: repeat (ContainerInspect id) n ++ l)
             = true).
  { intros l Hl. cbn [forallb isLaunchCall andb].
    now rewrite forallb_app, forallb_inspections, Hl. }
  destruct o as [[e | state] | code | v | ].
  1, 3, 4, 5: injection Hrun as <- <-; cbn; rewrite <- app_assoc;
    exists (ContainerStart id :: repeat (ContainerInspect id) n ++ []);
    (split; [now rewrite app_nil_r | now apply Hn]).
  unfold bind, call, defer, engines.readLogs, bind, call, logf, ret in Hrun.
  cbn [outside calls logs logged record] in Hrun.
  revert Hrun. answer_cases; intros [= <- <-]; cbn;
    eexists; (split; [rewrite <- ?app_assoc; cbn; reflexivity | now apply Hn]).
Qed.

(** A launch makes calls of a launch only, and leaves the outside as it
    is. *)
Lemma launchRestic_calls (fuel : nat) (r : engines.ResticEngine) (cmd binds : list string)
  (w : World) :
  forall out w', engines.launchRestic fuel r cmd binds w = (out, w') ->
    exists l, calls w' = calls w ++ l /\ forallb isLaunchCall l = true.
Proof.
  intros out w'. unfold engines.launchRestic.
  unfold bind at 1, call at 1.
  destruct (outside w (calls w) _) as [[e0|] | v].
  1, 3: intros [= <- <-]; cbn; eexists; split; reflexivity.
  unfold bind at 1, logf at 1. unfold bind at 1, call at 1.
  cbn [outside calls logs logged record].
  destruct (outside w _ (engines.createCall r cmd binds)) as [[ct [e0|]] | v].
  1, 3: intros [= <- <-]; cbn; rewrite <- app_assoc; eexists; split; reflexivity.
  unfold defer. set (w0 := record _ _).
  destruct (engines.runWorker fuel cmd (docker.ID ct) w0) as [o1 w1] eqn:Hbody.
  apply runWorker_calls in Hbody as (l & Hcalls & Hl).
  assert (Hbefore : calls w1
            = calls w ++ [UtilPullImage (engines.ResticImage (engines.Handler r));
                          engines.createCall r cmd binds] ++ l).
  { rewrite Hcalls. subst w0. cbn [calls record logged]. now rewrite <- !app_assoc. }
  assert (Hafter : forall c, isLaunchCall c = true ->
            exists l', calls (record c w1) = calls w ++ l' /\ forallb isLaunchCall l' = true).
  { intros c Hc. cbn [calls record]. rewrite Hbefore, <- !app_assoc.
    eexists; split; [reflexivity|]. cbn [app forallb isLaunchCall engines.createCall andb].
    now rewrite forallb_app, Hl; cbn; rewrite Hc. }
  assert (Hnow : exists l', calls w1 = calls w ++ l' /\ forallb isLaunchCall l' = true).
  { rewrite Hbefore. eexists; split; [reflexivity|]. exact Hl. }
  destruct o1 as [a | code | v | ].
  1, 3: unfold bind, call;
    destruct (outside w1 (calls w1) (UtilRemoveContainer (docker.ID ct)));
    intros [= <- <-]; now apply Hafter.
  all: intros [= <- <-]; exact Hnow.
Qed.

(** X25.  [verify] touches a timestamp file only after a check that
    returned no error and the exit code 0, and the file it touches is
    [.conplicity_last_check] at the mount point of the volume. *)
Theorem verify_timestamp_only_on_success (fuel : nat) (r : engines.ResticEngine)
  (w : World) (path : string) :
  In (Chtimes path) (since w (snd (engines.verify fuel r w))) ->
  (exists stdout w1,
     engines.launchRestic fuel r
       ["-r"; engines.Target (engines.Volume_ r); "check"]
       [engines.Mount (engines.Volume_ r)] w
     = (Returned (0%Z, stdout, None), w1)) /\
  path = engines.Mountpoint (engines.Volume_ r) +:+ "/.conplicity_last_check".
Proof.
  unfold engines.verify. unfold bind at 1.
  destruct (engines.launchRestic fuel r _ _ w) as [o w1] eqn:Hlaunch.
  destruct (launchRestic_calls _ _ _ _ _ _ _ Hlaunch) as (l & Hcalls & Hl).
  assert (Hnone : ~ In (Chtimes path) l).
  { intros Hin. rewrite forallb_forall in Hl. specialize (Hl _ Hin). discriminate. }
  assert (Hquiet : forall c, c <> Chtimes path ->
            ~ In (Chtimes path) (since w (record c w1))).
  { intros c Hc. erewrite since_app by (cbn [calls record]; rewrite Hcalls, <- app_assoc;
                                         reflexivity).
    intros Hin. apply in_app_or in Hin as [Hin | [Hin | []]]; [now apply Hnone | congruence]. }
  destruct o as [[[state stdout] [e|]] | code | v | ]; cbn [snd].
  2: destruct (Z.eqb_spec state 0) as [-> | Hstate].
  - unfold ret. cbn [snd]. rewrite (since_app _ _ _ Hcalls). intros Hin. now destruct Hnone.
  - intros Hin. split; [now exists stdout, w1|].
    revert Hin. unfold bind, call, ret.
    destruct (outside w1 (calls w1) (Chtimes _)) as [a | v]; cbn [snd].
    + set (w2 := record (Chtimes _) w1).
      assert (Hcalls2 : forall c, since w (record c w2) = l ++ [Chtimes
                 (engines.Mountpoint (engines.Volume_ r) +:+ "/.conplicity_last_check"); c]).
      { intros c. apply since_app. subst w2. cbn [calls record].
        rewrite Hcalls, <- !app_assoc. reflexivity. }
      destruct (outside w2 (calls w2) _); cbn [snd]; rewrite Hcalls2;
        intros Hin; apply in_app_or in Hin as [Hin | [Hin | [Hin | []]]];
        solve [now destruct Hnone | congruence].
    + erewrite since_app by (cbn [calls record]; rewrite Hcalls, <- app_assoc; reflexivity).
      intros Hin; apply in_app_or in Hin as [Hin | [Hin | []]];
        solve [now destruct Hnone | congruence].
  - unfold bind, call, ret.
    destruct (outside w1 (calls w1) _); cbn [snd]; intros Hin;
      now apply Hquiet in Hin.
  - rewrite (since_app _ _ _ Hcalls). intros Hin. now destruct Hnone.
  - rewrite (since_app _ _ _ Hcalls). intros Hin. now destruct Hnone.
  - rewrite (since_app _ _ _ Hcalls). intros Hin. now destruct Hnone.
Qed.

Lemma verify_timestamp_only_on_success_witness :
  let w := checkWorld 0 None in
  In (Chtimes "/data/.conplicity_last_check") (since w (snd (engines.verify 3 sampleEngine w))) /\
  (exists stdout w1,
     engines.launchRestic 3 sampleEngine
       ["-r"; engines.Target (engines.Volume_ sampleEngine); "check"]
       [engines.Mount (engines.Volume_ sampleEngine)] w
     = (Returned (0%Z, stdout, None), w1)) /\
  "/data/.conplicity_last_check"
  = engines.Mountpoint (engines.Volume_ sampleEngine) +:+ "/.conplicity_last_check".
Proof.
  cbv zeta.
  assert (Hin : In (Chtimes "/data/.conplicity_last_check")
                  (since (checkWorld 0 None)
                     (snd (engines.verify 3 sampleEngine (checkWorld 0 None)))))
    by (vm_compute; auto 20).
  split; [exact Hin|].
  exact (verify_timestamp_only_on_success 3 sampleEngine (checkWorld 0 None) _ Hin).
Defined.

(** X26.  Once the target URL has parsed, [Backup] has rewritten the
    volume before anything is launched, and a [Backup] that returns gives
    the volume back that way whatever the launches did: the target is the
    parsed URL, the mount is [name:mountpoint:ro], and the directory to
    back up is the one the volume had with the mount point and a slash in
    front of it. *)
Theorem Backup_rewrites_volume (fuel : nat) (r : engines.ResticEngine) (w : World)
  (t : string) (r' : engines.ResticEngine) (err : option error) (w' : World) :
  outside w (calls w) (UrlParse (engines.TargetURL (engines.Volume_ r))) = Ans (t, None) ->
  engines.Backup fuel r w = (Returned (r', err), w') ->
  engines.Handler r' = engines.Handler r /\
  engines.Volume_ r'
  = {| engines.Name := engines.Name (engines.Volume_ r);
       engines.Mountpoint := engines.Mountpoint (engines.Volume_ r);
       engines.TargetURL := engines.TargetURL (engines.Volume_ r);
       engines.Target := t;
       engines.BackupDir :=
         engines.Mountpoint (engines.Volume_ r) +:+ "/" +:+ engines.BackupDir (engines.Volume_ r);
       engines.Mount :=
         engines.Name (engines.Volume_ r) +:+ ":" +:+
         engines.Mountpoint (engines.Volume_ r) +:+ ":ro" |}.
Proof.
  intros Hurl. unfold engines.Backup. unfold bind at 1, call at 1. rewrite Hurl.
  unfold bind at 1.
  destruct (util.Retry 3 (engines.init fuel _) _) as [[[e|] | | | ] w1]; try discriminate.
  { intros [= <- _ _]. split; reflexivity. }
  unfold bind at 1.
  destruct (util.Retry 3 (engines.resticBackup fuel _) _) as [[[e|] | | | ] w2];
    try discriminate.
  { intros [= <- _ _]. split; reflexivity. }
  unfold bind at 1, call at 1.
  destruct (outside w2 (calls w2) _) as [[b [e|]] | v]; try discriminate.
  { intros [= <- _ _]. split; reflexivity. }
  unfold bind at 1.
  destruct (util.Retry 3 (engines.verify fuel _) _) as [[[e|] | | | ] w3]; try discriminate;
    intros [= <- _ _]; split; reflexivity.
Qed.

Lemma Backup_rewrites_volume_witness :
  let r' := {| engines.Handler := engines.Handler sampleEngine;
               engines.Volume_ :=
                 {| engines.Name := "data";
                    engines.Mountpoint := "/data";
                    engines.TargetURL := "s3://bucket/host/data";
                    engines.Target := "s3://bucket/host/data";
                    engines.BackupDir := "/data//data/";
                    engines.Mount := "data:/data:ro" |} |} in
  outside backupWorld (calls backupWorld)
    (UrlParse (engines.TargetURL (engines.Volume_ sampleEngine)))
  = Ans ("s3://bucket/host/data", None) /\
  engines.Backup 3 sampleEngine backupWorld
  = (Returned (r', None), snd (engines.Backup 3 sampleEngine backupWorld)) /\
  engines.Handler r' = engines.Handler sampleEngine /\
  engines.Volume_ r'
  = {| engines.Name := "data";
       engines.Mountpoint := "/data";
       engines.TargetURL := "s3://bucket/host/data";
       engines.Target := "s3://bucket/host/data";
       engines.BackupDir := "/data" +:+ "/" +:+ "/data/";
       engines.Mount := "data" +:+ ":" +:+ "/data" +:+ ":ro" |}.
Proof.
  cbv zeta. split; [reflexivity|].
  assert (Hrun : engines.Backup 3 sampleEngine backupWorld
                 = (Returned
                      ({| engines.Handler := engines.Handler sampleEngine;
                          engines.Volume_ :=
                            {| engines.Name := "data";
                               engines.Mountpoint := "/data";
                               engines.TargetURL := "s3://bucket/host/data";
                               engines.Target := "s3://bucket/host/data";
                               engines.BackupDir := "/data//data/";
                               engines.Mount := "data:/data:ro" |} |}, None),
                    snd (engines.Backup 3 sampleEngine backupWorld)))
    by (vm_compute; reflexivity).
  split; [exact Hrun|].
  exact (Backup_rewrites_volume 3 sampleEngine backupWorld "s3://bucket/host/data" _ None _
           eq_refl Hrun).
Defined.
